(** * Skywatcher mount protocol driver: a shallow embedding of
    drivers/telescope/skywatcherAPI.{h,cpp}.

    Conventions of the embedding.
    - Integers are [Z]; the C types are LP64: [long] and [unsigned long] are
      64 bits wide, [uint32_t] is 32 bits, and every conversion between them
      is written out ([to_ulong], [to_long], [to_uint32]).
    - [double] is IEEE binary64, i.e. Rocq's primitive [float]; the decimal
      literals of the source are written as the binary64 value they denote.
    - [std::string] and C strings are [list ascii].
    - The serial port is an oracle: the outcome of the n-th write and of the
      n-th read are given by two functions, and every call on the port is
      appended to a trace.  Unbounded loops of the source take a fuel. *)

From Stdlib Require Import ZArith Ascii String List Bool Lia Floats.
Import ListNotations.
Open Scope Z_scope.

(** ** C integer types (LP64) *)

Definition to_ulong (z : Z) : Z := z mod 2 ^ 64.

Definition to_uint32 (z : Z) : Z := z mod 2 ^ 32.

Definition to_long (z : Z) : Z :=
  let u := to_ulong z in
  if u <? 2 ^ 63 then u else u - 2 ^ 64.

(** ** Strings *)

Definition cstring := list ascii.

Definition str (s : string) : cstring := list_ascii_of_string s.

(** [String[i]]: reading at or past the end yields the terminating NUL. *)
Definition str_at (s : cstring) (i : nat) : ascii := nth i s Ascii.zero.

Definition char_code (c : ascii) : Z := Z.of_N (N_of_ascii c).

Definition CR : ascii := ascii_of_N 13.

(** The C string starting at a buffer: everything before the first NUL. *)
Fixpoint c_str (buf : list ascii) : cstring :=
  match buf with
  | [] => []
  | c :: rest => if (N_of_ascii c =? 0)%N then [] else c :: c_str rest
  end.

(** ** Output formatting: [std::hex << std::uppercase << std::setfill('0')] *)

Definition hexdigit (d : Z) : ascii :=
  ascii_of_N (Z.to_N (if d <? 10 then 48 + d else 55 + d)).

Fixpoint hex_digits (fuel : nat) (n : Z) (acc : cstring) : cstring :=
  match fuel with
  | O => acc
  | S k =>
      let acc' := hexdigit (n mod 16) :: acc in
      if n / 16 =? 0 then acc' else hex_digits k (n / 16) acc'
  end.

(** A [long] or [long long] streamed in hex prints its 64-bit pattern. *)
Definition print_hex (n : Z) : cstring := hex_digits 16 (to_ulong n) [].

(** [std::hex] without [std::uppercase]: the digits a..f in lower case. *)
Definition hexdigit_lower (d : Z) : ascii :=
  ascii_of_N (Z.to_N (if d <? 10 then 48 + d else 87 + d)).

Fixpoint hex_digits_lower (fuel : nat) (n : Z) (acc : cstring) : cstring :=
  match fuel with
  | O => acc
  | S k =>
      let acc' := hexdigit_lower (n mod 16) :: acc in
      if n / 16 =? 0 then acc' else hex_digits_lower k (n / 16) acc'
  end.

Definition print_hex_lower (n : Z) : cstring := hex_digits_lower 16 (to_ulong n) [].

Definition setw_fill0 (w : nat) (s : cstring) : cstring :=
  repeat "0"%char (w - length s)%nat ++ s.

(** ** [double] *)

Definition M_PI : float := 0x1.921fb54442d18p+1%float.

(** [(double)z] for [z] a [long]: round to nearest, ties to even. *)
Definition double_of_long (z : Z) : float :=
  SF2Prim (binary_normalize prec emax z 0 false).

Definition LONG_MIN : Z := - 2 ^ 63.

(** [(long)f]: truncation toward zero.  Out of range, infinite or NaN the
    conversion is undefined in C++; the x86-64 result (the "integer
    indefinite" value, [LONG_MIN]) is used. *)
Definition double_to_long (f : float) : Z :=
  match Prim2SF f with
  | S754_zero _ => 0
  | S754_finite s m e =>
      let mag := match e with
                 | Zneg p => Z.shiftr (Zpos m) (Zpos p)
                 | _ => Z.shiftl (Zpos m) e
                 end in
      let v := if s then - mag else mag in
      if (LONG_MIN <=? v) && (v <? 2 ^ 63) then v else LONG_MIN
  | _ => LONG_MIN
  end.

(** [a > b] and [a <= b] on doubles. *)
Definition dgt (a b : float) : bool := PrimFloat.ltb b a.
Definition dle (a b : float) : bool := PrimFloat.leb a b.
Definition dlt (a b : float) : bool := PrimFloat.ltb a b.
Definition dge (a b : float) : bool := PrimFloat.leb b a.

(** Constants of the class, in radians per second.
    [86164.09065] is the binary64 value 0x1.50941734d6a16p+16. *)
Definition SIDEREALRATE : float :=
  (2 * M_PI / 0x1.50941734d6a16p+16)%float.
Definition MAX_SPEED : float := 500%float.
Definition LOW_SPEED_MARGIN : float := (128 * SIDEREALRATE)%float.

(** [0.655] is the binary64 value 0x1.4f5c28f5c28f6p-1. *)
Definition MERLIN_SCALE : float := 0x1.4f5c28f5c28f6p-1%float.

(** ** Axes and per-axis arrays ([T name[2]]) *)

Inductive AXISID := AXIS1 | AXIS2.

Record per_axis (A : Type) := Axes { axis1 : A; axis2 : A }.
Arguments Axes {A}.
Arguments axis1 {A}.
Arguments axis2 {A}.

Definition axis_get {A} (a : per_axis A) (x : AXISID) : A :=
  match x with AXIS1 => axis1 a | AXIS2 => axis2 a end.

Definition axis_set {A} (a : per_axis A) (x : AXISID) (v : A) : per_axis A :=
  match x with
  | AXIS1 => Axes v (axis2 a)
  | AXIS2 => Axes (axis1 a) v
  end.

(** ** AXISSTATUS *)

Record AXISSTATUS := mkAXISSTATUS {
  FullStop : bool;
  Slewing : bool;
  SlewingTo : bool;
  SlewingForward : bool;
  HighSpeed : bool;
  NotInitialized : bool
}.

Definition AXISSTATUS_init : AXISSTATUS :=
  mkAXISSTATUS false false false false false true.

Definition SetFullStop (a : AXISSTATUS) : AXISSTATUS :=
  mkAXISSTATUS true false false (SlewingForward a) (HighSpeed a) (NotInitialized a).

Definition SetSlewing (forward highspeed : bool) (a : AXISSTATUS) : AXISSTATUS :=
  mkAXISSTATUS false true false forward highspeed (NotInitialized a).

Definition SetSlewingTo (forward highspeed : bool) (a : AXISSTATUS) : AXISSTATUS :=
  mkAXISSTATUS false false true forward highspeed (NotInitialized a).

(** Exactly one of the three motion-phase flags is set. *)
Definition one_phase (a : AXISSTATUS) : bool :=
  match FullStop a, Slewing a, SlewingTo a with
  | true, false, false | false, true, false | false, false, true => true
  | _, _, _ => false
  end.

(** ** The serial port (indicom's tty functions) *)

(** The return codes of indicom.h that the driver tells apart. *)
Inductive TTY_ERROR := TTY_OK | TTY_TIME_OUT | TTY_READ_ERROR | TTY_WRITE_ERROR.

Definition tty_ok (rc : TTY_ERROR) : bool :=
  match rc with TTY_OK => true | _ => false end.

Definition tty_timed_out (rc : TTY_ERROR) : bool :=
  match rc with TTY_TIME_OUT => true | _ => false end.

Inductive PortEvent :=
| EvFlush                                   (* tcflush(MyPortFD, TCIOFLUSH) *)
| EvWrite (bytes : cstring)                 (* tty_write, tty_write_string *)
| EvReadSection (stop : ascii) (timeout : Z) (* tty_read_section *)
| EvRead (nbytes timeout : Z)               (* tty_read *)
| EvSleep (ms : Z).                         (* std::this_thread::sleep_for *)

Record Port := mkPort {
  write_outcome : nat -> TTY_ERROR;          (* of the n-th write *)
  read_outcome : nat -> TTY_ERROR * cstring; (* of the n-th read: code, bytes *)
  nwrites : nat;
  nreads : nat;
  trace : list PortEvent
}.

Definition emit (e : PortEvent) (p : Port) : Port :=
  mkPort (write_outcome p) (read_outcome p) (nwrites p) (nreads p) (trace p ++ [e]).

Definition tcflush (p : Port) : Port := emit EvFlush p.

Definition sleep_for (ms : Z) (p : Port) : Port := emit (EvSleep ms) p.

Definition tty_write (p : Port) (bytes : cstring) : TTY_ERROR * Port :=
  (write_outcome p (nwrites p),
   mkPort (write_outcome p) (read_outcome p) (S (nwrites p)) (nreads p)
          (trace p ++ [EvWrite bytes])).

Definition port_read (e : PortEvent) (p : Port) : TTY_ERROR * cstring * Port :=
  (read_outcome p (nreads p),
   mkPort (write_outcome p) (read_outcome p) (nwrites p) (S (nreads p))
          (trace p ++ [e])).

Definition tty_read_section (p : Port) (stop : ascii) (timeout : Z) :=
  port_read (EvReadSection stop timeout) p.

Definition tty_read (p : Port) (nbytes timeout : Z) :=
  port_read (EvRead nbytes timeout) p.

Definition SKYWATCHER_MAX_RETRTY : nat := 3.
Definition SKYWATCHER_TIMEOUT : Z := 5.
Definition SKYWATCHER_MAX_CMD : nat := 16.

(** A port whose reads follow a script (a read past the script times out)
    and whose writes follow a list of outcomes (then succeed). *)
Definition scripted_reads (l : list (TTY_ERROR * cstring)) (n : nat)
    : TTY_ERROR * cstring :=
  nth n l (TTY_TIME_OUT, []).

Definition scripted_writes (l : list TTY_ERROR) (n : nat) : TTY_ERROR :=
  nth n l TTY_OK.

Definition reply (s : string) : TTY_ERROR * cstring := (TTY_OK, str s ++ [CR]).

Definition port_of (writes : list TTY_ERROR) (reads : list (TTY_ERROR * cstring))
    : Port :=
  mkPort (scripted_writes writes) (scripted_reads reads) 0 0 [].

(** A stand-in for the undeclared [stol] where a concrete run needs one. *)
Definition stol_zero (_ : cstring) (_ _ : Z) : Z := 0.

(** What a legacy EQ6 (firmware 02.07.00, stepper motors, already
    initialised) answers during [InitMount], then to a status poll and to
    the three commands of a slew. *)
Definition eq6_session : list (TTY_ERROR * cstring) :=
  [ (TTY_TIME_OUT, []);               (* nothing pending on the line *)
    (TTY_TIME_OUT, []);               (* ":" is not echoed: stepper motors *)
    reply "=020700";                  (* :e1 *)
    reply "=00B289"; reply "=00B289"; (* :a1 :a2, 0x89B200 microsteps *)
    reply "=40420F"; reply "=40420F"; (* :b1 :b2, 1 MHz *)
    reply "=10"; reply "=10";         (* :g1 :g2, ratio 16 *)
    reply "=001900"; reply "=001900"; (* :s1 :s2 *)
    reply "=101"; reply "=101";       (* :f1 :f2, stopped and initialised *)
    reply "=101";                     (* :f1, stopped *)
    reply "="; reply "="; reply "=" ] (* :G1 :I1 :J1 *).

(** What a 114GT (firmware 02.07.82, DC motors) answers during [InitMount]. *)
Definition gt114_session : list (TTY_ERROR * cstring) :=
  [ (TTY_TIME_OUT, []);               (* nothing pending on the line *)
    (TTY_OK, [":"%char]);             (* ":" is echoed: DC motors *)
    reply "=020782";                  (* :e1 *)
    reply "=00B289"; reply "=00B289"; (* :a1 :a2 *)
    reply "=40420F"; reply "=40420F"; (* :b1 :b2 *)
    reply "=10"; reply "=10";         (* :g1 :g2 *)
    reply "=101"; reply "=101" ]      (* :f1 :f2 *).

(** The reversal of the three byte pairs that the specification asks of a
    caller between [Long2BCDstr] and [BCDstr2long].  It is not in the
    source; it only serves to state that the codec does without it. *)
Definition reverse_byte_pairs (s : cstring) : cstring :=
  match s with
  | [a; b; c; d; e; f] => [e; f; c; d; a; b]
  | _ => s
  end.

Section Driver.

(** Whether plain [char] is signed is implementation-defined (signed on
    x86-64, unsigned on ARM Linux). *)
Variable char_is_signed : bool.

(** [stol(text, 8, 16)] is called by the advanced-command-set readers but is
    declared nowhere in the sources; it is kept abstract. *)
Variable stol : cstring -> Z -> Z -> Z.

(** A [char] promoted to [int]. *)
Definition char_to_int (c : ascii) : Z :=
  let n := char_code c in
  if 128 <=? n then (if char_is_signed then n - 256 else n) else n.

(** ** Wire codec *)

(** [#define HEX(c) (((c) < 'A') ? ((c) - '0') : ((c) - 'A') + 10)] *)
Definition HEX (c : Z) : Z := if c <? 65 then c - 48 else c - 65 + 10.

Definition HEXat (s : cstring) (i : nat) : Z := HEX (char_to_int (str_at s i)).

(** [value <<= 4] on an [unsigned long]. *)
Definition shl4 (value : Z) : Z := to_ulong (Z.shiftl value 4).

(** [value |= i] with [i] an [int], converted to [unsigned long]. *)
Definition or_int (value i : Z) : Z := Z.lor value (to_ulong i).

Definition BCDstr2long (String : cstring) : Z :=
  if negb (length String =? 6)%nat then 0
  else
    let value := to_ulong (HEXat String 4) in
    let value := shl4 value in
    let value := or_int value (HEXat String 5) in
    let value := shl4 value in
    let value := or_int value (HEXat String 2) in
    let value := shl4 value in
    let value := or_int value (HEXat String 3) in
    let value := shl4 value in
    let value := or_int value (HEXat String 0) in
    let value := shl4 value in
    let value := or_int value (HEXat String 1) in
    value.

Definition Highstr2long (String : cstring) : Z :=
  if (length String <? 2)%nat then 0
  else
    let res := to_ulong (HEXat String 0) in
    let res := shl4 res in
    let res := or_int res (HEXat String 1) in
    res.

Definition Long2BCDstr (Number : Z) : cstring :=
  setw_fill0 2 (print_hex (Z.land Number 0xff))
  ++ setw_fill0 2 (print_hex (Z.shiftr (Z.land Number 0xff00) 8))
  ++ setw_fill0 2 (print_hex (Z.shiftr (Z.land Number 0xff0000) 16)).

(** ** The driver object

    The data members of [class SkywatcherAPI]; [MyPortFD] stands for the open
    serial port.  Logging ([MYDEBUG], [MYDEBUGF]) is a side channel and is
    left out. *)

Record SkywatcherAPI := mkAPI {
  MCVersion : Z;
  MountCode : Z;
  IsDCMotor : bool;
  SilentSlewMode : bool;
  MicrostepsPerRevolution : per_axis Z;
  StepperClockFrequency : per_axis Z;
  HighSpeedRatio : per_axis Z;
  MicrostepsPerWormRevolution : per_axis Z;
  RadiansPerMicrostep : per_axis float;
  MicrostepsPerRadian : per_axis float;
  DegreesPerMicrostep : per_axis float;
  MicrostepsPerDegree : per_axis float;
  LowSpeedGotoMargin : per_axis Z;
  LastSlewToTarget : per_axis Z;
  CurrentEncoders : per_axis Z;
  PolarisPositionEncoders : per_axis Z;
  ZeroPositionEncoders : per_axis Z;
  AxesStatus : per_axis AXISSTATUS;
  SlewingSpeed : per_axis float;
  SupportAdvancedCommandSet : bool;
  MyPortFD : Port
}.

(** Assignments to one data member. *)

Definition set_MCVersion (v : Z) (s : SkywatcherAPI) : SkywatcherAPI :=
  mkAPI v (MountCode s) (IsDCMotor s) (SilentSlewMode s)
    (MicrostepsPerRevolution s) (StepperClockFrequency s) (HighSpeedRatio s)
    (MicrostepsPerWormRevolution s) (RadiansPerMicrostep s)
    (MicrostepsPerRadian s) (DegreesPerMicrostep s) (MicrostepsPerDegree s)
    (LowSpeedGotoMargin s) (LastSlewToTarget s) (CurrentEncoders s)
    (PolarisPositionEncoders s) (ZeroPositionEncoders s) (AxesStatus s)
    (SlewingSpeed s) (SupportAdvancedCommandSet s) (MyPortFD s).

Definition set_MountCode (v : Z) (s : SkywatcherAPI) : SkywatcherAPI :=
  mkAPI (MCVersion s) v (IsDCMotor s) (SilentSlewMode s)
    (MicrostepsPerRevolution s) (StepperClockFrequency s) (HighSpeedRatio s)
    (MicrostepsPerWormRevolution s) (RadiansPerMicrostep s)
    (MicrostepsPerRadian s) (DegreesPerMicrostep s) (MicrostepsPerDegree s)
    (LowSpeedGotoMargin s) (LastSlewToTarget s) (CurrentEncoders s)
    (PolarisPositionEncoders s) (ZeroPositionEncoders s) (AxesStatus s)
    (SlewingSpeed s) (SupportAdvancedCommandSet s) (MyPortFD s).

Definition set_IsDCMotor (v : bool) (s : SkywatcherAPI) : SkywatcherAPI :=
  mkAPI (MCVersion s) (MountCode s) v (SilentSlewMode s)
    (MicrostepsPerRevolution s) (StepperClockFrequency s) (HighSpeedRatio s)
    (MicrostepsPerWormRevolution s) (RadiansPerMicrostep s)
    (MicrostepsPerRadian s) (DegreesPerMicrostep s) (MicrostepsPerDegree s)
    (LowSpeedGotoMargin s) (LastSlewToTarget s) (CurrentEncoders s)
    (PolarisPositionEncoders s) (ZeroPositionEncoders s) (AxesStatus s)
    (SlewingSpeed s) (SupportAdvancedCommandSet s) (MyPortFD s).

Definition set_SilentSlewMode (v : bool) (s : SkywatcherAPI) : SkywatcherAPI :=
  mkAPI (MCVersion s) (MountCode s) (IsDCMotor s) v
    (MicrostepsPerRevolution s) (StepperClockFrequency s) (HighSpeedRatio s)
    (MicrostepsPerWormRevolution s) (RadiansPerMicrostep s)
    (MicrostepsPerRadian s) (DegreesPerMicrostep s) (MicrostepsPerDegree s)
    (LowSpeedGotoMargin s) (LastSlewToTarget s) (CurrentEncoders s)
    (PolarisPositionEncoders s) (ZeroPositionEncoders s) (AxesStatus s)
    (SlewingSpeed s) (SupportAdvancedCommandSet s) (MyPortFD s).

Definition set_MicrostepsPerRevolution (v : per_axis Z) (s : SkywatcherAPI) : SkywatcherAPI :=
  mkAPI (MCVersion s) (MountCode s) (IsDCMotor s) (SilentSlewMode s) v
    (StepperClockFrequency s) (HighSpeedRatio s)
    (MicrostepsPerWormRevolution s) (RadiansPerMicrostep s)
    (MicrostepsPerRadian s) (DegreesPerMicrostep s) (MicrostepsPerDegree s)
    (LowSpeedGotoMargin s) (LastSlewToTarget s) (CurrentEncoders s)
    (PolarisPositionEncoders s) (ZeroPositionEncoders s) (AxesStatus s)
    (SlewingSpeed s) (SupportAdvancedCommandSet s) (MyPortFD s).

Definition set_StepperClockFrequency (v : per_axis Z) (s : SkywatcherAPI) : SkywatcherAPI :=
  mkAPI (MCVersion s) (MountCode s) (IsDCMotor s) (SilentSlewMode s)
    (MicrostepsPerRevolution s) v (HighSpeedRatio s)
    (MicrostepsPerWormRevolution s) (RadiansPerMicrostep s)
    (MicrostepsPerRadian s) (DegreesPerMicrostep s) (MicrostepsPerDegree s)
    (LowSpeedGotoMargin s) (LastSlewToTarget s) (CurrentEncoders s)
    (PolarisPositionEncoders s) (ZeroPositionEncoders s) (AxesStatus s)
    (SlewingSpeed s) (SupportAdvancedCommandSet s) (MyPortFD s).

Definition set_HighSpeedRatio (v : per_axis Z) (s : SkywatcherAPI) : SkywatcherAPI :=
  mkAPI (MCVersion s) (MountCode s) (IsDCMotor s) (SilentSlewMode s)
    (MicrostepsPerRevolution s) (StepperClockFrequency s) v
    (MicrostepsPerWormRevolution s) (RadiansPerMicrostep s)
    (MicrostepsPerRadian s) (DegreesPerMicrostep s) (MicrostepsPerDegree s)
    (LowSpeedGotoMargin s) (LastSlewToTarget s) (CurrentEncoders s)
    (PolarisPositionEncoders s) (ZeroPositionEncoders s) (AxesStatus s)
    (SlewingSpeed s) (SupportAdvancedCommandSet s) (MyPortFD s).

Definition set_MicrostepsPerWormRevolution (v : per_axis Z) (s : SkywatcherAPI) : SkywatcherAPI :=
  mkAPI (MCVersion s) (MountCode s) (IsDCMotor s) (SilentSlewMode s)
    (MicrostepsPerRevolution s) (StepperClockFrequency s) (HighSpeedRatio s) v
    (RadiansPerMicrostep s) (MicrostepsPerRadian s) (DegreesPerMicrostep s)
    (MicrostepsPerDegree s) (LowSpeedGotoMargin s) (LastSlewToTarget s)
    (CurrentEncoders s) (PolarisPositionEncoders s) (ZeroPositionEncoders s)
    (AxesStatus s) (SlewingSpeed s) (SupportAdvancedCommandSet s) (MyPortFD s).

Definition set_RadiansPerMicrostep (v : per_axis float) (s : SkywatcherAPI) : SkywatcherAPI :=
  mkAPI (MCVersion s) (MountCode s) (IsDCMotor s) (SilentSlewMode s)
    (MicrostepsPerRevolution s) (StepperClockFrequency s) (HighSpeedRatio s)
    (MicrostepsPerWormRevolution s) v (MicrostepsPerRadian s)
    (DegreesPerMicrostep s) (MicrostepsPerDegree s) (LowSpeedGotoMargin s)
    (LastSlewToTarget s) (CurrentEncoders s) (PolarisPositionEncoders s)
    (ZeroPositionEncoders s) (AxesStatus s) (SlewingSpeed s)
    (SupportAdvancedCommandSet s) (MyPortFD s).

Definition set_MicrostepsPerRadian (v : per_axis float) (s : SkywatcherAPI) : SkywatcherAPI :=
  mkAPI (MCVersion s) (MountCode s) (IsDCMotor s) (SilentSlewMode s)
    (MicrostepsPerRevolution s) (StepperClockFrequency s) (HighSpeedRatio s)
    (MicrostepsPerWormRevolution s) (RadiansPerMicrostep s) v
    (DegreesPerMicrostep s) (MicrostepsPerDegree s) (LowSpeedGotoMargin s)
    (LastSlewToTarget s) (CurrentEncoders s) (PolarisPositionEncoders s)
    (ZeroPositionEncoders s) (AxesStatus s) (SlewingSpeed s)
    (SupportAdvancedCommandSet s) (MyPortFD s).

Definition set_DegreesPerMicrostep (v : per_axis float) (s : SkywatcherAPI) : SkywatcherAPI :=
  mkAPI (MCVersion s) (MountCode s) (IsDCMotor s) (SilentSlewMode s)
    (MicrostepsPerRevolution s) (StepperClockFrequency s) (HighSpeedRatio s)
    (MicrostepsPerWormRevolution s) (RadiansPerMicrostep s)
    (MicrostepsPerRadian s) v (MicrostepsPerDegree s) (LowSpeedGotoMargin s)
    (LastSlewToTarget s) (CurrentEncoders s) (PolarisPositionEncoders s)
    (ZeroPositionEncoders s) (AxesStatus s) (SlewingSpeed s)
    (SupportAdvancedCommandSet s) (MyPortFD s).

Definition set_MicrostepsPerDegree (v : per_axis float) (s : SkywatcherAPI) : SkywatcherAPI :=
  mkAPI (MCVersion s) (MountCode s) (IsDCMotor s) (SilentSlewMode s)
    (MicrostepsPerRevolution s) (StepperClockFrequency s) (HighSpeedRatio s)
    (MicrostepsPerWormRevolution s) (RadiansPerMicrostep s)
    (MicrostepsPerRadian s) (DegreesPerMicrostep s) v (LowSpeedGotoMargin s)
    (LastSlewToTarget s) (CurrentEncoders s) (PolarisPositionEncoders s)
    (ZeroPositionEncoders s) (AxesStatus s) (SlewingSpeed s)
    (SupportAdvancedCommandSet s) (MyPortFD s).

Definition set_LowSpeedGotoMargin (v : per_axis Z) (s : SkywatcherAPI) : SkywatcherAPI :=
  mkAPI (MCVersion s) (MountCode s) (IsDCMotor s) (SilentSlewMode s)
    (MicrostepsPerRevolution s) (StepperClockFrequency s) (HighSpeedRatio s)
    (MicrostepsPerWormRevolution s) (RadiansPerMicrostep s)
    (MicrostepsPerRadian s) (DegreesPerMicrostep s) (MicrostepsPerDegree s) v
    (LastSlewToTarget s) (CurrentEncoders s) (PolarisPositionEncoders s)
    (ZeroPositionEncoders s) (AxesStatus s) (SlewingSpeed s)
    (SupportAdvancedCommandSet s) (MyPortFD s).

Definition set_LastSlewToTarget (v : per_axis Z) (s : SkywatcherAPI) : SkywatcherAPI :=
  mkAPI (MCVersion s) (MountCode s) (IsDCMotor s) (SilentSlewMode s)
    (MicrostepsPerRevolution s) (StepperClockFrequency s) (HighSpeedRatio s)
    (MicrostepsPerWormRevolution s) (RadiansPerMicrostep s)
    (MicrostepsPerRadian s) (DegreesPerMicrostep s) (MicrostepsPerDegree s)
    (LowSpeedGotoMargin s) v (CurrentEncoders s) (PolarisPositionEncoders s)
    (ZeroPositionEncoders s) (AxesStatus s) (SlewingSpeed s)
    (SupportAdvancedCommandSet s) (MyPortFD s).

Definition set_CurrentEncoders (v : per_axis Z) (s : SkywatcherAPI) : SkywatcherAPI :=
  mkAPI (MCVersion s) (MountCode s) (IsDCMotor s) (SilentSlewMode s)
    (MicrostepsPerRevolution s) (StepperClockFrequency s) (HighSpeedRatio s)
    (MicrostepsPerWormRevolution s) (RadiansPerMicrostep s)
    (MicrostepsPerRadian s) (DegreesPerMicrostep s) (MicrostepsPerDegree s)
    (LowSpeedGotoMargin s) (LastSlewToTarget s) v (PolarisPositionEncoders s)
    (ZeroPositionEncoders s) (AxesStatus s) (SlewingSpeed s)
    (SupportAdvancedCommandSet s) (MyPortFD s).

Definition set_PolarisPositionEncoders (v : per_axis Z) (s : SkywatcherAPI) : SkywatcherAPI :=
  mkAPI (MCVersion s) (MountCode s) (IsDCMotor s) (SilentSlewMode s)
    (MicrostepsPerRevolution s) (StepperClockFrequency s) (HighSpeedRatio s)
    (MicrostepsPerWormRevolution s) (RadiansPerMicrostep s)
    (MicrostepsPerRadian s) (DegreesPerMicrostep s) (MicrostepsPerDegree s)
    (LowSpeedGotoMargin s) (LastSlewToTarget s) (CurrentEncoders s) v
    (ZeroPositionEncoders s) (AxesStatus s) (SlewingSpeed s)
    (SupportAdvancedCommandSet s) (MyPortFD s).

Definition set_ZeroPositionEncoders (v : per_axis Z) (s : SkywatcherAPI) : SkywatcherAPI :=
  mkAPI (MCVersion s) (MountCode s) (IsDCMotor s) (SilentSlewMode s)
    (MicrostepsPerRevolution s) (StepperClockFrequency s) (HighSpeedRatio s)
    (MicrostepsPerWormRevolution s) (RadiansPerMicrostep s)
    (MicrostepsPerRadian s) (DegreesPerMicrostep s) (MicrostepsPerDegree s)
    (LowSpeedGotoMargin s) (LastSlewToTarget s) (CurrentEncoders s)
    (PolarisPositionEncoders s) v (AxesStatus s) (SlewingSpeed s)
    (SupportAdvancedCommandSet s) (MyPortFD s).

Definition set_AxesStatus (v : per_axis AXISSTATUS) (s : SkywatcherAPI) : SkywatcherAPI :=
  mkAPI (MCVersion s) (MountCode s) (IsDCMotor s) (SilentSlewMode s)
    (MicrostepsPerRevolution s) (StepperClockFrequency s) (HighSpeedRatio s)
    (MicrostepsPerWormRevolution s) (RadiansPerMicrostep s)
    (MicrostepsPerRadian s) (DegreesPerMicrostep s) (MicrostepsPerDegree s)
    (LowSpeedGotoMargin s) (LastSlewToTarget s) (CurrentEncoders s)
    (PolarisPositionEncoders s) (ZeroPositionEncoders s) v (SlewingSpeed s)
    (SupportAdvancedCommandSet s) (MyPortFD s).

Definition set_SlewingSpeed (v : per_axis float) (s : SkywatcherAPI) : SkywatcherAPI :=
  mkAPI (MCVersion s) (MountCode s) (IsDCMotor s) (SilentSlewMode s)
    (MicrostepsPerRevolution s) (StepperClockFrequency s) (HighSpeedRatio s)
    (MicrostepsPerWormRevolution s) (RadiansPerMicrostep s)
    (MicrostepsPerRadian s) (DegreesPerMicrostep s) (MicrostepsPerDegree s)
    (LowSpeedGotoMargin s) (LastSlewToTarget s) (CurrentEncoders s)
    (PolarisPositionEncoders s) (ZeroPositionEncoders s) (AxesStatus s) v
    (SupportAdvancedCommandSet s) (MyPortFD s).

Definition set_SupportAdvancedCommandSet (v : bool) (s : SkywatcherAPI) : SkywatcherAPI :=
  mkAPI (MCVersion s) (MountCode s) (IsDCMotor s) (SilentSlewMode s)
    (MicrostepsPerRevolution s) (StepperClockFrequency s) (HighSpeedRatio s)
    (MicrostepsPerWormRevolution s) (RadiansPerMicrostep s)
    (MicrostepsPerRadian s) (DegreesPerMicrostep s) (MicrostepsPerDegree s)
    (LowSpeedGotoMargin s) (LastSlewToTarget s) (CurrentEncoders s)
    (PolarisPositionEncoders s) (ZeroPositionEncoders s) (AxesStatus s)
    (SlewingSpeed s) v (MyPortFD s).

Definition set_MyPortFD (v : Port) (s : SkywatcherAPI) : SkywatcherAPI :=
  mkAPI (MCVersion s) (MountCode s) (IsDCMotor s) (SilentSlewMode s)
    (MicrostepsPerRevolution s) (StepperClockFrequency s) (HighSpeedRatio s)
    (MicrostepsPerWormRevolution s) (RadiansPerMicrostep s)
    (MicrostepsPerRadian s) (DegreesPerMicrostep s) (MicrostepsPerDegree s)
    (LowSpeedGotoMargin s) (LastSlewToTarget s) (CurrentEncoders s)
    (PolarisPositionEncoders s) (ZeroPositionEncoders s) (AxesStatus s)
    (SlewingSpeed s) (SupportAdvancedCommandSet s) v.

(** [AxesStatus[Axis].member = ...] *)
Definition update_status (Axis : AXISID) (f : AXISSTATUS -> AXISSTATUS)
    (s : SkywatcherAPI) : SkywatcherAPI :=
  set_AxesStatus (axis_set (AxesStatus s) Axis (f (axis_get (AxesStatus s) Axis))) s.

Definition with_FullStop (b : bool) (a : AXISSTATUS) : AXISSTATUS :=
  mkAXISSTATUS b (Slewing a) (SlewingTo a) (SlewingForward a) (HighSpeed a) (NotInitialized a).
Definition with_Slewing (b : bool) (a : AXISSTATUS) : AXISSTATUS :=
  mkAXISSTATUS (FullStop a) b (SlewingTo a) (SlewingForward a) (HighSpeed a) (NotInitialized a).
Definition with_SlewingTo (b : bool) (a : AXISSTATUS) : AXISSTATUS :=
  mkAXISSTATUS (FullStop a) (Slewing a) b (SlewingForward a) (HighSpeed a) (NotInitialized a).
Definition with_SlewingForward (b : bool) (a : AXISSTATUS) : AXISSTATUS :=
  mkAXISSTATUS (FullStop a) (Slewing a) (SlewingTo a) b (HighSpeed a) (NotInitialized a).
Definition with_HighSpeed (b : bool) (a : AXISSTATUS) : AXISSTATUS :=
  mkAXISSTATUS (FullStop a) (Slewing a) (SlewingTo a) (SlewingForward a) b (NotInitialized a).
Definition with_NotInitialized (b : bool) (a : AXISSTATUS) : AXISSTATUS :=
  mkAXISSTATUS (FullStop a) (Slewing a) (SlewingTo a) (SlewingForward a) (HighSpeed a) b.

(** ** The exchange primitive: [TalkWithAxis] *)

Definition axis_char (Axis : AXISID) : ascii :=
  match Axis with AXIS1 => "1"%char | AXIS2 => "2"%char end.

(** The bytes of a read land at the start of the [response] buffer; so do
    the characters [snprintf] writes into [command]. *)
Definition store_bytes (bytes buf : list ascii) : list ascii :=
  bytes ++ skipn (length bytes) buf.

(** [buf[i] = c] *)
Definition put_at (i : nat) (c : ascii) (buf : list ascii) : list ascii :=
  firstn i buf ++ c :: skipn (S i) buf.

(** What [tty_write_string] sends for [command]:
    - [char command[SKYWATCHER_MAX_CMD] = {0}] is 16 NUL bytes;
    - [snprintf(command, SKYWATCHER_MAX_CMD, ":%c%c%s", ...)] writes ':', the
      command letter and the axis digit as they are (a NUL letter included),
      then the payload up to its first NUL, at most 15 characters in all;
    - [command[strlen(command)] = 0xD] puts the carriage return over the
      first NUL of the buffer;
    - [tty_write_string] sends the buffer up to its first NUL.
    With 15 characters the carriage return takes the place of the last NUL
    of the buffer and [tty_write_string] runs past the array, which is
    undefined; the model then stops at the end of the buffer. *)
Definition frame_command (Axis : AXISID) (Command : ascii) (cmdDataStr : cstring)
    : cstring :=
  let formatted := ":"%char :: Command :: axis_char Axis :: c_str cmdDataStr in
  let command :=
    store_bytes (firstn (SKYWATCHER_MAX_CMD - 1) formatted)
                (repeat Ascii.zero SKYWATCHER_MAX_CMD) in
  let command := put_at (length (c_str command)) CR command in
  c_str command.

(** The [for (retries = 0; retries < SKYWATCHER_MAX_RETRTY; retries++)] loop.
    [left] is the number of iterations the loop condition still allows.  The
    state of the loop is the [response] buffer and [bytesRead].  The result
    is [None] when the loop body executes [return false], and the final
    buffer and byte count when the loop is left by [break] (or by its
    condition). *)
Fixpoint exchange_attempts (left retries : nat) (command : cstring)
    (response : list ascii) (bytesRead : nat) (p : Port)
    : option (list ascii * nat) * Port :=
  match left with
  | O => (Some (response, bytesRead), p)
  | S left' =>
      let p := tcflush p in
      let '(errorCode, p) := tty_write p command in
      if negb (tty_ok errorCode) then
        if (retries =? SKYWATCHER_MAX_RETRTY - 1)%nat then (None, p)
        else exchange_attempts left' (S retries) command response bytesRead
                               (sleep_for 100 p)
      else
        let '(errorCode, bytes, p) := tty_read_section p CR SKYWATCHER_TIMEOUT in
        let response := store_bytes bytes response in
        let bytesRead := length bytes in
        if negb (tty_ok errorCode) || (bytesRead <? 2)%nat then
          if (retries =? SKYWATCHER_MAX_RETRTY - 1)%nat then (None, p)
          else exchange_attempts left' (S retries) command response bytesRead
                                 (sleep_for 100 p)
        else (Some (response, bytesRead), p)
  end.

(** [TalkWithAxis] on the port.  [responseStr] is the caller's string: it is
    left as it was when the exchange returns from inside the loop. *)
Definition exchange (Axis : AXISID) (Command : ascii) (cmdDataStr responseStr : cstring)
    (p : Port) : bool * cstring * Port :=
  let command := frame_command Axis Command cmdDataStr in
  let response := repeat Ascii.zero SKYWATCHER_MAX_CMD in
  match exchange_attempts SKYWATCHER_MAX_RETRTY 0 command response 0 p with
  | (None, p) => (false, responseStr, p)
  | (Some (response, bytesRead), p) =>
      (* Remove CR (0x0D) *)
      let response := put_at (bytesRead - 1) Ascii.zero response in
      (* Skip first = or ! *)
      let responseStr := c_str (skipn 1 response) in
      if Ascii.eqb (nth 0 response Ascii.zero) "!"%char
      then (false, responseStr, p)
      else (true, responseStr, p)
  end.

Definition TalkWithAxis (Axis : AXISID) (Command : ascii)
    (cmdDataStr responseStr : cstring) (s : SkywatcherAPI)
    : bool * cstring * SkywatcherAPI :=
  let '(ok, responseStr, p) :=
    exchange Axis Command cmdDataStr responseStr (MyPortFD s) in
  (ok, responseStr, set_MyPortFD p s).

(** Advanced command words of the header. *)
Definition rRESOLUTION : cstring := str "0002".
Definition rENCODER : cstring := str "0003".
Definition rWORM_RESOLUTION : cstring := str "000E".
Definition wSET_SPEED : cstring := str "02".

Definition _114GT : Z := 0x82.

(** ** Readers *)

Definition IsMerlinMount (s : SkywatcherAPI) : bool :=
  (0x80 <=? MountCode s) && (MountCode s <? 0x90).

Definition GetEncoder (Axis : AXISID) (s : SkywatcherAPI) : bool * SkywatcherAPI :=
  if SupportAdvancedCommandSet s then
    let '(ok, Response, s) := TalkWithAxis Axis "X"%char rENCODER [] s in
    if negb ok then (false, s)
    else
      (true, set_CurrentEncoders
               (axis_set (CurrentEncoders s) Axis (to_long (stol (skipn 1 Response) 8 16))) s)
  else
    let '(ok, Response, s) := TalkWithAxis Axis "j"%char [] [] s in
    if negb ok then (false, s)
    else
      let Microsteps := to_long (BCDstr2long Response) in
      (* Only accept valid data *)
      if 0 <? Microsteps
      then (true, set_CurrentEncoders (axis_set (CurrentEncoders s) Axis Microsteps) s)
      else (true, s).

Definition GetHighSpeedRatio (Axis : AXISID) (s : SkywatcherAPI) : bool * SkywatcherAPI :=
  let '(ok, Response, s) := TalkWithAxis Axis "g"%char [] [] s in
  if negb ok then (false, s)
  else
    let highSpeedRatio := Highstr2long Response in
    if highSpeedRatio =? 0 then (false, s)
    else (true, set_HighSpeedRatio
                  (axis_set (HighSpeedRatio s) Axis (to_long highSpeedRatio)) s).

Definition GetMicrostepsPerRevolution (Axis : AXISID) (s : SkywatcherAPI)
    : bool * SkywatcherAPI :=
  let '(ok, tmpMicrostepsPerRevolution, s) :=
    if SupportAdvancedCommandSet s then
      let '(ok, Response, s) := TalkWithAxis Axis "X"%char rRESOLUTION [] s in
      (ok, to_long (stol (skipn 1 Response) 8 16), s)
    else
      let '(ok, Response, s) := TalkWithAxis Axis "a"%char [] [] s in
      (ok, to_long (BCDstr2long Response), s) in
  if negb ok then (false, s)
  else if tmpMicrostepsPerRevolution =? 0 then (false, s)
  else
    let tmpMicrostepsPerRevolution :=
      if MountCode s =? _114GT then 0x205318 (* for 114GT mount *)
      else tmpMicrostepsPerRevolution in
    let tmpMicrostepsPerRevolution :=
      if IsMerlinMount s
      then double_to_long (double_of_long tmpMicrostepsPerRevolution * MERLIN_SCALE)%float
      else tmpMicrostepsPerRevolution in
    let d := double_of_long tmpMicrostepsPerRevolution in
    let s := set_MicrostepsPerRevolution
               (axis_set (MicrostepsPerRevolution s) Axis tmpMicrostepsPerRevolution) s in
    let s := set_MicrostepsPerRadian
               (axis_set (MicrostepsPerRadian s) Axis (d / (2 * M_PI))%float) s in
    let s := set_RadiansPerMicrostep
               (axis_set (RadiansPerMicrostep s) Axis (2 * M_PI / d)%float) s in
    let s := set_MicrostepsPerDegree
               (axis_set (MicrostepsPerDegree s) Axis (d / 360)%float) s in
    let s := set_DegreesPerMicrostep
               (axis_set (DegreesPerMicrostep s) Axis (360 / d)%float) s in
    (true, s).

Definition GetMicrostepsPerWormRevolution (Axis : AXISID) (s : SkywatcherAPI)
    : bool * SkywatcherAPI :=
  if SupportAdvancedCommandSet s then
    let '(ok, Response, s) := TalkWithAxis Axis "X"%char rWORM_RESOLUTION [] s in
    if negb ok then (false, s)
    else
      let value := to_uint32 (stol (skipn 1 Response) 8 16) in
      (true, set_MicrostepsPerWormRevolution
               (axis_set (MicrostepsPerWormRevolution s) Axis value) s)
  else
    let '(ok, Response, s) := TalkWithAxis Axis "s"%char [] [] s in
    if negb ok then (false, s)
    else
      let value := to_uint32 (BCDstr2long Response) in
      if value =? 0 then (false, s)
      else (true, set_MicrostepsPerWormRevolution
                    (axis_set (MicrostepsPerWormRevolution s) Axis value) s).

Definition GetMotorBoardVersion (Axis : AXISID) (s : SkywatcherAPI)
    : bool * SkywatcherAPI :=
  let '(ok, Response, s) := TalkWithAxis Axis "e"%char [] [] s in
  if negb ok then (false, s)
  else
    let tmpMCVersion := BCDstr2long Response in
    (true, set_MCVersion
             (Z.lor (Z.lor (to_ulong (Z.shiftl (Z.land tmpMCVersion 0xFF) 16))
                           (Z.land tmpMCVersion 0xFF00))
                    (Z.shiftr (Z.land tmpMCVersion 0xFF0000) 16)) s).

Definition GetStepperClockFrequency (Axis : AXISID) (s : SkywatcherAPI)
    : bool * SkywatcherAPI :=
  let '(ok, Response, s) := TalkWithAxis Axis "b"%char [] [] s in
  if negb ok then (false, s)
  else
    let value := to_uint32 (BCDstr2long Response) in
    if value =? 0 then (false, s)
    else (true, set_StepperClockFrequency
                  (axis_set (StepperClockFrequency s) Axis value) s).

(** [Response[i] & mask] *)
Definition char_and (c : ascii) (mask : Z) : Z := Z.land (char_to_int c) mask.

Definition GetStatus (Axis : AXISID) (s : SkywatcherAPI) : bool * SkywatcherAPI :=
  let '(ok, Response, s) := TalkWithAxis Axis "f"%char [] [] s in
  if negb ok then (false, s)
  else
    let s :=
      if negb (char_and (str_at Response 1) 1 =? 0) then
        (* Axis is running *)
        let s := update_status Axis (with_FullStop false) s in
        if negb (char_and (str_at Response 0) 1 =? 0) then
          let s := update_status Axis (with_Slewing true) s in
          update_status Axis (with_SlewingTo false) s
        else
          let s := update_status Axis (with_SlewingTo true) s in
          update_status Axis (with_Slewing false) s
      else
        let s :=
          if SlewingTo (axis_get (AxesStatus s) Axis)
          then snd (GetEncoder Axis s)   (* If the mount was doing a slew to *)
          else s in
        let s := update_status Axis (with_FullStop true) s in
        let s := update_status Axis (with_Slewing false) s in
        update_status Axis (with_SlewingTo false) s in
    let s :=
      if char_and (str_at Response 0) 2 =? 0
      then update_status Axis (with_SlewingForward true) s
      else update_status Axis (with_SlewingForward false) s in
    let s :=
      if negb (char_and (str_at Response 0) 4 =? 0)
      then update_status Axis (with_HighSpeed true) s
      else update_status Axis (with_HighSpeed false) s in
    let s :=
      if char_and (str_at Response 2) 1 =? 0
      then update_status Axis (with_NotInitialized true) s
      else update_status Axis (with_NotInitialized false) s in
    (true, s).

(** ** Commands *)

Definition InitializeMC (s : SkywatcherAPI) : bool * SkywatcherAPI :=
  let '(ok, _, s) := TalkWithAxis AXIS1 "F"%char [] [] s in
  if negb ok then (false, s)
  else
    let '(ok, _, s) := TalkWithAxis AXIS2 "F"%char [] [] s in
    if negb ok then (false, s) else (true, s).

Definition InstantStop (Axis : AXISID) (s : SkywatcherAPI) : bool * SkywatcherAPI :=
  let '(ok, _, s) := TalkWithAxis Axis "L"%char [] [] s in
  if negb ok then (false, s)
  else (true, update_status Axis SetFullStop s).

Definition SetGotoTargetOffset (Axis : AXISID) (OffsetInMicrosteps : Z)
    (s : SkywatcherAPI) : bool * SkywatcherAPI :=
  let '(ok, _, s) := TalkWithAxis Axis "H"%char (Long2BCDstr OffsetInMicrosteps) [] s in
  (ok, s).

Definition SetMotionMode (Axis : AXISID) (Func Direction : ascii)
    (s : SkywatcherAPI) : bool * SkywatcherAPI :=
  let '(ok, _, s) := TalkWithAxis Axis "G"%char [Func; Direction] [] s in
  (ok, s).

Definition SetClockTicksPerMicrostep (Axis : AXISID) (ClockTicksPerMicrostep : Z)
    (s : SkywatcherAPI) : bool * SkywatcherAPI :=
  let '(ok, _, s) := TalkWithAxis Axis "I"%char (Long2BCDstr ClockTicksPerMicrostep) [] s in
  (ok, s).

Definition SetSlewToModeDeccelerationRampLength (Axis : AXISID) (Microsteps : Z)
    (s : SkywatcherAPI) : bool * SkywatcherAPI :=
  let '(ok, _, s) := TalkWithAxis Axis "M"%char (Long2BCDstr Microsteps) [] s in
  (ok, s).

Definition StartMotion (Axis : AXISID) (s : SkywatcherAPI) : bool * SkywatcherAPI :=
  let '(ok, _, s) := TalkWithAxis Axis "J"%char [] [] s in
  (ok, s).

Definition IsInMotion (Axis : AXISID) (s : SkywatcherAPI) : bool :=
  Slewing (axis_get (AxesStatus s) Axis) || SlewingTo (axis_get (AxesStatus s) Axis).

Definition RadiansToMicrosteps (Axis : AXISID) (AngleInRadians : float)
    (s : SkywatcherAPI) : Z :=
  double_to_long (AngleInRadians * axis_get (MicrostepsPerRadian s) Axis)%float.

Definition RadiansPerSecondToClocksTicksPerMicrostep (Axis : AXISID)
    (RadiansPerSecond : float) (s : SkywatcherAPI) : Z :=
  let MicrostepsPerSecond :=
    (RadiansPerSecond * axis_get (MicrostepsPerRadian s) Axis)%float in
  double_to_long
    (double_of_long (axis_get (StepperClockFrequency s) Axis) / MicrostepsPerSecond)%float.

(** ** Slewing *)

(** Clamp to MAX_SPEED *)
Definition clamp_speed (SpeedInRadiansPerSecond : float) : float :=
  if dgt SpeedInRadiansPerSecond MAX_SPEED then MAX_SPEED
  else if dlt SpeedInRadiansPerSecond (- MAX_SPEED)%float then (- MAX_SPEED)%float
  else SpeedInRadiansPerSecond.

(** The last two statements of [Slew]. *)
Definition Slew_record (Axis : AXISID) (Forward HighSpeed : bool)
    (SpeedInRadiansPerSecond : float) (s : SkywatcherAPI) : SkywatcherAPI :=
  let s := update_status Axis (SetSlewing Forward HighSpeed) s in
  set_SlewingSpeed (axis_set (SlewingSpeed s) Axis SpeedInRadiansPerSecond) s.

(** [Slew] when [SupportAdvancedCommandSet] holds: the then-branch and the
    two closing statements.  [Forward] and [HighSpeed] are the variables
    declared at the top of [Slew].  The source calls [RadiansToMicrosteps]
    without its axis argument; the axis of the call is used.  The stream of
    this branch sets [std::hex] but not [std::uppercase]. *)
Definition Slew_advanced (Axis : AXISID) (SpeedInRadiansPerSecond : float)
    (s : SkywatcherAPI) : SkywatcherAPI :=
  let Forward := false in
  let HighSpeed := false in
  let SpeedInRadiansPerSecond := clamp_speed SpeedInRadiansPerSecond in
  let Parameters :=
    wSET_SPEED ++
    setw_fill0 16
      (print_hex_lower
         (to_long (RadiansToMicrosteps Axis SpeedInRadiansPerSecond s * 1024))) in
  let '(_, _, s) := TalkWithAxis Axis "X"%char Parameters [] s in
  let Forward := if dgt SpeedInRadiansPerSecond 0 then true else Forward in
  Slew_record Axis Forward HighSpeed SpeedInRadiansPerSecond s.

(** [SlowStop]: the advanced branch calls [Slew(Axis, 0, true)] and reaches
    the end of the function without a [return]; the result is then [None]. *)
Definition SlowStop (Axis : AXISID) (s : SkywatcherAPI) : option bool * SkywatcherAPI :=
  if SupportAdvancedCommandSet s then (None, Slew_advanced Axis 0%float s)
  else
    let '(ok, _, s) := TalkWithAxis Axis "K"%char [] [] s in
    (Some ok, s).

(** The polling loop [while (true) { GetStatus(Axis); if (FullStop) break;
    sleep 100 ms }].  It has no bound in the source; [None] is the loop
    still running when the fuel is spent. *)
Fixpoint wait_for_full_stop (fuel : nat) (Axis : AXISID) (s : SkywatcherAPI)
    : option SkywatcherAPI :=
  match fuel with
  | O => None
  | S fuel' =>
      let s := snd (GetStatus Axis s) in
      if FullStop (axis_get (AxesStatus s) Axis) then Some s
      else wait_for_full_stop fuel' Axis (set_MyPortFD (sleep_for 100 (MyPortFD s)) s)
  end.

(** The motion-mode step that closes [PrepareForSlewing]: the direction
    character and the [Func] code passed to [SetMotionMode]. *)
Definition slew_motion_mode (Speed : float) : ascii * ascii :=
  let '(Direction, Speed) :=
    if dgt Speed 0 then ("0"%char, Speed) else ("1"%char, (- Speed)%float) in
  if dgt Speed LOW_SPEED_MARGIN then ("3"%char, Direction) else ("1"%char, Direction).

Definition PrepareForSlewing (fuel : nat) (Axis : AXISID) (Speed : float)
    (s : SkywatcherAPI) : option SkywatcherAPI :=
  (* Update the axis status *)
  let '(ok, s) := GetStatus Axis s in
  if negb ok then Some s
  else
    let select (s : SkywatcherAPI) : option SkywatcherAPI :=
      let '(Func, Direction) := slew_motion_mode Speed in
      Some (snd (SetMotionMode Axis Func Direction s)) in
    let st := axis_get (AxesStatus s) Axis in
    if negb (FullStop st) then
      (* Axis is running *)
      if SlewingTo st
         || HighSpeed st
         || dge (PrimFloat.abs Speed) LOW_SPEED_MARGIN
         || (SlewingForward st && dlt Speed 0)
         || (negb (SlewingForward st) && dgt Speed 0)
      then
        (* I need to stop the axis first *)
        let s := snd (SlowStop Axis s) in
        match wait_for_full_stop fuel Axis s with
        | None => None
        | Some s => select s
        end
      else Some s (* NO need change motion mode *)
    else select s.

(** [Slew].  The legacy branch declares [Forward] and [HighSpeed] again:
    these inner variables ([Forward_inner], [HighSpeed_inner]) end with the
    branch, and the closing call [SetSlewing(Forward, HighSpeed)] reads the
    variables declared at the top of the function. *)
Definition Slew (fuel : nat) (Axis : AXISID) (SpeedInRadiansPerSecond : float)
    (IgnoreSilentMode : bool) (s : SkywatcherAPI) : option SkywatcherAPI :=
  if SupportAdvancedCommandSet s
  then Some (Slew_advanced Axis SpeedInRadiansPerSecond s)
  else
    let Forward := false in
    let HighSpeed := false in
    let SpeedInRadiansPerSecond := clamp_speed SpeedInRadiansPerSecond in
    let InternalSpeed := SpeedInRadiansPerSecond in
    if dle (PrimFloat.abs InternalSpeed) (SIDEREALRATE / 1000)%float then
      Some (snd (SlowStop Axis s))
    else
      (* Stop motor and set motion mode if necessary *)
      match PrepareForSlewing fuel Axis InternalSpeed s with
      | None => None
      | Some s =>
          let '(Forward_inner, InternalSpeed) :=
            if dgt InternalSpeed 0 then (true, InternalSpeed)
            else (false, (- InternalSpeed)%float) in
          let HighSpeed_inner := false in
          let '(InternalSpeed, HighSpeed_inner) :=
            if dgt InternalSpeed LOW_SPEED_MARGIN
               && (IgnoreSilentMode || negb (SilentSlewMode s))
            then ((InternalSpeed / double_of_long (axis_get (HighSpeedRatio s) Axis))%float,
                  true)
            else (InternalSpeed, HighSpeed_inner) in
          let SpeedInt := RadiansPerSecondToClocksTicksPerMicrostep Axis InternalSpeed s in
          let SpeedInt :=
            if (MCVersion s =? 0x010600) || (MCVersion s =? 0x0010601)
            then to_long (SpeedInt - 3) else SpeedInt in
          let SpeedInt := if SpeedInt <? 6 then 6 else SpeedInt in
          let s := snd (SetClockTicksPerMicrostep Axis SpeedInt s) in
          let s := snd (StartMotion Axis s) in
          Some (Slew_record Axis Forward HighSpeed SpeedInRadiansPerSecond s)
      end.

Definition SlewTo (fuel : nat) (Axis : AXISID) (OffsetInMicrosteps : Z) (verbose : bool)
    (s : SkywatcherAPI) : option SkywatcherAPI :=
  (* Nothing to do *)
  if OffsetInMicrosteps =? 0 then Some s
  else
    let s := set_LastSlewToTarget
               (axis_set (LastSlewToTarget s) Axis
                  (to_long (axis_get (CurrentEncoders s) Axis + OffsetInMicrosteps))) s in
    let '(Direction, Forward, OffsetInMicrosteps) :=
      if OffsetInMicrosteps <? 0
      then ("1"%char, false, to_long (- OffsetInMicrosteps))
      else ("0"%char, true, OffsetInMicrosteps) in
    let HighSpeed' :=
      (axis_get (LowSpeedGotoMargin s) Axis <? OffsetInMicrosteps)
      && negb (SilentSlewMode s) in
    let '(ok, s) := GetStatus Axis s in
    if negb ok then Some s
    else
      let go (s : SkywatcherAPI) : option SkywatcherAPI :=
        let s := snd (SetMotionMode Axis (if HighSpeed' then "0"%char else "2"%char)
                                    Direction s) in
        let s := snd (SetGotoTargetOffset Axis OffsetInMicrosteps s) in
        let s :=
          if HighSpeed'
          then snd (SetSlewToModeDeccelerationRampLength Axis
                      (if 3200 <? OffsetInMicrosteps then 3200 else OffsetInMicrosteps) s)
          else snd (SetSlewToModeDeccelerationRampLength Axis
                      (if 200 <? OffsetInMicrosteps then 200 else OffsetInMicrosteps) s) in
        let s := snd (StartMotion Axis s) in
        Some (update_status Axis (SetSlewingTo Forward HighSpeed') s) in
      let st := axis_get (AxesStatus s) Axis in
      if negb (FullStop st)
         && (SlewingTo st
             || HighSpeed st
             || HighSpeed'
             || (SlewingForward st && negb Forward)
             || (negb (SlewingForward st) && Forward))
      then
        (* I need to stop the axis first *)
        let s := snd (SlowStop Axis s) in
        match wait_for_full_stop fuel Axis s with
        | None => None
        | Some s => go s
        end
      else go s.

(** ** Initialisation *)

(** The loop that drains the read buffer in [CheckIfDCMotor]: [Some true]
    when a read times out ([break]), [Some false] on [return false]. *)
Fixpoint drain_input (fuel : nat) (p : Port) : option (bool * Port) :=
  match fuel with
  | O => None
  | S fuel' =>
      let '(rc, _, p) := tty_read p 20 1 in
      if tty_timed_out rc then Some (true, p)
      else if negb (tty_ok rc) then Some (false, p)
      else drain_input fuel' p
  end.

Definition CheckIfDCMotor (fuel : nat) (s : SkywatcherAPI)
    : option (bool * SkywatcherAPI) :=
  match drain_input fuel (MyPortFD s) with
  | None => None
  | Some (false, p) => Some (false, set_MyPortFD p s)
  | Some (true, p) =>
      let '(rc, p) := tty_write p [":"%char] in
      if negb (tty_ok rc) then Some (false, set_MyPortFD p s)
      else
        let '(rc, input, p) := tty_read p 1 1 in
        let s := set_MyPortFD p s in
        if tty_ok rc && (length input =? 1)%nat
           && Ascii.eqb (nth 0 input Ascii.zero) ":"%char
        then Some (true, set_IsDCMotor true s)
        else if tty_timed_out rc then Some (true, set_IsDCMotor false s)
        else Some (false, s)
  end.

(** [if (!f(...)) return false;] followed by the rest of the function. *)
Definition and_then (r : bool * SkywatcherAPI)
    (k : SkywatcherAPI -> bool * SkywatcherAPI) : bool * SkywatcherAPI :=
  let '(ok, s) := r in if negb ok then (false, s) else k s.

(** The part of [InitMount] after [CheckIfDCMotor]. *)
Definition InitMount_queries (s : SkywatcherAPI) : bool * SkywatcherAPI :=
  and_then (GetMotorBoardVersion AXIS1 s) (fun s =>
  (* Firmware 3.22 or above supports the advanced command set. *)
  let s := if 0x032200 <=? MCVersion s
           then set_SupportAdvancedCommandSet true s
           else set_SupportAdvancedCommandSet false s in
  let s := set_MountCode (Z.land (MCVersion s) 0xFF) s in
  (* Inquire Gear Rate *)
  and_then (GetMicrostepsPerRevolution AXIS1 s) (fun s =>
  and_then (GetMicrostepsPerRevolution AXIS2 s) (fun s =>
  (* Get stepper clock frequency *)
  and_then (GetStepperClockFrequency AXIS1 s) (fun s =>
  and_then (GetStepperClockFrequency AXIS2 s) (fun s =>
  (* Inquire motor high speed ratio *)
  and_then (GetHighSpeedRatio AXIS1 s) (fun s =>
  and_then (GetHighSpeedRatio AXIS2 s) (fun s =>
  (* Inquire PEC period; DC motor controller does not support PEC *)
  let s := if negb (IsDCMotor s)
           then snd (GetMicrostepsPerWormRevolution AXIS2
                       (snd (GetMicrostepsPerWormRevolution AXIS1 s)))
           else s in
  let s := snd (GetStatus AXIS1 s) in
  let s := snd (GetStatus AXIS2 s) in
  let margins (s : SkywatcherAPI) : bool * SkywatcherAPI :=
    let s := set_LowSpeedGotoMargin
               (axis_set (LowSpeedGotoMargin s) AXIS1
                  (double_to_long
                     (640 * SIDEREALRATE * axis_get (MicrostepsPerRadian s) AXIS1)%float)) s in
    let s := set_LowSpeedGotoMargin
               (axis_set (LowSpeedGotoMargin s) AXIS2
                  (double_to_long
                     (640 * SIDEREALRATE * axis_get (MicrostepsPerRadian s) AXIS2)%float)) s in
    (true, s) in
  (* In case not init, let's do that *)
  if NotInitialized (axis_get (AxesStatus s) AXIS1)
     && NotInitialized (axis_get (AxesStatus s) AXIS2)
  then
    (* Inquire Axis Position *)
    and_then (GetEncoder AXIS1 s) (fun s =>
    and_then (GetEncoder AXIS2 s) (fun s =>
    let s := set_PolarisPositionEncoders
               (Axes (axis_get (CurrentEncoders s) AXIS1)
                     (axis_get (CurrentEncoders s) AXIS2)) s in
    let s := set_ZeroPositionEncoders
               (Axes (axis_get (PolarisPositionEncoders s) AXIS1)
                     (axis_get (PolarisPositionEncoders s) AXIS2)) s in
    and_then (InitializeMC s) margins))
  else
    (* Mount already initialized *)
    let s := if SupportAdvancedCommandSet s
             then set_PolarisPositionEncoders (Axes 0 0) s
             else set_PolarisPositionEncoders (Axes 0x800000 0x800000) s in
    let s := set_ZeroPositionEncoders
               (Axes (axis_get (PolarisPositionEncoders s) AXIS1)
                     (axis_get (PolarisPositionEncoders s) AXIS2)) s in
    margins s))))))).

Definition InitMount (fuel : nat) (s : SkywatcherAPI) : option (bool * SkywatcherAPI) :=
  match CheckIfDCMotor fuel s with
  | None => None
  | Some (false, s) => Some (false, s)
  | Some (true, s) => Some (InitMount_queries s)
  end.

(** The object as the constructor and the default member initialisers leave
    it, on a given port.  The members the constructor does not initialise
    are taken as zero. *)
Definition SkywatcherAPI_new (p : Port) : SkywatcherAPI :=
  mkAPI 0 0 false true
        (Axes 0 0) (Axes 0 0) (Axes 0 0) (Axes 0 0)
        (Axes 0%float 0%float) (Axes 0%float 0%float)
        (Axes 0%float 0%float) (Axes 0%float 0%float)
        (Axes 0 0) (Axes 0 0) (Axes 0 0) (Axes 0 0) (Axes 0 0)
        (Axes AXISSTATUS_init AXISSTATUS_init)
        (Axes 0%float 0%float) false p.

(** ** Reading a trace *)

(** Every attempt of an exchange starts with one flush of the port. *)
Definition count_flushes (t : list PortEvent) : nat :=
  length (filter (fun e => match e with EvFlush => true | _ => false end) t).

(** What one attempt leaves on the trace when it does not end in a valid
    response: the flush, the write, the read if the write went through, and
    the 100 ms pause unless it is the last attempt. *)
Definition failed_attempt (command : cstring) (write_ok last : bool) : list PortEvent :=
  [EvFlush; EvWrite command]
  ++ (if write_ok then [EvReadSection CR SKYWATCHER_TIMEOUT] else [])
  ++ (if last then [] else [EvSleep 100]).

(** ** Concrete sessions *)

Definition eq6_fresh : SkywatcherAPI := SkywatcherAPI_new (port_of [] eq6_session).

(** The driver after [InitMount] on the EQ6. *)
Definition eq6_initialised : SkywatcherAPI :=
  match InitMount 8 eq6_fresh with
  | Some (_, s) => s
  | None => eq6_fresh
  end.

Definition gt114_fresh : SkywatcherAPI := SkywatcherAPI_new (port_of [] gt114_session).

(** A driver that knows its mount is a 114GT and is about to read the
    resolution of an axis. *)
Definition gt114_before_query : SkywatcherAPI :=
  set_MountCode _114GT (SkywatcherAPI_new (port_of [] [reply "=00B289"])).

(** A driver with known encoder values whose mount answers the next query
    with the given reply. *)
Definition driver_awaiting (r : TTY_ERROR * cstring) : SkywatcherAPI :=
  set_CurrentEncoders (Axes 5 7) (SkywatcherAPI_new (port_of [] [r])).

(** A port whose first two writes fail, and one that only ever delivers the
    terminator. *)
Definition port_two_write_errors : Port :=
  port_of [TTY_WRITE_ERROR; TTY_WRITE_ERROR] [reply "="].

Definition port_one_byte_reads : Port :=
  mkPort (fun _ => TTY_OK) (fun _ => (TTY_OK, [CR])) 0 0 [].

(** The outcome of the i-th write and of the i-th read from now on. *)
Definition nth_write_ok (p : Port) (i : nat) : bool :=
  tty_ok (write_outcome p (nwrites p + i)).

Definition nth_read (p : Port) (i : nat) : TTY_ERROR * cstring :=
  read_outcome p (nreads p + i).

(** The port after the flush and the write of an attempt, and after its read. *)
Definition after_write (p : Port) (command : cstring) : Port :=
  snd (tty_write (tcflush p) command).

Definition after_read (p : Port) (command : cstring) : Port :=
  snd (tty_read_section (after_write p command) CR SKYWATCHER_TIMEOUT).

(** A port [dw] writes, [dr] reads and the events [evs] later. *)
Definition port_shift (p : Port) (dw dr : nat) (evs : list PortEvent) : Port :=
  mkPort (write_outcome p) (read_outcome p) (nwrites p + dw) (nreads p + dr)
         (trace p ++ evs).

(** ** Well-formed payloads *)

(** The characters [Long2BCDstr] can produce: '0'..'9' and 'A'..'F'. *)
Definition is_hex_upper (c : ascii) : bool :=
  let n := char_code c in
  ((48 <=? n) && (n <=? 57)) || ((65 <=? n) && (n <=? 70)).

(** A string of hexadecimal digits read left to right, most significant
    digit first. *)
Definition hex_value (s : cstring) : Z :=
  fold_left (fun acc c => 16 * acc + HEX (char_to_int c)) s 0.

(** ** Shapes of state changes *)

(** The five members [GetMicrostepsPerRevolution] assigns, from one value. *)
Definition with_resolution (Axis : AXISID) (tmp : Z) (s : SkywatcherAPI) : SkywatcherAPI :=
  let d := double_of_long tmp in
  set_DegreesPerMicrostep (axis_set (DegreesPerMicrostep s) Axis (360 / d)%float)
    (set_MicrostepsPerDegree (axis_set (MicrostepsPerDegree s) Axis (d / 360)%float)
       (set_RadiansPerMicrostep (axis_set (RadiansPerMicrostep s) Axis (2 * M_PI / d)%float)
          (set_MicrostepsPerRadian (axis_set (MicrostepsPerRadian s) Axis (d / (2 * M_PI))%float)
             (set_MicrostepsPerRevolution (axis_set (MicrostepsPerRevolution s) Axis tmp) s)))).


(** The members a motion command may assign: the port, the status flags,
    the encoder values, the slewing speeds and the goto targets. *)
Definition motion_update (p : Port) (st : per_axis AXISSTATUS) (enc : per_axis Z)
    (speed : per_axis float) (target : per_axis Z) (s : SkywatcherAPI) : SkywatcherAPI :=
  set_LastSlewToTarget target
    (set_SlewingSpeed speed
       (set_AxesStatus st (set_CurrentEncoders enc (set_MyPortFD p s)))).

(** [s'] is [s] up to the members of [motion_update]: the firmware version,
    the mount type, the motor type, the silent mode, the calibration, the
    goto margins and the reference positions are the same. *)
Definition same_calibration (s s' : SkywatcherAPI) : Prop :=
  exists p st enc speed target, s' = motion_update p st enc speed target s.

(** The members that hold what [InitMount] learned about the mount. *)
Definition calibration_of (s : SkywatcherAPI) :=
  (MCVersion s, MountCode s, IsDCMotor s, SupportAdvancedCommandSet s, SilentSlewMode s,
   (MicrostepsPerRevolution s, StepperClockFrequency s, HighSpeedRatio s,
    MicrostepsPerWormRevolution s),
   (RadiansPerMicrostep s, MicrostepsPerRadian s, DegreesPerMicrostep s,
    MicrostepsPerDegree s),
   (LowSpeedGotoMargin s, PolarisPositionEncoders s, ZeroPositionEncoders s)).

(** [s'] is [s] up to the port, the status flags, the encoder values and,
    on the advanced command set only, the slewing speeds: what polling,
    stopping and the command wrappers may change. *)
Definition motion_frame (s s' : SkywatcherAPI) : Prop :=
  exists p st enc speed,
    s' = motion_update p st enc speed (LastSlewToTarget s) s /\
    (SupportAdvancedCommandSet s = false -> speed = SlewingSpeed s).

(** ** Reading a trace, continued *)

(** What was written to the port, in order. *)
Definition writes_of (t : list PortEvent) : list cstring :=
  flat_map (fun e => match e with EvWrite bytes => [bytes] | _ => [] end) t.

(** The driver after [k] rounds of the polling loop of [wait_for_full_stop]
    that did not see FullStop, and one more poll. *)
Fixpoint nth_poll (k : nat) (Axis : AXISID) (s : SkywatcherAPI) : SkywatcherAPI :=
  match k with
  | O => snd (GetStatus Axis s)
  | S k' =>
      let s := snd (GetStatus Axis s) in
      nth_poll k' Axis (set_MyPortFD (sleep_for 100 (MyPortFD s)) s)
  end.

(** The step period the legacy branch of [Slew] passes to
    [SetClockTicksPerMicrostep]: the magnitude of the rate, divided by the
    high-speed ratio for a high-speed slew, converted to clock ticks per
    microstep, less 3 on firmware 1.06.00 and 1.06.01, and at least 6. *)
Definition Slew_period (Axis : AXISID) (InternalSpeed : float)
    (IgnoreSilentMode : bool) (s : SkywatcherAPI) : Z :=
  let InternalSpeed :=
    if dgt InternalSpeed 0 then InternalSpeed else (- InternalSpeed)%float in
  let InternalSpeed :=
    if dgt InternalSpeed LOW_SPEED_MARGIN
       && (IgnoreSilentMode || negb (SilentSlewMode s))
    then (InternalSpeed / double_of_long (axis_get (HighSpeedRatio s) Axis))%float
    else InternalSpeed in
  let SpeedInt := RadiansPerSecondToClocksTicksPerMicrostep Axis InternalSpeed s in
  let SpeedInt :=
    if (MCVersion s =? 0x010600) || (MCVersion s =? 0x0010601)
    then to_long (SpeedInt - 3) else SpeedInt in
  if SpeedInt <? 6 then 6 else SpeedInt.

(** ** Concrete sessions, continued *)


Definition eq6_slewing : SkywatcherAPI :=
  match Slew 8 AXIS1 1000%float true eq6_initialised with
  | Some s => s
  | None => eq6_initialised
  end.

Definition eq6_goto : SkywatcherAPI :=
  match SlewTo 8 AXIS1 1000 false eq6_initialised with
  | Some s => s
  | None => eq6_initialised
  end.

(** The driver after [InitMount] on the 114GT, whose session ends there:
    no later command is answered.  [crawl_rate] is a rate of about
    1.35e-7 rad/s, above a thousandth of the sidereal rate. *)
Definition gt114_initialised : SkywatcherAPI :=
  match InitMount 8 gt114_fresh with
  | Some (_, s) => s
  | None => gt114_fresh
  end.

Definition crawl_rate : float := 0x1.21ce135p-23%float.

Definition gt114_prepared : SkywatcherAPI :=
  match PrepareForSlewing 8 AXIS1 crawl_rate gt114_initialised with
  | Some s => s
  | None => gt114_initialised
  end.

Definition gt114_crawling : SkywatcherAPI :=
  match Slew 8 AXIS1 crawl_rate true gt114_initialised with
  | Some s => s
  | None => gt114_initialised
  end.

(** A driver whose mount reports axis 1 slewing, acknowledges the slow
    stop, reports the axis stopped and acknowledges the mode command; and
    that driver once the axis has stopped. *)
Definition driver_running : SkywatcherAPI :=
  SkywatcherAPI_new (port_of [] [reply "=111"; reply "="; reply "=101"; reply "="]).

Definition driver_stopped : SkywatcherAPI :=
  match wait_for_full_stop 8 AXIS1
          (snd (SlowStop AXIS1 (snd (GetStatus AXIS1 driver_running)))) with
  | Some s => s
  | None => driver_running
  end.

(** A driver whose mount reports axis 1 slewing at the first status poll and
    stopped at the second. *)
Definition driver_stopping : SkywatcherAPI :=
  SkywatcherAPI_new (port_of [] [reply "=111"; reply "=101"]).

(** A driver on a line where nothing ever answers. *)
Definition driver_unanswered : SkywatcherAPI :=
  set_CurrentEncoders (Axes 5 7) (SkywatcherAPI_new (port_of [] [])).

(** ** Further command wrappers *)

Definition SetSlewModeDeccelerationRampLength (Axis : AXISID) (Microsteps : Z)
    (s : SkywatcherAPI) : bool * SkywatcherAPI :=
  let '(ok, _, s) := TalkWithAxis Axis "U"%char (Long2BCDstr Microsteps) [] s in
  (ok, s).

Definition SetSwitch (OnOff : bool) (s : SkywatcherAPI) : bool * SkywatcherAPI :=
  let Parameters := if OnOff then str "1" else str "0" in
  let '(ok, _, s) := TalkWithAxis AXIS1 "O"%char Parameters [] s in
  (ok, s).

(** ** Tactics for driver states *)

(** Normalisation of a driver state built from the member assignments:
    call-by-need, unfolding the assignments and the member accesses only. *)
Ltac norm_state :=
  lazy beta iota zeta delta
  [
    MCVersion MountCode IsDCMotor SilentSlewMode MicrostepsPerRevolution
    StepperClockFrequency HighSpeedRatio MicrostepsPerWormRevolution
    RadiansPerMicrostep MicrostepsPerRadian DegreesPerMicrostep
    MicrostepsPerDegree LowSpeedGotoMargin LastSlewToTarget CurrentEncoders
    PolarisPositionEncoders ZeroPositionEncoders AxesStatus SlewingSpeed
    SupportAdvancedCommandSet MyPortFD set_MCVersion set_MountCode
    set_IsDCMotor set_SilentSlewMode set_MicrostepsPerRevolution
    set_StepperClockFrequency set_HighSpeedRatio
    set_MicrostepsPerWormRevolution set_RadiansPerMicrostep
    set_MicrostepsPerRadian set_DegreesPerMicrostep set_MicrostepsPerDegree
    set_LowSpeedGotoMargin set_LastSlewToTarget set_CurrentEncoders
    set_PolarisPositionEncoders set_ZeroPositionEncoders set_AxesStatus
    set_SlewingSpeed set_SupportAdvancedCommandSet set_MyPortFD axis_get
    axis_set axis1 axis2 update_status with_resolution with_FullStop
    with_Slewing with_SlewingTo with_SlewingForward with_HighSpeed
    with_NotInitialized FullStop Slewing SlewingTo SlewingForward HighSpeed
    NotInitialized SetFullStop SetSlewing SetSlewingTo Slew_record fst snd
  ].

(** A state as its members, each per-axis array as its two elements. *)
Ltac open_state s :=
  destruct s;
  repeat match goal with
         | x : per_axis _ |- _ => destruct x
         end.

Ltac norm_state_in H :=
  lazy beta iota zeta delta
  [
    MCVersion MountCode IsDCMotor SilentSlewMode MicrostepsPerRevolution
    StepperClockFrequency HighSpeedRatio MicrostepsPerWormRevolution
    RadiansPerMicrostep MicrostepsPerRadian DegreesPerMicrostep
    MicrostepsPerDegree LowSpeedGotoMargin LastSlewToTarget CurrentEncoders
    PolarisPositionEncoders ZeroPositionEncoders AxesStatus SlewingSpeed
    SupportAdvancedCommandSet MyPortFD set_MCVersion set_MountCode
    set_IsDCMotor set_SilentSlewMode set_MicrostepsPerRevolution
    set_StepperClockFrequency set_HighSpeedRatio
    set_MicrostepsPerWormRevolution set_RadiansPerMicrostep
    set_MicrostepsPerRadian set_DegreesPerMicrostep set_MicrostepsPerDegree
    set_LowSpeedGotoMargin set_LastSlewToTarget set_CurrentEncoders
    set_PolarisPositionEncoders set_ZeroPositionEncoders set_AxesStatus
    set_SlewingSpeed set_SupportAdvancedCommandSet set_MyPortFD axis_get
    axis_set axis1 axis2 update_status with_resolution with_FullStop
    with_Slewing with_SlewingTo with_SlewingForward with_HighSpeed
    with_NotInitialized FullStop Slewing SlewingTo SlewingForward HighSpeed
    NotInitialized SetFullStop SetSlewing SetSlewingTo Slew_record fst snd
  ] in H.


(** * Properties *)

(** ** Arithmetic helpers *)

Lemma forall_below (P : Z -> bool) (n : nat) :
  forallb P (map Z.of_nat (seq 0 n)) = true ->
  forall b, 0 <= b < Z.of_nat n -> P b = true.
Proof.
  intros H b Hb.
  rewrite forallb_forall in H. apply H.
  rewrite in_map_iff. exists (Z.to_nat b). split; [lia|].
  apply in_seq. lia.
Qed.

Lemma lor_shiftl4 (v d : Z) :
  0 <= v -> 0 <= d < 16 -> Z.lor (Z.shiftl v 4) d = 16 * v + d.
Proof.
  intros Hv Hd.
  assert (Hland : Z.land (Z.shiftl v 4) d = 0).
  { apply Z.bits_inj'. intros n Hn.
    rewrite Z.land_spec, Z.bits_0.
    destruct (Z.ltb_spec n 4) as [Hlt|Hge].
    - rewrite Z.shiftl_spec_low by lia. reflexivity.
    - replace (Z.testbit d n) with false; [apply andb_false_r|].
      symmetry. destruct (Z.eq_dec d 0) as [->|Hnz]; [apply Z.bits_0|].
      apply Z.bits_above_log2; [lia|].
      apply Z.log2_lt_pow2; [lia|].
      apply Z.lt_le_trans with (2 ^ 4); [lia|].
      apply Z.pow_le_mono_r; lia. }
  rewrite <- Z.lxor_lor by exact Hland.
  rewrite <- Z.add_nocarry_lxor by exact Hland.
  rewrite Z.shiftl_mul_pow2 by lia. lia.
Qed.

Lemma or_int_shl4 (v d : Z) :
  0 <= v < 2 ^ 60 -> 0 <= d < 16 -> or_int (shl4 v) d = 16 * v + d.
Proof.
  intros Hv Hd. unfold or_int, shl4, to_ulong.
  rewrite Z.shiftl_mul_pow2 by lia.
  rewrite (Z.mod_small d) by lia.
  rewrite Z.mod_small by lia.
  rewrite <- (lor_shiftl4 v d) by lia.
  rewrite Z.shiftl_mul_pow2 by lia. reflexivity.
Qed.

(** ** The codec *)

Lemma HEX_hexdigit (d : Z) :
  0 <= d < 16 -> HEX (char_to_int (hexdigit d)) = d.
Proof.
  intros Hd. apply Z.eqb_eq.
  apply (forall_below (fun d => HEX (char_to_int (hexdigit d)) =? d) 16);
    [vm_compute; reflexivity | lia].
Qed.

(** A byte streamed with [std::hex], [std::setw(2)] and fill ['0'] is its
    two hexadecimal digits. *)
Lemma print_byte (b : Z) :
  0 <= b < 256 ->
  setw_fill0 2 (print_hex b) = [hexdigit (b / 16); hexdigit (b mod 16)].
Proof.
  intros Hb.
  pose (P := fun b =>
    match setw_fill0 2 (print_hex b) with
    | [c1; c2] => Ascii.eqb c1 (hexdigit (b / 16)) && Ascii.eqb c2 (hexdigit (b mod 16))
    | _ => false
    end).
  assert (HP : P b = true).
  { apply (forall_below P 256); [vm_compute; reflexivity | lia]. }
  unfold P in HP.
  destruct (setw_fill0 2 (print_hex b)) as [|c1 [|c2 [|c3 l]]]; try discriminate.
  apply andb_true_iff in HP. destruct HP as [H1 H2].
  apply Ascii.eqb_eq in H1. apply Ascii.eqb_eq in H2. congruence.
Qed.

Lemma Long2BCDstr_bytes (Number : Z) :
  let b0 := Number mod 256 in
  let b1 := (Number / 256) mod 256 in
  let b2 := (Number / 65536) mod 256 in
  Long2BCDstr Number =
    [hexdigit (b0 / 16); hexdigit (b0 mod 16);
     hexdigit (b1 / 16); hexdigit (b1 mod 16);
     hexdigit (b2 / 16); hexdigit (b2 mod 16)].
Proof.
  intros b0 b1 b2. unfold Long2BCDstr.
  assert (E0 : Z.land Number 0xff = b0).
  { change 0xff with (Z.ones 8). rewrite Z.land_ones by lia. reflexivity. }
  assert (E1 : Z.shiftr (Z.land Number 0xff00) 8 = b1).
  { rewrite Z.shiftr_land. change (Z.shiftr 0xff00 8) with (Z.ones 8).
    rewrite Z.land_ones by lia. rewrite Z.shiftr_div_pow2 by lia. reflexivity. }
  assert (E2 : Z.shiftr (Z.land Number 0xff0000) 16 = b2).
  { rewrite Z.shiftr_land. change (Z.shiftr 0xff0000 16) with (Z.ones 8).
    rewrite Z.land_ones by lia. rewrite Z.shiftr_div_pow2 by lia. reflexivity. }
  rewrite E0, E1, E2.
  rewrite !print_byte by (subst b0 b1 b2; apply Z.mod_pos_bound; lia).
  reflexivity.
Qed.

(** C1 (as amended).  For every 24-bit integer N the direct composition
    [BCDstr2long (Long2BCDstr N)] equals N: [Long2BCDstr] writes the three
    bytes low byte first, and [BCDstr2long] reads the pairs [4,5][2,3][0,1]
    as high, middle and low byte, so the decoder is the inverse of the
    encoder and no further reversal of byte pairs is needed. *)
Theorem BCDstr2long_Long2BCDstr (N : Z) :
  0 <= N < 2 ^ 24 -> BCDstr2long (Long2BCDstr N) = N.
Proof.
  intros HN. rewrite Long2BCDstr_bytes. cbv zeta.
  set (b0 := N mod 256). set (b1 := (N / 256) mod 256).
  set (b2 := (N / 65536) mod 256).
  assert (H0 : 0 <= b0 < 256) by (apply Z.mod_pos_bound; lia).
  assert (H1 : 0 <= b1 < 256) by (apply Z.mod_pos_bound; lia).
  assert (H2 : 0 <= b2 < 256) by (apply Z.mod_pos_bound; lia).
  unfold BCDstr2long, HEXat, str_at. cbn [length Nat.eqb negb nth].
  rewrite !HEX_hexdigit
    by first [ apply Z.mod_pos_bound; lia
             | split; [apply Z.div_pos; lia | apply Z.div_lt_upper_bound; lia] ].
  assert (D0 : 0 <= b0 / 16 < 16)
    by (split; [apply Z.div_pos; lia | apply Z.div_lt_upper_bound; lia]).
  assert (D1 : 0 <= b1 / 16 < 16)
    by (split; [apply Z.div_pos; lia | apply Z.div_lt_upper_bound; lia]).
  assert (D2 : 0 <= b2 / 16 < 16)
    by (split; [apply Z.div_pos; lia | apply Z.div_lt_upper_bound; lia]).
  assert (M0 : 0 <= b0 mod 16 < 16) by (apply Z.mod_pos_bound; lia).
  assert (M1 : 0 <= b1 mod 16 < 16) by (apply Z.mod_pos_bound; lia).
  assert (M2 : 0 <= b2 mod 16 < 16) by (apply Z.mod_pos_bound; lia).
  unfold to_ulong at 1. rewrite (Z.mod_small (b2 / 16)) by lia.
  rewrite (or_int_shl4 (b2 / 16) (b2 mod 16)) by lia.
  rewrite (or_int_shl4 _ (b1 / 16)) by lia.
  rewrite (or_int_shl4 _ (b1 mod 16)) by lia.
  rewrite (or_int_shl4 _ (b0 / 16)) by lia.
  rewrite (or_int_shl4 _ (b0 mod 16)) by lia.
  pose proof (Z.div_mod b0 16 ltac:(lia)) as E0.
  pose proof (Z.div_mod b1 16 ltac:(lia)) as E1.
  pose proof (Z.div_mod b2 16 ltac:(lia)) as E2.
  pose proof (Z.div_mod N 256 ltac:(lia)) as F0.
  pose proof (Z.div_mod (N / 256) 256 ltac:(lia)) as F1.
  assert (F2 : N / 65536 = N / 256 / 256) by (rewrite Z.div_div by lia; reflexivity).
  assert (F3 : b2 = N / 65536).
  { subst b2. apply Z.mod_small. split; [apply Z.div_pos; lia|].
    apply Z.div_lt_upper_bound; lia. }
  fold b0 in F0. fold b1 in F1. lia.
Qed.

(** A decoder reads its string through [HEX] only. *)
Lemma HEXat_map (String String' : cstring) (i : nat) :
  map (fun c => HEX (char_to_int c)) String'
  = map (fun c => HEX (char_to_int c)) String ->
  HEXat String' i = HEXat String i.
Proof.
  intros Hmap. unfold HEXat, str_at.
  pose proof (map_nth (fun c => HEX (char_to_int c)) String' Ascii.zero i) as E'.
  pose proof (map_nth (fun c => HEX (char_to_int c)) String Ascii.zero i) as E.
  cbv beta in E, E'. rewrite <- E, <- E', Hmap. reflexivity.
Qed.

Lemma positional_value (h0 h1 h2 h3 h4 h5 : Z) :
  0 <= h0 < 16 -> 0 <= h1 < 16 -> 0 <= h2 < 16 ->
  0 <= h3 < 16 -> 0 <= h4 < 16 -> 0 <= h5 < 16 ->
  or_int (shl4 (or_int (shl4 (or_int (shl4 (or_int (shl4
    (or_int (shl4 (to_ulong h4)) h5)) h2)) h3)) h0)) h1
  = (16 * h0 + h1) + 256 * (16 * h2 + h3) + 65536 * (16 * h4 + h5).
Proof.
  intros H0 H1 H2 H3 H4 H5.
  unfold to_ulong at 1. rewrite (Z.mod_small h4) by lia.
  rewrite (or_int_shl4 h4 h5) by lia.
  rewrite (or_int_shl4 _ h2) by lia.
  rewrite (or_int_shl4 _ h3) by lia.
  rewrite (or_int_shl4 _ h0) by lia.
  rewrite (or_int_shl4 _ h1) by lia.
  lia.
Qed.

(** C5 (as amended).  Neither decoder has a failure result: both return an
    [unsigned long] for every input.  On a string of the wrong length
    [BCDstr2long] (length other than 6) and [Highstr2long] (length below 2)
    return 0, which is also what they return for the well-formed strings
    "000000" and "00".  On a string of the right length no character is
    validated: the result depends on the characters through [HEX] only (two
    strings with the same [HEX] values decode alike), each of the six,
    respectively the first two, characters contributes [HEX(c)] by shift and
    or, and whenever these values lie in 0 .. 15, for hexadecimal digits or
    not, the result is the number they spell. *)
Theorem decoders_return_plain_numbers (String : cstring) :
  (length String <> 6%nat ->
     BCDstr2long String = 0 /\ BCDstr2long String = BCDstr2long (str "000000")) /\
  ((length String < 2)%nat ->
     Highstr2long String = 0 /\ Highstr2long String = Highstr2long (str "00")) /\
  0 <= BCDstr2long String < 2 ^ 64 /\
  0 <= Highstr2long String < 2 ^ 64 /\
  (forall String',
      map (fun c => HEX (char_to_int c)) String'
      = map (fun c => HEX (char_to_int c)) String ->
      BCDstr2long String' = BCDstr2long String /\
      Highstr2long String' = Highstr2long String) /\
  (forall c0 c1 c2 c3 c4 c5,
      String = [c0; c1; c2; c3; c4; c5] ->
      let h c := HEX (char_to_int c) in
      BCDstr2long String
      = or_int (shl4 (or_int (shl4 (or_int (shl4 (or_int (shl4
          (or_int (shl4 (to_ulong (h c4))) (h c5))) (h c2))) (h c3))) (h c0))) (h c1) /\
      (0 <= h c0 < 16 -> 0 <= h c1 < 16 -> 0 <= h c2 < 16 ->
       0 <= h c3 < 16 -> 0 <= h c4 < 16 -> 0 <= h c5 < 16 ->
       BCDstr2long String
       = (16 * h c0 + h c1) + 256 * (16 * h c2 + h c3) + 65536 * (16 * h c4 + h c5))) /\
  (forall c0 c1 rest,
      String = c0 :: c1 :: rest ->
      let h c := HEX (char_to_int c) in
      Highstr2long String = or_int (shl4 (to_ulong (h c0))) (h c1) /\
      (0 <= h c0 < 16 -> 0 <= h c1 < 16 -> Highstr2long String = 16 * h c0 + h c1)).
Proof.
  assert (Hor : forall v i, 0 <= v < 2 ^ 64 -> 0 <= or_int v i < 2 ^ 64).
  { intros v i Hv. unfold or_int, to_ulong.
    assert (Hi : 0 <= i mod 2 ^ 64 < 2 ^ 64) by (apply Z.mod_pos_bound; lia).
    split; [apply Z.lor_nonneg; lia|].
    destruct (Z.eq_dec (Z.lor v (i mod 2 ^ 64)) 0) as [->|Hnz]; [lia|].
    apply Z.log2_lt_pow2; [assert (0 <= Z.lor v (i mod 2 ^ 64)) by (apply Z.lor_nonneg; lia); lia|].
    rewrite Z.log2_lor by lia.
    apply Z.max_lub_lt.
    - destruct (Z.eq_dec v 0) as [->|Hv0]; [cbn; lia|]. apply Z.log2_lt_pow2; lia.
    - destruct (Z.eq_dec (i mod 2 ^ 64) 0) as [->|Hi0]; [cbn; lia|]. apply Z.log2_lt_pow2; lia. }
  assert (Hsh : forall v, 0 <= shl4 v < 2 ^ 64).
  { intros v. unfold shl4, to_ulong. apply Z.mod_pos_bound. lia. }
  split; [|split; [|split; [|split; [|split; [|split]]]]].
  - intros Hlen. split.
    + unfold BCDstr2long. destruct (Nat.eqb_spec (length String) 6); [contradiction|reflexivity].
    + unfold BCDstr2long at 1. destruct (Nat.eqb_spec (length String) 6); [contradiction|].
      vm_compute. reflexivity.
  - intros Hlen. split.
    + unfold Highstr2long. destruct (Nat.ltb_spec (length String) 2); [reflexivity|lia].
    + unfold Highstr2long at 1. destruct (Nat.ltb_spec (length String) 2); [|lia].
      vm_compute. reflexivity.
  - unfold BCDstr2long. destruct (negb _); [lia|]. cbv zeta. apply Hor, Hsh.
  - unfold Highstr2long. destruct (_ <? _)%nat; [lia|]. cbv zeta. apply Hor, Hsh.
  - intros String' Hmap.
    assert (Hlen : length String' = length String).
    { apply (f_equal (@length Z)) in Hmap. rewrite !length_map in Hmap. exact Hmap. }
    unfold BCDstr2long, Highstr2long. rewrite Hlen.
    rewrite !(HEXat_map String String' _ Hmap). split; reflexivity.
  - intros c0 c1 c2 c3 c4 c5 -> h. split; [reflexivity|].
    intros H0 H1 H2 H3 H4 H5.
    change (BCDstr2long [c0; c1; c2; c3; c4; c5])
      with (or_int (shl4 (or_int (shl4 (or_int (shl4 (or_int (shl4
              (or_int (shl4 (to_ulong (h c4))) (h c5))) (h c2))) (h c3))) (h c0))) (h c1)).
    apply positional_value; assumption.
  - intros c0 c1 rest -> h. split; [reflexivity|].
    intros H0 H1.
    change (Highstr2long (c0 :: c1 :: rest))
      with (or_int (shl4 (to_ulong (h c0))) (h c1)).
    unfold to_ulong at 1. rewrite (Z.mod_small (h c0)) by lia.
    apply or_int_shl4; lia.
Qed.

(** ** Frame lemmas: an exchange touches the port only *)

Lemma TalkWithAxis_frame Axis Command cmdDataStr responseStr s ok r s' :
  TalkWithAxis Axis Command cmdDataStr responseStr s = (ok, r, s') ->
  s' = set_MyPortFD (MyPortFD s') s.
Proof.
  unfold TalkWithAxis.
  destruct (exchange Axis Command cmdDataStr responseStr (MyPortFD s))
    as [[ok0 r0] p0].
  intros H. inversion H; subst. reflexivity.
Qed.

Lemma get_update_status Axis f s :
  axis_get (AxesStatus (update_status Axis f s)) Axis
  = f (axis_get (AxesStatus s) Axis).
Proof. destruct Axis; reflexivity. Qed.

(** ** The status model *)

(** C6.  After a successful status decode ([GetStatus] returning true) and
    after [SetFullStop], [SetSlewing] or [SetSlewingTo], exactly one of the
    phase flags FullStop, Slewing, SlewingTo of that axis is true. *)
Theorem phase_flags_mutually_exclusive :
  (forall Axis s s',
      GetStatus Axis s = (true, s') ->
      one_phase (axis_get (AxesStatus s') Axis) = true) /\
  (forall a, one_phase (SetFullStop a) = true) /\
  (forall forward highspeed a, one_phase (SetSlewing forward highspeed a) = true) /\
  (forall forward highspeed a, one_phase (SetSlewingTo forward highspeed a) = true).
Proof.
  split; [|repeat split; reflexivity].
  intros Axis s s'. unfold GetStatus.
  destruct (TalkWithAxis Axis "f" [] [] s) as [[ok Response] s1].
  destruct ok; cbn [negb]; [|discriminate].
  intros H. inversion H; subst s'; clear H.
  repeat match goal with
         | |- context [if ?c then _ else _] => destruct c
         end;
    rewrite !get_update_status; reflexivity.
Qed.

(** ** Encoder readout *)

(** C10.  In the legacy command set, once the exchange has succeeded,
    [GetEncoder] returns true whatever the response decodes to; it stores
    the decoded value in [CurrentEncoders[Axis]] only when that value is
    strictly positive, and otherwise leaves [CurrentEncoders] (and
    everything but the port) as it was. *)
Theorem GetEncoder_legacy_keeps_nonpositive Axis s Response s1 :
  SupportAdvancedCommandSet s = false ->
  TalkWithAxis Axis "j" [] [] s = (true, Response, s1) ->
  let Microsteps := to_long (BCDstr2long Response) in
  fst (GetEncoder Axis s) = true /\
  (Microsteps <= 0 ->
     snd (GetEncoder Axis s) = s1 /\
     CurrentEncoders (snd (GetEncoder Axis s)) = CurrentEncoders s) /\
  (0 < Microsteps ->
     snd (GetEncoder Axis s)
       = set_CurrentEncoders (axis_set (CurrentEncoders s) Axis Microsteps) s1 /\
     axis_get (CurrentEncoders (snd (GetEncoder Axis s))) Axis = Microsteps).
Proof.
  intros Hadv Htalk Microsteps.
  pose proof (TalkWithAxis_frame _ _ _ _ _ _ _ _ Htalk) as Hframe.
  assert (Henc : CurrentEncoders s1 = CurrentEncoders s)
    by (rewrite Hframe; reflexivity).
  unfold GetEncoder. rewrite Hadv, Htalk. cbn [negb].
  fold Microsteps.
  destruct (Z.ltb_spec 0 Microsteps) as [Hpos|Hneg].
  - split; [reflexivity|]. split; [lia|]. intros _. cbn [snd].
    rewrite Henc. split; [reflexivity|]. destruct Axis; reflexivity.
  - split; [reflexivity|]. split; [|lia]. intros _. cbn [snd].
    split; [reflexivity | exact Henc].
Qed.

(** ** Goto *)

(** C9.  [SlewTo] with a zero offset returns at once with the driver object,
    port included, exactly as it was: nothing is written to or read from the
    port and no status flag changes. *)
Theorem SlewTo_zero_offset_is_noop fuel Axis verbose s :
  SlewTo fuel Axis 0 verbose s = Some s.
Proof. reflexivity. Qed.

(** ** Calibration *)

Lemma Merlin_114GT_resolution :
  double_to_long (double_of_long 0x205318 * MERLIN_SCALE)%float = 1387567.
Proof. vm_compute. reflexivity. Qed.

(** C3 (as amended).  For mount type 0x82 (_114GT), after a successful
    [GetMicrostepsPerRevolution] the stored [MicrostepsPerRevolution] of the
    axis does not depend on the resolution the firmware reported, but it is
    not 0x205318: 0x82 lies in the Merlin range 0x80..0x8F, so the fixed
    value 0x205318 is scaled by 0.655 and truncated, and 1387567 is stored. *)
Theorem GetMicrostepsPerRevolution_114GT Axis s s' :
  MountCode s = _114GT ->
  GetMicrostepsPerRevolution Axis s = (true, s') ->
  axis_get (MicrostepsPerRevolution s') Axis
    = double_to_long (double_of_long 0x205318 * MERLIN_SCALE)%float /\
  axis_get (MicrostepsPerRevolution s') Axis = 1387567.
Proof.
  intros Hcode. unfold GetMicrostepsPerRevolution.
  assert (Hstep : forall ok tmp s1,
    MountCode s1 = _114GT ->
    (if negb ok then (false, s1)
     else if tmp =? 0 then (false, s1)
     else
       let tmp1 := if MountCode s1 =? _114GT then 0x205318 else tmp in
       let tmp2 := if IsMerlinMount s1
                   then double_to_long (double_of_long tmp1 * MERLIN_SCALE)%float
                   else tmp1 in
       let d := double_of_long tmp2 in
       let s2 := set_MicrostepsPerRevolution
                   (axis_set (MicrostepsPerRevolution s1) Axis tmp2) s1 in
       let s2 := set_MicrostepsPerRadian
                   (axis_set (MicrostepsPerRadian s2) Axis (d / (2 * M_PI))%float) s2 in
       let s2 := set_RadiansPerMicrostep
                   (axis_set (RadiansPerMicrostep s2) Axis (2 * M_PI / d)%float) s2 in
       let s2 := set_MicrostepsPerDegree
                   (axis_set (MicrostepsPerDegree s2) Axis (d / 360)%float) s2 in
       let s2 := set_DegreesPerMicrostep
                   (axis_set (DegreesPerMicrostep s2) Axis (360 / d)%float) s2 in
       (true, s2)) = (true, s') ->
    axis_get (MicrostepsPerRevolution s') Axis = 1387567).
  { intros ok tmp s1 Hc. destruct ok; cbn [negb]; [|discriminate].
    destruct (tmp =? 0); [discriminate|].
    unfold IsMerlinMount. rewrite Hc. cbv zeta.
    change (_114GT =? _114GT) with true.
    change ((0x80 <=? _114GT) && (_114GT <? 0x90)) with true. cbv iota.
    rewrite Merlin_114GT_resolution.
    intros H. inversion H; subst s'. destruct Axis; reflexivity. }
  intros H. rewrite Merlin_114GT_resolution.
  assert (E : axis_get (MicrostepsPerRevolution s') Axis = 1387567);
    [|split; exact E].
  revert H. destruct (SupportAdvancedCommandSet s).
  - destruct (TalkWithAxis Axis "X" rRESOLUTION [] s) as [[ok Response] s1] eqn:Htalk.
    intros H.
    apply (Hstep ok (to_long (stol (skipn 1 Response) 8 16)) s1); [|exact H].
    rewrite (TalkWithAxis_frame _ _ _ _ _ _ _ _ Htalk). exact Hcode.
  - destruct (TalkWithAxis Axis "a" [] [] s) as [[ok Response] s1] eqn:Htalk.
    intros H.
    apply (Hstep ok (to_long (BCDstr2long Response)) s1); [|exact H].
    rewrite (TalkWithAxis_frame _ _ _ _ _ _ _ _ Htalk). exact Hcode.
Qed.

(** ** Initialisation *)

Lemma InitMount_queries_margin s s' :
  InitMount_queries s = (true, s') ->
  forall Axis,
    axis_get (LowSpeedGotoMargin s') Axis
    = double_to_long (640 * SIDEREALRATE * axis_get (MicrostepsPerRadian s') Axis)%float.
Proof.
  unfold InitMount_queries, and_then.
  repeat match goal with
         | |- (let '(ok, s) := ?r in _) = _ -> _ =>
             destruct r as [[|] ?]; cbn [negb]; [|discriminate]
         | |- (if ?c then _ else _) = _ -> _ => destruct c
         end;
    intros H Axis; inversion H; subst s'; destruct Axis; reflexivity.
Qed.

(** C4 (as amended).  At the end of a successful [InitMount], for every axis
    [LowSpeedGotoMargin[axis]] is [640 * SIDEREALRATE *
    MicrostepsPerRadian[axis]] truncated to an integer: the microsteps
    covered in 5 seconds at 128 times the sidereal rate (640 = 5 * 128).
    There is no further factor 5. *)
Theorem InitMount_LowSpeedGotoMargin fuel s s' :
  InitMount fuel s = Some (true, s') ->
  forall Axis,
    axis_get (LowSpeedGotoMargin s') Axis
    = double_to_long (640 * SIDEREALRATE * axis_get (MicrostepsPerRadian s') Axis)%float.
Proof.
  unfold InitMount.
  destruct (CheckIfDCMotor fuel s) as [[[|] s0]|]; try discriminate.
  intros H. inversion H as [Hq]. apply (InitMount_queries_margin s0). exact Hq.
Qed.

(** ** The exchange primitive *)

Lemma exchange_attempts_S left retries command response bytesRead p :
  exchange_attempts (S left) retries command response bytesRead p =
  if negb (nth_write_ok p 0) then
    if (retries =? SKYWATCHER_MAX_RETRTY - 1)%nat then (None, after_write p command)
    else exchange_attempts left (S retries) command response bytesRead
                           (sleep_for 100 (after_write p command))
  else
    let bytes := snd (nth_read p 0) in
    if negb (tty_ok (fst (nth_read p 0))) || (length bytes <? 2)%nat then
      if (retries =? SKYWATCHER_MAX_RETRTY - 1)%nat then (None, after_read p command)
      else exchange_attempts left (S retries) command (store_bytes bytes response)
                             (length bytes) (sleep_for 100 (after_read p command))
    else (Some (store_bytes bytes response, length bytes), after_read p command).
Proof.
  cbn [exchange_attempts].
  unfold nth_write_ok, nth_read, after_read, after_write, tty_read_section,
    port_read, tty_write.
  rewrite !Nat.add_0_r.
  cbn [fst snd nreads read_outcome nwrites write_outcome tcflush emit].
  destruct (read_outcome p (nreads p)) as [rc bytes]. reflexivity.
Qed.

Lemma port_shift_0 p : port_shift p 0 0 [] = p.
Proof.
  destruct p. unfold port_shift. cbn.
  rewrite !Nat.add_0_r, app_nil_r. reflexivity.
Qed.

Lemma after_write_shift p dw dr evs command :
  after_write (port_shift p dw dr evs) command
  = port_shift p (S dw) dr (evs ++ [EvFlush; EvWrite command]).
Proof.
  unfold after_write, port_shift, tty_write, tcflush, emit. cbn.
  f_equal; [lia | rewrite <- !app_assoc; reflexivity].
Qed.

Lemma after_read_shift p dw dr evs command :
  after_read (port_shift p dw dr evs) command
  = port_shift p (S dw) (S dr)
      (evs ++ [EvFlush; EvWrite command; EvReadSection CR SKYWATCHER_TIMEOUT]).
Proof.
  unfold after_read, after_write, port_shift, tty_read_section, port_read,
    tty_write, tcflush, emit. cbn.
  f_equal; [lia | lia | rewrite <- !app_assoc; reflexivity].
Qed.

Lemma sleep_for_shift p dw dr evs ms :
  sleep_for ms (port_shift p dw dr evs) = port_shift p dw dr (evs ++ [EvSleep ms]).
Proof.
  unfold sleep_for, port_shift, emit. cbn. rewrite <- app_assoc. reflexivity.
Qed.

Lemma nth_write_ok_shift p dw dr evs i :
  nth_write_ok (port_shift p dw dr evs) i = nth_write_ok p (dw + i).
Proof. unfold nth_write_ok, port_shift. cbn. rewrite Nat.add_assoc. reflexivity. Qed.

Lemma nth_read_shift p dw dr evs i :
  nth_read (port_shift p dw dr evs) i = nth_read p (dr + i).
Proof. unfold nth_read, port_shift. cbn. rewrite Nat.add_assoc. reflexivity. Qed.

Lemma trace_shift p dw dr evs : trace (port_shift p dw dr evs) = trace p ++ evs.
Proof. reflexivity. Qed.

Create Rewrite HintDb port.
#[local] Hint Rewrite after_write_shift after_read_shift sleep_for_shift
  nth_write_ok_shift nth_read_shift trace_shift : port.

Lemma count_flushes_app a b :
  count_flushes (a ++ b) = (count_flushes a + count_flushes b)%nat.
Proof. unfold count_flushes. rewrite filter_app, length_app. reflexivity. Qed.

(** The bytes an exchange writes: its command, once per attempt. *)
Lemma writes_of_app (t1 t2 : list PortEvent) :
  writes_of (t1 ++ t2) = writes_of t1 ++ writes_of t2.
Proof. apply flat_map_app. Qed.

Lemma exchange_attempts_writes left :
  forall retries command response bytesRead p res p',
    exchange_attempts left retries command response bytesRead p = (res, p') ->
    exists n,
      (n <= left)%nat /\ (1 <= left -> 1 <= n)%nat /\
      writes_of (trace p') = writes_of (trace p) ++ repeat command n.
Proof.
  induction left as [|left IH]; intros retries command response bytesRead p res p' H.
  - cbn in H. inversion H; subst. exists 0%nat. cbn [repeat]. rewrite app_nil_r.
    repeat split; lia.
  - rewrite <- (port_shift_0 p) in H. rewrite exchange_attempts_S in H.
    cbv zeta in H. autorewrite with port in H. cbn [app] in H.
    repeat match type of H with
           | (if ?c then _ else _) = _ => destruct c
           end;
      try (inversion H; subst; exists 1%nat;
           split; [lia|]; split; [lia|];
           cbn [trace port_shift]; rewrite writes_of_app; reflexivity);
      apply IH in H; destruct H as (n & Hle & _ & Ht);
      exists (S n); (split; [lia|]); (split; [lia|]);
      rewrite Ht; cbn [trace port_shift]; rewrite writes_of_app;
      cbn [writes_of flat_map app repeat]; rewrite <- app_assoc; reflexivity.
Qed.

Lemma writes_talk Axis Command cmdDataStr responseStr s :
  exists n,
    (1 <= n <= 3)%nat /\
    writes_of (trace (MyPortFD (snd (TalkWithAxis Axis Command cmdDataStr responseStr s))))
    = writes_of (trace (MyPortFD s))
      ++ repeat (frame_command Axis Command cmdDataStr) n.
Proof.
  unfold TalkWithAxis, exchange.
  destruct (exchange_attempts SKYWATCHER_MAX_RETRTY 0
              (frame_command Axis Command cmdDataStr)
              (repeat Ascii.zero SKYWATCHER_MAX_CMD) 0 (MyPortFD s))
    as [res p1] eqn:E.
  apply exchange_attempts_writes in E. destruct E as (n & Hle & Hge & Ht).
  unfold SKYWATCHER_MAX_RETRTY in *.
  exists n. split; [lia|].
  destruct res as [[response bytesRead]|]; [destruct (Ascii.eqb _ _)|]; exact Ht.
Qed.

(** Whatever the port does, [left] iterations of the loop flush the port at
    most [left] times, and at least once if there is an iteration at all. *)
Lemma exchange_attempts_bound left :
  forall retries command response bytesRead p res p',
    exchange_attempts left retries command response bytesRead p = (res, p') ->
    exists evs,
      trace p' = trace p ++ evs /\
      (count_flushes evs <= left)%nat /\
      (1 <= left -> 1 <= count_flushes evs)%nat.
Proof.
  induction left as [|left IH]; intros retries command response bytesRead p res p' H.
  - cbn in H. inversion H; subst. exists []. rewrite app_nil_r.
    repeat split; [cbn; lia | lia].
  - rewrite <- (port_shift_0 p) in H. rewrite exchange_attempts_S in H.
    cbv zeta in H. autorewrite with port in H. cbn [app] in H.
    repeat match type of H with
           | (if ?c then _ else _) = _ => destruct c
           end;
      try (inversion H; subst; eexists; split; [reflexivity|];
           cbn; split; lia);
      apply IH in H; destruct H as (evs & Ht & Hle & _);
      rewrite Ht; cbn [trace port_shift]; rewrite <- app_assoc;
      eexists; (split; [reflexivity|]);
      rewrite count_flushes_app; cbn; split; lia.
Qed.

Lemma first_byte_kept bytes buf :
  (2 <= length bytes)%nat ->
  nth 0 (put_at (length bytes - 1) Ascii.zero (store_bytes bytes buf)) Ascii.zero
  = nth 0 bytes Ascii.zero.
Proof.
  destruct bytes as [|b0 [|b1 rest]]; cbn [length]; try lia.
  intros _. reflexivity.
Qed.

Lemma exchange_after_two_write_failures Axis Command cmdDataStr responseStr p bytes :
  nth_write_ok p 0 = false ->
  nth_write_ok p 1 = false ->
  nth_write_ok p 2 = true ->
  nth_read p 0 = (TTY_OK, bytes) ->
  (2 <= length bytes)%nat ->
  nth 0 bytes Ascii.zero <> "!"%char ->
  let command := frame_command Axis Command cmdDataStr in
  let result := exchange Axis Command cmdDataStr responseStr p in
  fst (fst result) = true /\
  trace (snd result)
  = trace p ++ [EvFlush; EvWrite command; EvSleep 100;
                EvFlush; EvWrite command; EvSleep 100;
                EvFlush; EvWrite command; EvReadSection CR SKYWATCHER_TIMEOUT].
Proof.
  intros W0 W1 W2 R0 Hlen Hbang command result.
  subst result. unfold exchange. fold command.
  set (buf := repeat Ascii.zero SKYWATCHER_MAX_CMD).
  assert (E : exchange_attempts SKYWATCHER_MAX_RETRTY 0 command buf 0 p
              = (Some (store_bytes bytes buf, length bytes),
                 port_shift p 3 1
                   [EvFlush; EvWrite command; EvSleep 100;
                    EvFlush; EvWrite command; EvSleep 100;
                    EvFlush; EvWrite command; EvReadSection CR SKYWATCHER_TIMEOUT])).
  { rewrite <- (port_shift_0 p) at 1. unfold SKYWATCHER_MAX_RETRTY.
    rewrite exchange_attempts_S. autorewrite with port.
    cbn [Nat.add app]. rewrite W0. cbn [negb Nat.eqb Nat.sub].
    rewrite exchange_attempts_S. autorewrite with port.
    cbn [Nat.add app]. rewrite W1. cbn [negb Nat.eqb Nat.sub].
    rewrite exchange_attempts_S. autorewrite with port.
    cbn [Nat.add app]. rewrite W2, R0. cbn [negb fst snd tty_ok orb].
    destruct (Nat.ltb_spec (length bytes) 2) as [Hlt|_]; [lia|]. reflexivity. }
  rewrite E.
  rewrite first_byte_kept by exact Hlen.
  destruct (Ascii.eqb_spec (nth 0 bytes Ascii.zero) "!"%char) as [Heq|_];
    [contradiction|].
  split; reflexivity.
Qed.

Lemma exchange_when_reads_are_short Axis Command cmdDataStr responseStr p :
  (forall i, (length (snd (nth_read p i)) < 2)%nat) ->
  let command := frame_command Axis Command cmdDataStr in
  let result := exchange Axis Command cmdDataStr responseStr p in
  fst (fst result) = false /\
  trace (snd result)
  = trace p ++ failed_attempt command (nth_write_ok p 0) false
            ++ failed_attempt command (nth_write_ok p 1) false
            ++ failed_attempt command (nth_write_ok p 2) true.
Proof.
  intros Hshort command result.
  subst result. unfold exchange. fold command.
  set (buf := repeat Ascii.zero SKYWATCHER_MAX_CMD).
  assert (Hread : forall i, negb (tty_ok (fst (nth_read p i)))
                            || (length (snd (nth_read p i)) <? 2)%nat = true).
  { intros i. rewrite (proj2 (Nat.ltb_lt _ _) (Hshort i)). apply orb_true_r. }
  assert (E : exists p1,
             exchange_attempts SKYWATCHER_MAX_RETRTY 0 command buf 0
                               (port_shift p 0 0 []) = (None, p1) /\
             trace p1 = trace p ++ failed_attempt command (nth_write_ok p 0) false
                                ++ failed_attempt command (nth_write_ok p 1) false
                                ++ failed_attempt command (nth_write_ok p 2) true).
  { unfold SKYWATCHER_MAX_RETRTY.
    rewrite exchange_attempts_S. cbv zeta. autorewrite with port.
    cbn [Nat.add app]. rewrite ?Hread.
    destruct (nth_write_ok p 0); cbn [negb Nat.eqb Nat.sub];
      rewrite exchange_attempts_S; cbv zeta; autorewrite with port;
      cbn [Nat.add app]; rewrite ?Hread;
      destruct (nth_write_ok p 1); cbn [negb Nat.eqb Nat.sub];
        rewrite exchange_attempts_S; cbv zeta; autorewrite with port;
        cbn [Nat.add app]; rewrite ?Hread;
        destruct (nth_write_ok p 2); cbn [negb Nat.eqb Nat.sub];
          eexists; (split; [reflexivity|]); reflexivity. }
  rewrite port_shift_0 in E.
  destruct E as (p1 & E & Ht). rewrite E. cbn [fst snd].
  split; [reflexivity | exact Ht].
Qed.

(** C7.  [TalkWithAxis] makes at most 3 attempts (and at least one), each
    starting with a flush of the port.  If the write fails twice and then
    succeeds and the response is valid, the exchange succeeds after exactly
    3 attempts.  If every read yields fewer than 2 bytes, the exchange fails
    after exactly 3 attempts; each attempt that fails is followed by a
    100 ms pause, except the last one. *)
Theorem TalkWithAxis_retry_policy Axis Command cmdDataStr responseStr s :
  let command := frame_command Axis Command cmdDataStr in
  let p := MyPortFD s in
  let result := TalkWithAxis Axis Command cmdDataStr responseStr s in
  let ok := fst (fst result) in
  let p' := MyPortFD (snd result) in
  (exists evs, trace p' = trace p ++ evs /\ (1 <= count_flushes evs <= 3)%nat) /\
  (forall bytes,
      nth_write_ok p 0 = false ->
      nth_write_ok p 1 = false ->
      nth_write_ok p 2 = true ->
      nth_read p 0 = (TTY_OK, bytes) ->
      (2 <= length bytes)%nat ->
      nth 0 bytes Ascii.zero <> "!"%char ->
      ok = true /\
      trace p' = trace p ++ [EvFlush; EvWrite command; EvSleep 100;
                             EvFlush; EvWrite command; EvSleep 100;
                             EvFlush; EvWrite command;
                             EvReadSection CR SKYWATCHER_TIMEOUT]) /\
  ((forall i, (length (snd (nth_read p i)) < 2)%nat) ->
      ok = false /\
      trace p' = trace p ++ failed_attempt command (nth_write_ok p 0) false
                         ++ failed_attempt command (nth_write_ok p 1) false
                         ++ failed_attempt command (nth_write_ok p 2) true /\
      count_flushes (failed_attempt command (nth_write_ok p 0) false
                     ++ failed_attempt command (nth_write_ok p 1) false
                     ++ failed_attempt command (nth_write_ok p 2) true) = 3%nat).
Proof.
  intros command p result ok p'.
  assert (Hres : ok = fst (fst (exchange Axis Command cmdDataStr responseStr p))
                 /\ p' = snd (exchange Axis Command cmdDataStr responseStr p)).
  { subst ok p' result. unfold TalkWithAxis. fold p.
    destruct (exchange Axis Command cmdDataStr responseStr p) as [[ok0 r0] p0].
    split; reflexivity. }
  destruct Hres as [-> ->]. clear result.
  split; [|split].
  - unfold exchange. fold command.
    destruct (exchange_attempts SKYWATCHER_MAX_RETRTY 0 command
                (repeat Ascii.zero SKYWATCHER_MAX_CMD) 0 p) as [res p1] eqn:E.
    apply exchange_attempts_bound in E. destruct E as (evs & Ht & Hle & Hge).
    exists evs.
    assert (Hp : forall (b : bool) (r : cstring), snd (b, r, p1) = p1) by reflexivity.
    destruct res as [[response bytesRead]|];
      [destruct (Ascii.eqb _ _)|]; cbn [snd];
      (split; [exact Ht | split; [apply Hge; unfold SKYWATCHER_MAX_RETRTY; lia | exact Hle]]).
  - intros bytes W0 W1 W2 R0 Hlen Hbang.
    apply (exchange_after_two_write_failures Axis Command cmdDataStr responseStr p bytes);
      assumption.
  - intros Hshort.
    destruct (exchange_when_reads_are_short Axis Command cmdDataStr responseStr p Hshort)
      as [Hok Ht].
    split; [exact Hok|]. split; [exact Ht|].
    destruct (nth_write_ok p 0), (nth_write_ok p 1), (nth_write_ok p 2); reflexivity.
Qed.

(** ** Motion-mode selection *)

Lemma SFltb_code_magnitude (L x : spec_float) :
  SFltb L (if SFltb (S754_zero false) x then x else SFopp x) = SFltb L (SFabs x).
Proof.
  destruct x as [[|]|[|]| |[|] m e]; cbn; try reflexivity;
    destruct L as [[|]|[|]| |[|] mL eL]; reflexivity.
Qed.

Lemma SFeqb_not_SFltb (a b : spec_float) :
  SFeqb a b = true -> SFltb b a = false.
Proof.
  unfold SFeqb, SFltb.
  destruct a as [[|]|[|]| |[|] m e], b as [[|]|[|]| |[|] m' e'];
    cbn; try discriminate; try reflexivity;
    change (Pos.compare_cont Eq m m') with (Pos.compare m m');
    change (Pos.compare_cont Eq m' m) with (Pos.compare m' m);
    rewrite (Z.compare_antisym e e'), (Pos.compare_antisym m m');
    destruct (e ?= e'); cbn; try discriminate; try reflexivity;
    destruct (m ?= m')%positive; cbn; try discriminate; reflexivity.
Qed.

Lemma slew_motion_mode_spec Speed :
  fst (slew_motion_mode Speed)
  = if SFltb (Prim2SF LOW_SPEED_MARGIN) (SFabs (Prim2SF Speed))
    then "3"%char else "1"%char.
Proof.
  rewrite <- SFltb_code_magnitude.
  unfold slew_motion_mode, dgt.
  rewrite (ltb_spec 0 Speed).
  change (Prim2SF 0) with (S754_zero false).
  destruct (SFltb (S754_zero false) (Prim2SF Speed)).
  - rewrite ltb_spec. destruct (SFltb _ _); reflexivity.
  - rewrite ltb_spec, opp_spec. destruct (SFltb _ _); reflexivity.
Qed.

Lemma slew_motion_mode_boundary Speed :
  (PrimFloat.eqb (PrimFloat.abs Speed) LOW_SPEED_MARGIN = true ->
     fst (slew_motion_mode Speed) = "1"%char) /\
  (PrimFloat.ltb LOW_SPEED_MARGIN (PrimFloat.abs Speed) = true ->
     fst (slew_motion_mode Speed) = "3"%char).
Proof.
  rewrite slew_motion_mode_spec, eqb_spec, ltb_spec, abs_spec.
  split; intros H.
  - rewrite (SFeqb_not_SFltb _ _ H). reflexivity.
  - rewrite H. reflexivity.
Qed.

Lemma slew_motion_mode_direction Speed :
  snd (slew_motion_mode Speed) = if dgt Speed 0 then "0"%char else "1"%char.
Proof.
  unfold slew_motion_mode.
  destruct (dgt Speed 0); destruct (dgt _ LOW_SPEED_MARGIN); reflexivity.
Qed.

Lemma SFeqb_SFleb (a b : spec_float) : SFeqb a b = true -> SFleb b a = true.
Proof.
  unfold SFeqb, SFleb.
  destruct a as [[|]|[|]| |[|] m e], b as [[|]|[|]| |[|] m' e'];
    cbn; try discriminate; try reflexivity;
    change (Pos.compare_cont Eq m m') with (Pos.compare m m');
    change (Pos.compare_cont Eq m' m) with (Pos.compare m' m);
    rewrite (Z.compare_antisym e e'), (Pos.compare_antisym m m');
    destruct (e ?= e'); cbn; try discriminate; try reflexivity;
    destruct (m ?= m')%positive; cbn; try discriminate; reflexivity.
Qed.

Lemma SFltb_SFleb (a b : spec_float) : SFltb a b = true -> SFleb a b = true.
Proof.
  unfold SFltb, SFleb. destruct (SFcompare a b) as [[| |]|]; try discriminate; reflexivity.
Qed.

(** A rate of magnitude LOW_SPEED_MARGIN or more is one that
    [PrepareForSlewing] stops a running axis for. *)
Lemma at_or_above_margin Speed :
  PrimFloat.eqb (PrimFloat.abs Speed) LOW_SPEED_MARGIN = true \/
  PrimFloat.ltb LOW_SPEED_MARGIN (PrimFloat.abs Speed) = true ->
  dge (PrimFloat.abs Speed) LOW_SPEED_MARGIN = true.
Proof.
  unfold dge. rewrite eqb_spec, ltb_spec, leb_spec.
  intros [H|H]; [apply SFeqb_SFleb | apply SFltb_SFleb]; exact H.
Qed.

(** On an axis that the status poll reports stopped, [PrepareForSlewing]
    sends exactly the mode chosen by [slew_motion_mode]. *)
Lemma PrepareForSlewing_stopped_axis fuel Axis Speed s s1 :
  GetStatus Axis s = (true, s1) ->
  FullStop (axis_get (AxesStatus s1) Axis) = true ->
  PrepareForSlewing fuel Axis Speed s
  = Some (snd (SetMotionMode Axis (fst (slew_motion_mode Speed))
                             (snd (slew_motion_mode Speed)) s1)).
Proof.
  intros Hst Hstop. unfold PrepareForSlewing. rewrite Hst. cbn [negb].
  rewrite Hstop. cbn [negb].
  destruct (slew_motion_mode Speed) as [Func Direction]. reflexivity.
Qed.

(** On a running axis a rate of magnitude LOW_SPEED_MARGIN or more makes
    [PrepareForSlewing] stop the axis, wait for it and then send the mode
    chosen by [slew_motion_mode]. *)
Lemma PrepareForSlewing_running_axis fuel Axis Speed s s1 s2 :
  GetStatus Axis s = (true, s1) ->
  FullStop (axis_get (AxesStatus s1) Axis) = false ->
  dge (PrimFloat.abs Speed) LOW_SPEED_MARGIN = true ->
  wait_for_full_stop fuel Axis (snd (SlowStop Axis s1)) = Some s2 ->
  PrepareForSlewing fuel Axis Speed s
  = Some (snd (SetMotionMode Axis (fst (slew_motion_mode Speed))
                             (snd (slew_motion_mode Speed)) s2)).
Proof.
  intros Hst Hrun Hfast Hwait. unfold PrepareForSlewing. rewrite Hst. cbn [negb].
  rewrite Hrun, Hfast. cbn [negb]. rewrite !orb_true_r. cbn [orb].
  rewrite Hwait.
  destruct (slew_motion_mode Speed) as [Func Direction]. reflexivity.
Qed.

Lemma writes_SetMotionMode Axis Func Direction s :
  exists n,
    (1 <= n <= 3)%nat /\
    writes_of (trace (MyPortFD (snd (SetMotionMode Axis Func Direction s))))
    = writes_of (trace (MyPortFD s))
      ++ repeat (frame_command Axis "G" [Func; Direction]) n.
Proof.
  unfold SetMotionMode.
  pose proof (writes_talk Axis "G" [Func; Direction] [] s) as Ht.
  destruct (TalkWithAxis Axis "G" [Func; Direction] [] s) as [[ok r] s1]. exact Ht.
Qed.

(** C8.  The mode-selection step of [PrepareForSlewing] is reached when the
    status poll succeeds and the axis is stopped, at once or, for a running
    axis, after the slow stop and the wait.  It then sends the mode command
    G with the low-speed slew mode (['1']) for a rate whose magnitude equals
    LOW_SPEED_MARGIN and with the high-speed slew mode (['3']) for a rate
    whose magnitude is strictly greater, together with the direction of the
    rate, and nothing else. *)
Theorem slew_motion_mode_threshold fuel Axis Speed s s1 s2 :
  GetStatus Axis s = (true, s1) ->
  (if FullStop (axis_get (AxesStatus s1) Axis) then s2 = s1
   else wait_for_full_stop fuel Axis (snd (SlowStop Axis s1)) = Some s2) ->
  let Direction := if dgt Speed 0 then "0"%char else "1"%char in
  let selects (Func : ascii) :=
    PrepareForSlewing fuel Axis Speed s
    = Some (snd (SetMotionMode Axis Func Direction s2)) /\
    exists n,
      (1 <= n <= 3)%nat /\
      writes_of (trace (MyPortFD (snd (SetMotionMode Axis Func Direction s2))))
      = writes_of (trace (MyPortFD s2))
        ++ repeat (frame_command Axis "G" [Func; Direction]) n in
  (PrimFloat.eqb (PrimFloat.abs Speed) LOW_SPEED_MARGIN = true -> selects "1"%char) /\
  (PrimFloat.ltb LOW_SPEED_MARGIN (PrimFloat.abs Speed) = true -> selects "3"%char).
Proof.
  intros Hst Hs2. cbv zeta.
  assert (Hprep :
            dge (PrimFloat.abs Speed) LOW_SPEED_MARGIN = true ->
            PrepareForSlewing fuel Axis Speed s
            = Some (snd (SetMotionMode Axis (fst (slew_motion_mode Speed))
                           (if dgt Speed 0 then "0"%char else "1"%char) s2))).
  { intros Hfast. rewrite <- slew_motion_mode_direction.
    destruct (FullStop (axis_get (AxesStatus s1) Axis)) eqn:Hstop.
    - subst s2. apply PrepareForSlewing_stopped_axis; assumption.
    - apply (PrepareForSlewing_running_axis fuel Axis Speed s s1 s2); assumption. }
  split; intros H.
  - rewrite (proj1 (slew_motion_mode_boundary Speed) H) in Hprep.
    split; [|apply writes_SetMotionMode].
    apply Hprep, at_or_above_margin. left. exact H.
  - rewrite (proj2 (slew_motion_mode_boundary Speed) H) in Hprep.
    split; [|apply writes_SetMotionMode].
    apply Hprep, at_or_above_margin. right. exact H.
Qed.

(** ** Slewing *)

(** What the legacy branch of [Slew] leaves in the status, whatever the
    rate: the flags passed to [SetSlewing] are the two variables declared at
    the top of the function, which the branch never assigns. *)
Lemma Slew_legacy_status fuel Axis SpeedInRadiansPerSecond IgnoreSilentMode s s' :
  SupportAdvancedCommandSet s = false ->
  dle (PrimFloat.abs (clamp_speed SpeedInRadiansPerSecond)) (SIDEREALRATE / 1000)%float
    = false ->
  Slew fuel Axis SpeedInRadiansPerSecond IgnoreSilentMode s = Some s' ->
  Slewing (axis_get (AxesStatus s') Axis) = true /\
  FullStop (axis_get (AxesStatus s') Axis) = false /\
  SlewingTo (axis_get (AxesStatus s') Axis) = false /\
  SlewingForward (axis_get (AxesStatus s') Axis) = false /\
  HighSpeed (axis_get (AxesStatus s') Axis) = false /\
  axis_get (SlewingSpeed s') Axis = clamp_speed SpeedInRadiansPerSecond.
Proof.
  intros Hadv Hrate. unfold Slew. rewrite Hadv. cbv zeta. rewrite Hrate.
  destruct (PrepareForSlewing fuel Axis (clamp_speed SpeedInRadiansPerSecond) s)
    as [s1|]; [|discriminate].
  destruct (dgt (clamp_speed SpeedInRadiansPerSecond) 0);
    match goal with
    | |- context [if ?c then (_, true) else _] => destruct c
    end;
    intros H; inversion H; subst s'; unfold Slew_record;
    destruct Axis; repeat split.
Qed.

(** The advanced branch assigns [Forward] from the sign of the rate. *)
Lemma Slew_advanced_status fuel Axis SpeedInRadiansPerSecond IgnoreSilentMode s s' :
  SupportAdvancedCommandSet s = true ->
  Slew fuel Axis SpeedInRadiansPerSecond IgnoreSilentMode s = Some s' ->
  Slewing (axis_get (AxesStatus s') Axis) = true /\
  FullStop (axis_get (AxesStatus s') Axis) = false /\
  SlewingTo (axis_get (AxesStatus s') Axis) = false /\
  SlewingForward (axis_get (AxesStatus s') Axis)
    = dgt (clamp_speed SpeedInRadiansPerSecond) 0 /\
  HighSpeed (axis_get (AxesStatus s') Axis) = false /\
  axis_get (SlewingSpeed s') Axis = clamp_speed SpeedInRadiansPerSecond.
Proof.
  intros Hadv. unfold Slew. rewrite Hadv. unfold Slew_advanced.
  destruct (TalkWithAxis Axis "X" _ [] s) as [[ok r] s1].
  intros H. inversion H; subst s'. unfold Slew_record.
  destruct (dgt (clamp_speed SpeedInRadiansPerSecond) 0);
    destruct Axis; repeat split.
Qed.

(** * Further properties *)

(** ** The codec beyond 24-bit round trips *)

Lemma is_hex_upper_digit (c : ascii) :
  is_hex_upper c = true ->
  0 <= HEX (char_to_int c) < 16 /\ hexdigit (HEX (char_to_int c)) = c.
Proof.
  destruct c as [[|] [|] [|] [|] [|] [|] [|] [|]];
    intros H; try discriminate H; vm_compute; repeat split; discriminate.
Qed.

Lemma decode_three_bytes (b0 b1 b2 : Z) :
  0 <= b0 < 256 -> 0 <= b1 < 256 -> 0 <= b2 < 256 ->
  BCDstr2long [hexdigit (b0 / 16); hexdigit (b0 mod 16);
               hexdigit (b1 / 16); hexdigit (b1 mod 16);
               hexdigit (b2 / 16); hexdigit (b2 mod 16)]
  = b0 + 256 * b1 + 65536 * b2.
Proof.
  intros H0 H1 H2.
  unfold BCDstr2long, HEXat, str_at. cbn [length Nat.eqb negb nth].
  rewrite !HEX_hexdigit
    by first [ apply Z.mod_pos_bound; lia
             | split; [apply Z.div_pos; lia | apply Z.div_lt_upper_bound; lia] ].
  assert (D0 : 0 <= b0 / 16 < 16)
    by (split; [apply Z.div_pos; lia | apply Z.div_lt_upper_bound; lia]).
  assert (D1 : 0 <= b1 / 16 < 16)
    by (split; [apply Z.div_pos; lia | apply Z.div_lt_upper_bound; lia]).
  assert (D2 : 0 <= b2 / 16 < 16)
    by (split; [apply Z.div_pos; lia | apply Z.div_lt_upper_bound; lia]).
  assert (M0 : 0 <= b0 mod 16 < 16) by (apply Z.mod_pos_bound; lia).
  assert (M1 : 0 <= b1 mod 16 < 16) by (apply Z.mod_pos_bound; lia).
  assert (M2 : 0 <= b2 mod 16 < 16) by (apply Z.mod_pos_bound; lia).
  unfold to_ulong at 1. rewrite (Z.mod_small (b2 / 16)) by lia.
  rewrite (or_int_shl4 (b2 / 16) (b2 mod 16)) by lia.
  rewrite (or_int_shl4 _ (b1 / 16)) by lia.
  rewrite (or_int_shl4 _ (b1 mod 16)) by lia.
  rewrite (or_int_shl4 _ (b0 / 16)) by lia.
  rewrite (or_int_shl4 _ (b0 mod 16)) by lia.
  pose proof (Z.div_mod b0 16 ltac:(lia)).
  pose proof (Z.div_mod b1 16 ltac:(lia)).
  pose proof (Z.div_mod b2 16 ltac:(lia)).
  lia.
Qed.

(** X1.  [Long2BCDstr] always produces six characters and keeps only the low
    24 bits of its argument, negative numbers included: decoding its output
    gives the argument modulo 2^24. *)
Theorem Long2BCDstr_keeps_low_24_bits (Number : Z) :
  length (Long2BCDstr Number) = 6%nat /\
  Long2BCDstr Number = Long2BCDstr (Number mod 2 ^ 24) /\
  BCDstr2long (Long2BCDstr Number) = Number mod 2 ^ 24.
Proof.
  assert (E : Long2BCDstr (Number mod 2 ^ 24) = Long2BCDstr Number).
  { rewrite (Long2BCDstr_bytes Number), (Long2BCDstr_bytes (Number mod 2 ^ 24)).
    cbv zeta.
    replace ((Number mod 2 ^ 24) mod 256) with (Number mod 256)
      by (change (2 ^ 24) with 16777216; Z.div_mod_to_equations; lia).
    replace (((Number mod 2 ^ 24) / 256) mod 256) with ((Number / 256) mod 256)
      by (change (2 ^ 24) with 16777216; Z.div_mod_to_equations; lia).
    replace (((Number mod 2 ^ 24) / 65536) mod 256) with ((Number / 65536) mod 256)
      by (change (2 ^ 24) with 16777216; Z.div_mod_to_equations; lia).
    reflexivity. }
  split; [rewrite Long2BCDstr_bytes; reflexivity|].
  split; [symmetry; exact E|].
  rewrite Long2BCDstr_bytes. cbv zeta.
  rewrite decode_three_bytes by (apply Z.mod_pos_bound; lia).
  change (2 ^ 24) with 16777216. Z.div_mod_to_equations. lia.
Qed.

(** X2.  On a string of six characters, each '0'..'9' or 'A'..'F',
    [BCDstr2long] returns a number below 2^24 and [Long2BCDstr] turns that
    number back into the same string. *)
Theorem Long2BCDstr_BCDstr2long (String : cstring) :
  length String = 6%nat ->
  forallb is_hex_upper String = true ->
  0 <= BCDstr2long String < 2 ^ 24 /\
  Long2BCDstr (BCDstr2long String) = String.
Proof.
  intros Hlen Hhex.
  destruct String as [|c0 [|c1 [|c2 [|c3 [|c4 [|c5 [|c6 rest]]]]]]];
    try discriminate Hlen.
  cbn [forallb] in Hhex.
  repeat (apply andb_true_iff in Hhex; destruct Hhex as [? Hhex]).
  repeat match goal with
         | H : is_hex_upper ?c = true |- _ =>
             apply is_hex_upper_digit in H; destruct H as [? ?]
         end.
  set (h0 := HEX (char_to_int c0)) in *. set (h1 := HEX (char_to_int c1)) in *.
  set (h2 := HEX (char_to_int c2)) in *. set (h3 := HEX (char_to_int c3)) in *.
  set (h4 := HEX (char_to_int c4)) in *. set (h5 := HEX (char_to_int c5)) in *.
  assert (Es : [c0; c1; c2; c3; c4; c5]
               = [hexdigit ((16 * h0 + h1) / 16); hexdigit ((16 * h0 + h1) mod 16);
                  hexdigit ((16 * h2 + h3) / 16); hexdigit ((16 * h2 + h3) mod 16);
                  hexdigit ((16 * h4 + h5) / 16); hexdigit ((16 * h4 + h5) mod 16)]).
  { replace ((16 * h0 + h1) / 16) with h0 by (Z.div_mod_to_equations; lia).
    replace ((16 * h0 + h1) mod 16) with h1 by (Z.div_mod_to_equations; lia).
    replace ((16 * h2 + h3) / 16) with h2 by (Z.div_mod_to_equations; lia).
    replace ((16 * h2 + h3) mod 16) with h3 by (Z.div_mod_to_equations; lia).
    replace ((16 * h4 + h5) / 16) with h4 by (Z.div_mod_to_equations; lia).
    replace ((16 * h4 + h5) mod 16) with h5 by (Z.div_mod_to_equations; lia).
    congruence. }
  set (N := 16 * h0 + h1 + 256 * (16 * h2 + h3) + 65536 * (16 * h4 + h5)).
  assert (Ev : BCDstr2long [c0; c1; c2; c3; c4; c5] = N)
    by (rewrite Es; apply decode_three_bytes; lia).
  rewrite Ev.
  split; [subst N; lia|].
  rewrite Long2BCDstr_bytes. cbv zeta.
  assert (B0 : N mod 256 = 16 * h0 + h1)
    by (subst N; Z.div_mod_to_equations; lia).
  assert (B1 : (N / 256) mod 256 = 16 * h2 + h3)
    by (subst N; Z.div_mod_to_equations; lia).
  assert (B2 : (N / 65536) mod 256 = 16 * h4 + h5)
    by (subst N; Z.div_mod_to_equations; lia).
  rewrite B0, B1, B2. symmetry. exact Es.
Qed.

(** X3.  [Highstr2long] reads the first two characters only: when they are
    hexadecimal digits the result is their value as a byte, whatever
    follows them. *)
Theorem Highstr2long_first_two_digits (c0 c1 : ascii) (rest : cstring) :
  is_hex_upper c0 = true ->
  is_hex_upper c1 = true ->
  Highstr2long (c0 :: c1 :: rest) = hex_value [c0; c1] /\
  0 <= Highstr2long (c0 :: c1 :: rest) < 256.
Proof.
  intros H0 H1.
  apply is_hex_upper_digit in H0. destruct H0 as [H0 _].
  apply is_hex_upper_digit in H1. destruct H1 as [H1 _].
  assert (E : Highstr2long (c0 :: c1 :: rest)
              = 16 * HEX (char_to_int c0) + HEX (char_to_int c1)).
  { unfold Highstr2long, HEXat, str_at.
    cbn [length Nat.ltb Nat.leb nth].
    unfold to_ulong at 1. rewrite (Z.mod_small (HEX (char_to_int c0))) by lia.
    apply or_int_shl4; lia. }
  rewrite E. unfold hex_value. cbn [fold_left]. lia.
Qed.

(** ** Bit-level helpers *)

Lemma lor_shiftl_low (hi lo k : Z) :
  0 <= hi -> 0 <= k -> 0 <= lo < 2 ^ k ->
  Z.lor (Z.shiftl hi k) lo = hi * 2 ^ k + lo.
Proof.
  intros Hhi Hk Hlo.
  assert (Hland : Z.land (Z.shiftl hi k) lo = 0).
  { apply Z.bits_inj'. intros n Hn.
    rewrite Z.land_spec, Z.bits_0.
    destruct (Z.ltb_spec n k) as [Hlt|Hge].
    - rewrite Z.shiftl_spec_low by lia. reflexivity.
    - replace (Z.testbit lo n) with false; [apply andb_false_r|].
      symmetry. destruct (Z.eq_dec lo 0) as [->|Hnz]; [apply Z.bits_0|].
      apply Z.bits_above_log2; [lia|].
      apply Z.log2_lt_pow2; [lia|].
      apply Z.lt_le_trans with (2 ^ k); [lia|].
      apply Z.pow_le_mono_r; lia. }
  rewrite <- Z.lxor_lor by exact Hland.
  rewrite <- Z.add_nocarry_lxor by exact Hland.
  rewrite Z.shiftl_mul_pow2 by lia. reflexivity.
Qed.

Lemma land_shifted_mask (a m k : Z) :
  0 <= k -> Z.land a (Z.shiftl m k) = Z.shiftl (Z.land (Z.shiftr a k) m) k.
Proof.
  intros Hk. apply Z.bits_inj'. intros n Hn.
  rewrite Z.land_spec.
  destruct (Z.ltb_spec n k) as [Hlt|Hge].
  - rewrite !Z.shiftl_spec_low by lia. apply andb_false_r.
  - rewrite !Z.shiftl_spec by lia. rewrite Z.land_spec, Z.shiftr_spec by lia.
    replace (n - k + k) with n by lia. reflexivity.
Qed.

(** The byte swap of [GetMotorBoardVersion] on a 24-bit value. *)
Lemma swap_version_bytes (b0 b1 b2 : Z) :
  0 <= b0 < 256 -> 0 <= b1 < 256 -> 0 <= b2 < 256 ->
  let tmpMCVersion := b0 + 256 * b1 + 65536 * b2 in
  Z.lor (Z.lor (to_ulong (Z.shiftl (Z.land tmpMCVersion 0xFF) 16))
               (Z.land tmpMCVersion 0xFF00))
        (Z.shiftr (Z.land tmpMCVersion 0xFF0000) 16)
  = 65536 * b0 + 256 * b1 + b2.
Proof.
  intros H0 H1 H2 tmp.
  assert (E0 : Z.land tmp 0xFF = b0).
  { change 0xFF with (Z.ones 8). rewrite Z.land_ones by lia.
    subst tmp. change (2 ^ 8) with 256. Z.div_mod_to_equations. lia. }
  assert (E1 : Z.land tmp 0xFF00 = 256 * b1).
  { change 0xFF00 with (Z.shiftl (Z.ones 8) 8).
    rewrite land_shifted_mask by lia. rewrite Z.land_ones by lia.
    rewrite Z.shiftr_div_pow2, Z.shiftl_mul_pow2 by lia.
    subst tmp. change (2 ^ 8) with 256. Z.div_mod_to_equations. lia. }
  assert (E2 : Z.shiftr (Z.land tmp 0xFF0000) 16 = b2).
  { rewrite Z.shiftr_land. change (Z.shiftr 0xFF0000 16) with (Z.ones 8).
    rewrite Z.land_ones by lia. rewrite Z.shiftr_div_pow2 by lia.
    subst tmp. change (2 ^ 16) with 65536. change (2 ^ 8) with 256.
    Z.div_mod_to_equations. lia. }
  rewrite E0, E1, E2. unfold to_ulong.
  rewrite Z.shiftl_mul_pow2 by lia. rewrite Z.mod_small by lia.
  replace (b0 * 2 ^ 16) with (Z.shiftl b0 16) by (rewrite Z.shiftl_mul_pow2; lia).
  rewrite (lor_shiftl_low b0 (256 * b1) 16) by lia.
  replace (b0 * 2 ^ 16 + 256 * b1) with (Z.shiftl (256 * b0 + b1) 8)
    by (rewrite Z.shiftl_mul_pow2; lia).
  rewrite (lor_shiftl_low (256 * b0 + b1) b2 8) by lia. lia.
Qed.

(** The value of six hexadecimal digits under [BCDstr2long]. *)
Lemma BCDstr2long_digits (c0 c1 c2 c3 c4 c5 : ascii) :
  forallb is_hex_upper [c0; c1; c2; c3; c4; c5] = true ->
  let b0 := hex_value [c0; c1] in
  let b1 := hex_value [c2; c3] in
  let b2 := hex_value [c4; c5] in
  (0 <= b0 < 256 /\ 0 <= b1 < 256 /\ 0 <= b2 < 256) /\
  BCDstr2long [c0; c1; c2; c3; c4; c5] = b0 + 256 * b1 + 65536 * b2 /\
  hex_value [c0; c1; c2; c3; c4; c5] = 65536 * b0 + 256 * b1 + b2.
Proof.
  intros Hhex. cbn [forallb] in Hhex.
  repeat (apply andb_true_iff in Hhex; destruct Hhex as [? Hhex]).
  repeat match goal with
         | H : is_hex_upper ?c = true |- _ =>
             apply is_hex_upper_digit in H; destruct H as [? ?]
         end.
  unfold hex_value. cbn [fold_left].
  set (h0 := HEX (char_to_int c0)) in *. set (h1 := HEX (char_to_int c1)) in *.
  set (h2 := HEX (char_to_int c2)) in *. set (h3 := HEX (char_to_int c3)) in *.
  set (h4 := HEX (char_to_int c4)) in *. set (h5 := HEX (char_to_int c5)) in *.
  split; [lia|]. split; [|lia].
  assert (Es : [c0; c1; c2; c3; c4; c5]
               = [hexdigit ((16 * h0 + h1) / 16); hexdigit ((16 * h0 + h1) mod 16);
                  hexdigit ((16 * h2 + h3) / 16); hexdigit ((16 * h2 + h3) mod 16);
                  hexdigit ((16 * h4 + h5) / 16); hexdigit ((16 * h4 + h5) mod 16)]).
  { replace ((16 * h0 + h1) / 16) with h0 by (Z.div_mod_to_equations; lia).
    replace ((16 * h0 + h1) mod 16) with h1 by (Z.div_mod_to_equations; lia).
    replace ((16 * h2 + h3) / 16) with h2 by (Z.div_mod_to_equations; lia).
    replace ((16 * h2 + h3) mod 16) with h3 by (Z.div_mod_to_equations; lia).
    replace ((16 * h4 + h5) / 16) with h4 by (Z.div_mod_to_equations; lia).
    replace ((16 * h4 + h5) mod 16) with h5 by (Z.div_mod_to_equations; lia).
    congruence. }
  rewrite Es. rewrite decode_three_bytes by lia. lia.
Qed.

(** X4.  [GetMotorBoardVersion] undoes the byte swap of [BCDstr2long]: after
    a successful exchange whose response is six hexadecimal digits,
    [MCVersion] is those digits read in their natural order, and nothing
    else in the driver but the port changes. *)
Theorem GetMotorBoardVersion_natural_order Axis s Response s1 :
  TalkWithAxis Axis "e" [] [] s = (true, Response, s1) ->
  length Response = 6%nat ->
  forallb is_hex_upper Response = true ->
  GetMotorBoardVersion Axis s = (true, set_MCVersion (hex_value Response) s1).
Proof.
  intros Htalk Hlen Hhex.
  destruct Response as [|c0 [|c1 [|c2 [|c3 [|c4 [|c5 [|c6 rest]]]]]]];
    try discriminate Hlen.
  destruct (BCDstr2long_digits c0 c1 c2 c3 c4 c5 Hhex) as ((B0 & B1 & B2) & Ed & Ev).
  unfold GetMotorBoardVersion. rewrite Htalk. cbn [negb].
  rewrite Ed, Ev. rewrite swap_version_bytes by assumption. reflexivity.
Qed.

(** ** What an exchange returns *)

Lemma c_str_app_zero (l t : list ascii) :
  c_str (l ++ Ascii.zero :: t) = c_str l.
Proof.
  induction l as [|c l IH]; cbn; [reflexivity|].
  destruct (N_of_ascii c =? 0)%N; [reflexivity|]. rewrite IH. reflexivity.
Qed.

(** The string handed back is the last read without its first byte and its
    terminator, whatever earlier attempts left in the buffer. *)
Lemma response_payload (bytes buf : list ascii) :
  (2 <= length bytes)%nat ->
  c_str (skipn 1 (put_at (length bytes - 1) Ascii.zero (store_bytes bytes buf)))
  = c_str (skipn 1 (removelast bytes)).
Proof.
  intros Hlen.
  destruct (exists_last (l := bytes)) as (l & x & ->);
    [intros ->; cbn in Hlen; lia|].
  rewrite length_app in Hlen. cbn [length] in Hlen.
  rewrite removelast_last.
  unfold put_at, store_bytes.
  rewrite length_app. cbn [length].
  replace (length l + 1 - 1)%nat with (length l) by lia.
  rewrite <- !app_assoc.
  rewrite firstn_app, firstn_all, Nat.sub_diag. cbn [firstn].
  rewrite app_nil_r.
  destruct l as [|b0 l']; [cbn in Hlen; lia|].
  cbn [skipn app]. apply c_str_app_zero.
Qed.

Lemma exchange_attempts_break left :
  forall retries command response bytesRead p response' bytesRead' p',
    (left + retries = SKYWATCHER_MAX_RETRTY)%nat ->
    (1 <= left)%nat ->
    exchange_attempts left retries command response bytesRead p
    = (Some (response', bytesRead'), p') ->
    exists k bytes buf,
      nth_read p k = (TTY_OK, bytes) /\
      (2 <= length bytes)%nat /\
      response' = store_bytes bytes buf /\
      bytesRead' = length bytes.
Proof.
  unfold SKYWATCHER_MAX_RETRTY.
  induction left as [|left IH];
    intros retries command response bytesRead p response' bytesRead' p' Hsum Hpos H;
    [lia|].
  rewrite <- (port_shift_0 p) in H. rewrite exchange_attempts_S in H.
  cbv zeta in H. autorewrite with port in H. cbn [Nat.add app] in H.
  unfold SKYWATCHER_MAX_RETRTY in H. cbn [Nat.sub] in H.
  destruct (Nat.eqb_spec retries 2) as [Hlast|Hmore].
  - destruct (negb (nth_write_ok p 0)); [discriminate|].
    destruct (nth_read p 0) as [rc bytes] eqn:R0. cbn [fst snd] in H.
    destruct (negb (tty_ok rc) || (length bytes <? 2)%nat) eqn:Hbad; [discriminate|].
    apply orb_false_iff in Hbad. destruct Hbad as [Hrc Hlen].
    inversion H; subst. exists 0%nat, bytes, response.
    destruct rc; try discriminate Hrc.
    apply Nat.ltb_ge in Hlen. repeat split; assumption.
  - destruct (negb (nth_write_ok p 0)).
    + apply IH in H; [|lia|lia].
      destruct H as (k & bytes & buf & Hk & Hlen & -> & ->).
      rewrite nth_read_shift in Hk. eauto 8.
    + destruct (nth_read p 0) as [rc bytes] eqn:R0. cbn [fst snd] in H.
      destruct (negb (tty_ok rc) || (length bytes <? 2)%nat) eqn:Hbad.
      * apply IH in H; [|lia|lia].
        destruct H as (k & bytes1 & buf & Hk & Hlen & -> & ->).
        rewrite nth_read_shift in Hk. eauto 8.
      * apply orb_false_iff in Hbad. destruct Hbad as [Hrc Hlen].
        inversion H; subst. exists 0%nat, bytes, response.
        destruct rc; try discriminate Hrc.
        apply Nat.ltb_ge in Hlen. repeat split; assumption.
Qed.

(** X5.  Whatever the port does, [TalkWithAxis] either gives up after its
    attempts, returning false with the caller's response string untouched,
    or hands back the payload of one read that came back TTY_OK with at
    least two bytes: that read without its first byte and its terminator,
    cut at the first NUL (no read being longer than the 16-byte buffer).  It then returns true unless the first byte of
    that read is '!'.  Bytes left in the buffer by failed attempts never
    reach the caller. *)
Theorem TalkWithAxis_response_is_one_read Axis Command cmdDataStr responseStr s :
  (forall i, (length (snd (nth_read (MyPortFD s) i)) <= SKYWATCHER_MAX_CMD)%nat) ->
  let result := TalkWithAxis Axis Command cmdDataStr responseStr s in
  let ok := fst (fst result) in
  let r := snd (fst result) in
  (ok = false /\ r = responseStr) \/
  (exists k bytes,
      nth_read (MyPortFD s) k = (TTY_OK, bytes) /\
      (2 <= length bytes)%nat /\
      r = c_str (skipn 1 (removelast bytes)) /\
      ok = negb (Ascii.eqb (nth 0 bytes Ascii.zero) "!"%char)).
Proof.
  intros _ result ok r. subst ok r result.
  unfold TalkWithAxis, exchange.
  destruct (exchange_attempts SKYWATCHER_MAX_RETRTY 0
              (frame_command Axis Command cmdDataStr)
              (repeat Ascii.zero SKYWATCHER_MAX_CMD) 0 (MyPortFD s))
    as [[[response bytesRead]|] p1] eqn:E.
  - right.
    apply exchange_attempts_break in E;
      [|reflexivity|unfold SKYWATCHER_MAX_RETRTY; lia].
    destruct E as (k & bytes & buf & Hk & Hlen & -> & ->).
    exists k, bytes. split; [exact Hk|]. split; [exact Hlen|].
    rewrite first_byte_kept by exact Hlen.
    rewrite response_payload by exact Hlen.
    destruct (Ascii.eqb (nth 0 bytes Ascii.zero) "!"); cbn; split; reflexivity.
  - left. cbn. split; reflexivity.
Qed.

(** X6.  A complete response to the first attempt ends the exchange there,
    with one flush, one write and one read, also when the response is an
    error reply starting with '!': mount errors are not retried. *)
Theorem TalkWithAxis_single_attempt Axis Command cmdDataStr responseStr s bytes :
  nth_write_ok (MyPortFD s) 0 = true ->
  nth_read (MyPortFD s) 0 = (TTY_OK, bytes) ->
  (2 <= length bytes <= SKYWATCHER_MAX_CMD)%nat ->
  TalkWithAxis Axis Command cmdDataStr responseStr s
  = (negb (Ascii.eqb (nth 0 bytes Ascii.zero) "!"%char),
     c_str (skipn 1 (removelast bytes)),
     set_MyPortFD
       (port_shift (MyPortFD s) 1 1
          [EvFlush; EvWrite (frame_command Axis Command cmdDataStr);
           EvReadSection CR SKYWATCHER_TIMEOUT]) s).
Proof.
  intros W0 R0 [Hlen _].
  unfold TalkWithAxis, exchange.
  set (command := frame_command Axis Command cmdDataStr).
  set (buf := repeat Ascii.zero SKYWATCHER_MAX_CMD).
  assert (E : exchange_attempts SKYWATCHER_MAX_RETRTY 0 command buf 0 (MyPortFD s)
              = (Some (store_bytes bytes buf, length bytes),
                 port_shift (MyPortFD s) 1 1
                   [EvFlush; EvWrite command; EvReadSection CR SKYWATCHER_TIMEOUT])).
  { rewrite <- (port_shift_0 (MyPortFD s)) at 1. unfold SKYWATCHER_MAX_RETRTY.
    rewrite exchange_attempts_S. autorewrite with port.
    cbn [Nat.add app]. rewrite W0, R0. cbn [negb fst snd tty_ok orb].
    destruct (Nat.ltb_spec (length bytes) 2) as [Hlt|_]; [lia|]. reflexivity. }
  rewrite E.
  rewrite first_byte_kept by exact Hlen.
  rewrite response_payload by exact Hlen.
  destruct (Ascii.eqb (nth 0 bytes Ascii.zero) "!"); reflexivity.
Qed.

(** ** What each query changes *)

Lemma TalkWithAxis_shape Axis Command cmdDataStr responseStr s ok r s' :
  TalkWithAxis Axis Command cmdDataStr responseStr s = (ok, r, s') ->
  exists p, s' = set_MyPortFD p s.
Proof.
  intros H. exists (MyPortFD s'). eapply TalkWithAxis_frame. exact H.
Qed.

Lemma axis_set_get {A} (a : per_axis A) (x : AXISID) :
  axis_set a x (axis_get a x) = a.
Proof. destruct a, x; reflexivity. Qed.

Lemma GetEncoder_shape Axis s ok s' :
  GetEncoder Axis s = (ok, s') ->
  exists p v,
    s' = set_CurrentEncoders (axis_set (CurrentEncoders s) Axis v) (set_MyPortFD p s) /\
    (ok = false -> v = axis_get (CurrentEncoders s) Axis).
Proof.
  unfold GetEncoder. destruct (SupportAdvancedCommandSet s).
  - destruct (TalkWithAxis Axis "X" rENCODER [] s) as [[ok1 Response] s1] eqn:E.
    apply TalkWithAxis_shape in E. destruct E as (p & ->).
    destruct ok1; cbn [negb]; intros Hres; inversion Hres; subst.
    + eexists p, _. split; [reflexivity | discriminate].
    + exists p, (axis_get (CurrentEncoders s) Axis). rewrite axis_set_get.
      split; [destruct s; reflexivity | reflexivity].
  - destruct (TalkWithAxis Axis "j" [] [] s) as [[ok1 Response] s1] eqn:E.
    apply TalkWithAxis_shape in E. destruct E as (p & ->).
    destruct ok1; cbn [negb].
    + destruct (0 <? to_long (BCDstr2long Response)); intros Hres; inversion Hres; subst.
      * eexists p, _. split; [reflexivity | discriminate].
      * exists p, (axis_get (CurrentEncoders s) Axis). rewrite axis_set_get.
        split; [destruct s; reflexivity | reflexivity].
    + intros Hres; inversion Hres; subst.
      exists p, (axis_get (CurrentEncoders s) Axis). rewrite axis_set_get.
      split; [destruct s; reflexivity | reflexivity].
Qed.

Lemma Highstr2long_range (String : cstring) : 0 <= Highstr2long String < 2 ^ 64.
Proof.
  unfold Highstr2long. destruct (_ <? _)%nat; [lia|]. cbv zeta.
  unfold or_int, shl4, to_ulong.
  set (a := Z.shiftl _ 4 mod 2 ^ 64). set (b := HEXat String 1 mod 2 ^ 64).
  assert (Ha : 0 <= a < 2 ^ 64) by (apply Z.mod_pos_bound; lia).
  assert (Hb : 0 <= b < 2 ^ 64) by (apply Z.mod_pos_bound; lia).
  split; [apply Z.lor_nonneg; lia|].
  destruct (Z.eq_dec (Z.lor a b) 0) as [->|Hnz]; [lia|].
  apply Z.log2_lt_pow2; [assert (0 <= Z.lor a b) by (apply Z.lor_nonneg; lia); lia|].
  rewrite Z.log2_lor by lia. apply Z.max_lub_lt.
  - destruct (Z.eq_dec a 0) as [->|Ha0]; [cbn; lia|]. apply Z.log2_lt_pow2; lia.
  - destruct (Z.eq_dec b 0) as [->|Hb0]; [cbn; lia|]. apply Z.log2_lt_pow2; lia.
Qed.

Lemma to_long_nonzero (u : Z) : 0 <= u < 2 ^ 64 -> u <> 0 -> to_long u <> 0.
Proof.
  intros Hu Hnz. unfold to_long, to_ulong. rewrite Z.mod_small by lia.
  destruct (u <? 2 ^ 63) eqn:E; lia.
Qed.

Lemma GetHighSpeedRatio_shape Axis s ok s' :
  GetHighSpeedRatio Axis s = (ok, s') ->
  exists p,
    (ok = false /\ s' = set_MyPortFD p s) \/
    (ok = true /\ exists v, v <> 0 /\
       s' = set_HighSpeedRatio (axis_set (HighSpeedRatio s) Axis v) (set_MyPortFD p s)).
Proof.
  unfold GetHighSpeedRatio.
  destruct (TalkWithAxis Axis "g" [] [] s) as [[ok1 Response] s1] eqn:E.
  apply TalkWithAxis_shape in E. destruct E as (p & ->).
  destruct ok1; cbn [negb].
  - destruct (Z.eqb_spec (Highstr2long Response) 0) as [Hz|Hnz];
      intros Hres; inversion Hres; subst.
    + exists p; left; split; reflexivity.
    + exists p; right; split; [reflexivity|]. eexists. split; [|reflexivity].
      apply to_long_nonzero; [apply Highstr2long_range | exact Hnz].
  - intros Hres; inversion Hres; subst. exists p; left; split; reflexivity.
Qed.

Lemma to_uint32_range (z : Z) : 0 <= to_uint32 z < 2 ^ 32.
Proof. unfold to_uint32. apply Z.mod_pos_bound. lia. Qed.

Lemma GetStepperClockFrequency_shape Axis s ok s' :
  GetStepperClockFrequency Axis s = (ok, s') ->
  exists p,
    (ok = false /\ s' = set_MyPortFD p s) \/
    (ok = true /\ exists v, 0 < v < 2 ^ 32 /\
       s' = set_StepperClockFrequency (axis_set (StepperClockFrequency s) Axis v)
                                      (set_MyPortFD p s)).
Proof.
  unfold GetStepperClockFrequency.
  destruct (TalkWithAxis Axis "b" [] [] s) as [[ok1 Response] s1] eqn:E.
  apply TalkWithAxis_shape in E. destruct E as (p & ->).
  destruct ok1; cbn [negb].
  - pose proof (to_uint32_range (BCDstr2long Response)) as Hr.
    destruct (Z.eqb_spec (to_uint32 (BCDstr2long Response)) 0) as [Hz|Hnz];
      intros Hres; inversion Hres; subst.
    + exists p; left; split; reflexivity.
    + exists p; right; split; [reflexivity|]. eexists. split; [|reflexivity]. lia.
  - intros Hres; inversion Hres; subst. exists p; left; split; reflexivity.
Qed.

Lemma GetMicrostepsPerWormRevolution_shape Axis s ok s' :
  GetMicrostepsPerWormRevolution Axis s = (ok, s') ->
  exists p,
    (ok = false /\ s' = set_MyPortFD p s) \/
    (ok = true /\ exists v, 0 <= v < 2 ^ 32 /\
       (SupportAdvancedCommandSet s = false -> v <> 0) /\
       s' = set_MicrostepsPerWormRevolution
              (axis_set (MicrostepsPerWormRevolution s) Axis v) (set_MyPortFD p s)).
Proof.
  unfold GetMicrostepsPerWormRevolution.
  destruct (SupportAdvancedCommandSet s) eqn:Hadv.
  - destruct (TalkWithAxis Axis "X" rWORM_RESOLUTION [] s) as [[ok1 Response] s1] eqn:E.
    apply TalkWithAxis_shape in E. destruct E as (p & ->).
    destruct ok1; cbn [negb]; intros Hres; inversion Hres; subst.
    + exists p; right; split; [reflexivity|]. eexists.
      split; [apply to_uint32_range|]. split; [discriminate | reflexivity].
    + exists p; left; split; reflexivity.
  - destruct (TalkWithAxis Axis "s" [] [] s) as [[ok1 Response] s1] eqn:E.
    apply TalkWithAxis_shape in E. destruct E as (p & ->).
    destruct ok1; cbn [negb].
    + pose proof (to_uint32_range (BCDstr2long Response)) as Hr.
      destruct (Z.eqb_spec (to_uint32 (BCDstr2long Response)) 0) as [Hz|Hnz];
        intros Hres; inversion Hres; subst.
      * exists p; left; split; reflexivity.
      * exists p; right; split; [reflexivity|]. eexists.
        split; [exact Hr|]. split; [intros _; exact Hnz | reflexivity].
    + intros Hres; inversion Hres; subst. exists p; left; split; reflexivity.
Qed.

Lemma GetMotorBoardVersion_shape Axis s ok s' :
  GetMotorBoardVersion Axis s = (ok, s') ->
  exists p,
    (ok = false /\ s' = set_MyPortFD p s) \/
    (ok = true /\ exists v, s' = set_MCVersion v (set_MyPortFD p s)).
Proof.
  unfold GetMotorBoardVersion.
  destruct (TalkWithAxis Axis "e" [] [] s) as [[ok1 Response] s1] eqn:E.
  apply TalkWithAxis_shape in E. destruct E as (p & ->).
  destruct ok1; cbn [negb]; intros Hres; inversion Hres; subst.
  - exists p; right; split; [reflexivity|]. eexists. reflexivity.
  - exists p; left; split; reflexivity.
Qed.

Lemma GetMicrostepsPerRevolution_shape Axis s ok s' :
  GetMicrostepsPerRevolution Axis s = (ok, s') ->
  exists p,
    (ok = false /\ s' = set_MyPortFD p s) \/
    (ok = true /\ exists tmp,
       (MountCode s <> _114GT -> IsMerlinMount s = false -> tmp <> 0) /\
       s' = with_resolution Axis tmp (set_MyPortFD p s)).
Proof.
  unfold GetMicrostepsPerRevolution.
  assert (Hstep : forall ok1 tmp p,
    (if negb ok1 then (false, set_MyPortFD p s)
     else if tmp =? 0 then (false, set_MyPortFD p s)
     else
       let tmp1 := if MountCode (set_MyPortFD p s) =? _114GT then 0x205318 else tmp in
       let tmp2 := if IsMerlinMount (set_MyPortFD p s)
                   then double_to_long (double_of_long tmp1 * MERLIN_SCALE)%float
                   else tmp1 in
       let d := double_of_long tmp2 in
       let s2 := set_MicrostepsPerRevolution
                   (axis_set (MicrostepsPerRevolution (set_MyPortFD p s)) Axis tmp2)
                   (set_MyPortFD p s) in
       let s2 := set_MicrostepsPerRadian
                   (axis_set (MicrostepsPerRadian s2) Axis (d / (2 * M_PI))%float) s2 in
       let s2 := set_RadiansPerMicrostep
                   (axis_set (RadiansPerMicrostep s2) Axis (2 * M_PI / d)%float) s2 in
       let s2 := set_MicrostepsPerDegree
                   (axis_set (MicrostepsPerDegree s2) Axis (d / 360)%float) s2 in
       let s2 := set_DegreesPerMicrostep
                   (axis_set (DegreesPerMicrostep s2) Axis (360 / d)%float) s2 in
       (true, s2)) = (ok, s') ->
    exists p0,
      (ok = false /\ s' = set_MyPortFD p0 s) \/
      (ok = true /\ exists tmp0,
         (MountCode s <> _114GT -> IsMerlinMount s = false -> tmp0 <> 0) /\
         s' = with_resolution Axis tmp0 (set_MyPortFD p0 s))).
  { intros ok1 tmp p Hres0. exists p. revert Hres0.
    destruct ok1; cbn [negb]; [|intros Hres; inversion Hres; subst; left; split; reflexivity].
    destruct (Z.eqb_spec tmp 0) as [Hz|Hnz];
      [intros Hres; inversion Hres; subst; left; split; reflexivity|].
    cbv zeta. intros Hres; inversion Hres; subst. right. split; [reflexivity|].
    eexists. split; [|reflexivity].
    intros Hcode Hmerlin.
    change (MountCode (set_MyPortFD p s)) with (MountCode s).
    change (IsMerlinMount (set_MyPortFD p s)) with (IsMerlinMount s).
    rewrite Hmerlin.
    destruct (Z.eqb_spec (MountCode s) _114GT) as [Hc|_]; [contradiction|].
    exact Hnz. }
  destruct (SupportAdvancedCommandSet s).
  - destruct (TalkWithAxis Axis "X" rRESOLUTION [] s) as [[ok1 Response] s1] eqn:E.
    apply TalkWithAxis_shape in E. destruct E as (p & ->). apply Hstep.
  - destruct (TalkWithAxis Axis "a" [] [] s) as [[ok1 Response] s1] eqn:E.
    apply TalkWithAxis_shape in E. destruct E as (p & ->). apply Hstep.
Qed.

Lemma GetStatus_shape Axis s ok s' :
  GetStatus Axis s = (ok, s') ->
  exists p st enc,
    s' = set_AxesStatus (axis_set (AxesStatus s) Axis st)
           (set_CurrentEncoders (axis_set (CurrentEncoders s) Axis enc)
              (set_MyPortFD p s)) /\
    (ok = false ->
       st = axis_get (AxesStatus s) Axis /\ enc = axis_get (CurrentEncoders s) Axis).
Proof.
  unfold GetStatus.
  destruct (TalkWithAxis Axis "f" [] [] s) as [[ok1 Response] s1] eqn:E.
  apply TalkWithAxis_shape in E. destruct E as (p & ->).
  destruct ok1; cbn [negb].
  - destruct (negb (char_and (str_at Response 1) 1 =? 0)).
    + repeat match goal with
             | |- context [if ?c then _ else _] => destruct c
             end;
        match goal with
        | |- (_, ?X) = _ -> _ =>
            intros Hres; inversion Hres; subst;
            exists p, (axis_get (AxesStatus X) Axis),
                   (axis_get (CurrentEncoders s) Axis);
            (split; [open_state s; destruct Axis; norm_state; reflexivity | discriminate])
        end.
    + destruct (SlewingTo (axis_get (AxesStatus (set_MyPortFD p s)) Axis)).
      * destruct (GetEncoder Axis (set_MyPortFD p s)) as [ok2 s2] eqn:E2.
        apply GetEncoder_shape in E2. destruct E2 as (p2 & v & -> & _).
        cbn [snd].
        repeat match goal with
               | |- context [if ?c then _ else _] => destruct c
               end;
          match goal with
          | |- (_, ?X) = _ -> _ =>
              intros Hres; inversion Hres; subst;
              exists p2, (axis_get (AxesStatus X) Axis), v;
              (split; [open_state s; destruct Axis; norm_state; reflexivity | discriminate])
          end.
      * repeat match goal with
               | |- context [if ?c then _ else _] => destruct c
               end;
          match goal with
          | |- (_, ?X) = _ -> _ =>
              intros Hres; inversion Hres; subst;
              exists p, (axis_get (AxesStatus X) Axis),
                     (axis_get (CurrentEncoders s) Axis);
              (split; [open_state s; destruct Axis; norm_state; reflexivity | discriminate])
          end.
  - intros Hres; inversion Hres; subst.
    exists p, (axis_get (AxesStatus s) Axis), (axis_get (CurrentEncoders s) Axis).
    split; [open_state s; destruct Axis; reflexivity | intros _; split; reflexivity].
Qed.

Lemma only_port_of (p : Port) (s : SkywatcherAPI) :
  set_MyPortFD p s = set_MyPortFD (MyPortFD (set_MyPortFD p s)) s.
Proof. reflexivity. Qed.

(** X7.  A query that returns false has changed nothing in the driver but
    the port: the calibration, the encoder values and the status flags are
    those of before the call.  This holds for the six readers, for
    [GetStatus] and for [InstantStop]. *)
Theorem failed_query_changes_only_the_port Axis s :
  let unchanged (r : bool * SkywatcherAPI) :=
    fst r = false -> snd r = set_MyPortFD (MyPortFD (snd r)) s in
  unchanged (GetEncoder Axis s) /\
  unchanged (GetHighSpeedRatio Axis s) /\
  unchanged (GetMicrostepsPerRevolution Axis s) /\
  unchanged (GetMicrostepsPerWormRevolution Axis s) /\
  unchanged (GetMotorBoardVersion Axis s) /\
  unchanged (GetStepperClockFrequency Axis s) /\
  unchanged (GetStatus Axis s) /\
  unchanged (InstantStop Axis s).
Proof.
  cbv zeta.
  repeat match goal with |- _ /\ _ => split end.
  - destruct (GetEncoder Axis s) as [ok s'] eqn:E. cbn [fst snd]. intros ->.
    apply GetEncoder_shape in E. destruct E as (p & v & -> & Hv).
    rewrite (Hv eq_refl), axis_set_get. open_state s. reflexivity.
  - destruct (GetHighSpeedRatio Axis s) as [ok s'] eqn:E. cbn [fst snd]. intros ->.
    apply GetHighSpeedRatio_shape in E.
    destruct E as (p & [[_ ->]|[Hf _]]); [reflexivity | discriminate].
  - destruct (GetMicrostepsPerRevolution Axis s) as [ok s'] eqn:E.
    cbn [fst snd]. intros ->.
    apply GetMicrostepsPerRevolution_shape in E.
    destruct E as (p & [[_ ->]|[Hf _]]); [reflexivity | discriminate].
  - destruct (GetMicrostepsPerWormRevolution Axis s) as [ok s'] eqn:E.
    cbn [fst snd]. intros ->.
    apply GetMicrostepsPerWormRevolution_shape in E.
    destruct E as (p & [[_ ->]|[Hf _]]); [reflexivity | discriminate].
  - destruct (GetMotorBoardVersion Axis s) as [ok s'] eqn:E. cbn [fst snd]. intros ->.
    apply GetMotorBoardVersion_shape in E.
    destruct E as (p & [[_ ->]|[Hf _]]); [reflexivity | discriminate].
  - destruct (GetStepperClockFrequency Axis s) as [ok s'] eqn:E.
    cbn [fst snd]. intros ->.
    apply GetStepperClockFrequency_shape in E.
    destruct E as (p & [[_ ->]|[Hf _]]); [reflexivity | discriminate].
  - destruct (GetStatus Axis s) as [ok s'] eqn:E. cbn [fst snd]. intros ->.
    apply GetStatus_shape in E. destruct E as (p & st & enc & -> & Hv).
    destruct (Hv eq_refl) as [-> ->]. rewrite !axis_set_get.
    open_state s. reflexivity.
  - unfold InstantStop.
    destruct (TalkWithAxis Axis "L" [] [] s) as [[ok r] s1] eqn:E.
    apply TalkWithAxis_shape in E. destruct E as (p & ->).
    destruct ok; cbn [negb fst snd]; [discriminate | reflexivity].
Qed.

(** X8.  A query that returns true has stored a usable value: a clock
    frequency in 1 .. 2^32 - 1, a high-speed ratio other than zero, on the
    legacy command set a worm resolution in 1 .. 2^32 - 1, and, on a mount
    that is neither a 114GT nor in the Merlin range, a resolution other
    than zero. *)
Theorem successful_query_stores_valid_value Axis s s' :
  (GetStepperClockFrequency Axis s = (true, s') ->
     0 < axis_get (StepperClockFrequency s') Axis < 2 ^ 32) /\
  (GetHighSpeedRatio Axis s = (true, s') ->
     axis_get (HighSpeedRatio s') Axis <> 0) /\
  (SupportAdvancedCommandSet s = false ->
   GetMicrostepsPerWormRevolution Axis s = (true, s') ->
     0 < axis_get (MicrostepsPerWormRevolution s') Axis < 2 ^ 32) /\
  (MountCode s <> _114GT -> IsMerlinMount s = false ->
   GetMicrostepsPerRevolution Axis s = (true, s') ->
     axis_get (MicrostepsPerRevolution s') Axis <> 0).
Proof.
  repeat match goal with |- _ /\ _ => split end.
  - intros E. apply GetStepperClockFrequency_shape in E.
    destruct E as (p & [[Hf _]|[_ (v & Hv & ->)]]); [discriminate|].
    destruct Axis; exact Hv.
  - intros E. apply GetHighSpeedRatio_shape in E.
    destruct E as (p & [[Hf _]|[_ (v & Hv & ->)]]); [discriminate|].
    destruct Axis; exact Hv.
  - intros Hadv E. apply GetMicrostepsPerWormRevolution_shape in E.
    destruct E as (p & [[Hf _]|[_ (v & Hr & Hnz & ->)]]); [discriminate|].
    specialize (Hnz Hadv).
    assert (0 < v < 2 ^ 32) by lia. destruct Axis; assumption.
  - intros Hcode Hmerlin E. apply GetMicrostepsPerRevolution_shape in E.
    destruct E as (p & [[Hf _]|[_ (tmp & Hnz & ->)]]); [discriminate|].
    specialize (Hnz Hcode Hmerlin). destruct Axis; exact Hnz.
Qed.

(** X9.  A successful [GetMicrostepsPerRevolution] derives the four
    conversion factors of the axis together from the resolution it stores,
    and leaves the resolution and the factors of the other axis alone. *)
Theorem conversion_factors_follow_resolution Axis s s' :
  GetMicrostepsPerRevolution Axis s = (true, s') ->
  let d := double_of_long (axis_get (MicrostepsPerRevolution s') Axis) in
  (axis_get (MicrostepsPerRadian s') Axis = (d / (2 * M_PI))%float /\
   axis_get (RadiansPerMicrostep s') Axis = (2 * M_PI / d)%float /\
   axis_get (MicrostepsPerDegree s') Axis = (d / 360)%float /\
   axis_get (DegreesPerMicrostep s') Axis = (360 / d)%float) /\
  (forall other, other <> Axis ->
     axis_get (MicrostepsPerRevolution s') other
       = axis_get (MicrostepsPerRevolution s) other /\
     axis_get (MicrostepsPerRadian s') other = axis_get (MicrostepsPerRadian s) other /\
     axis_get (RadiansPerMicrostep s') other = axis_get (RadiansPerMicrostep s) other /\
     axis_get (MicrostepsPerDegree s') other = axis_get (MicrostepsPerDegree s) other /\
     axis_get (DegreesPerMicrostep s') other = axis_get (DegreesPerMicrostep s) other).
Proof.
  intros E. apply GetMicrostepsPerRevolution_shape in E.
  destruct E as (p & [[Hf _]|[_ (tmp & _ & ->)]]); [discriminate|].
  split.
  - destruct Axis; repeat split.
  - intros other Hother.
    destruct Axis, other; try contradiction; repeat split.
Qed.

(** X10.  A status poll of one axis can change that axis's status flags,
    that axis's encoder value and the port, and nothing else: the other
    axis and the calibration are as before.  A poll that returns false
    changes the port only. *)
Theorem GetStatus_touches_one_axis Axis s ok s' :
  GetStatus Axis s = (ok, s') ->
  (exists p st enc,
      s' = set_AxesStatus (axis_set (AxesStatus s) Axis st)
             (set_CurrentEncoders (axis_set (CurrentEncoders s) Axis enc)
                (set_MyPortFD p s))) /\
  (forall other, other <> Axis ->
     axis_get (AxesStatus s') other = axis_get (AxesStatus s) other /\
     axis_get (CurrentEncoders s') other = axis_get (CurrentEncoders s) other) /\
  (ok = false -> AxesStatus s' = AxesStatus s /\ CurrentEncoders s' = CurrentEncoders s).
Proof.
  intros E. apply GetStatus_shape in E. destruct E as (p & st & enc & -> & Hv).
  split; [exists p, st, enc; reflexivity|]. split.
  - intros other Hother. destruct Axis, other; try contradiction; split; reflexivity.
  - intros ->. destruct (Hv eq_refl) as [-> ->].
    rewrite !axis_set_get. split; reflexivity.
Qed.

(** X11.  After a successful status poll [IsInMotion] is the negation of
    the FullStop flag, and after a successful [InstantStop] the axis is
    marked FullStop and [IsInMotion] is false, without waiting for the
    mount to confirm. *)
Theorem IsInMotion_after_poll_and_stop Axis s s' :
  (GetStatus Axis s = (true, s') ->
     IsInMotion Axis s' = negb (FullStop (axis_get (AxesStatus s') Axis))) /\
  (InstantStop Axis s = (true, s') ->
     FullStop (axis_get (AxesStatus s') Axis) = true /\ IsInMotion Axis s' = false).
Proof.
  split.
  - unfold GetStatus, IsInMotion.
    destruct (TalkWithAxis Axis "f" [] [] s) as [[ok Response] s1].
    destruct ok; cbn [negb]; [|discriminate].
    intros H. inversion H; subst s'; clear H.
    repeat match goal with
           | |- context [if ?c then _ else _] => destruct c
           end;
      rewrite !get_update_status; reflexivity.
  - unfold InstantStop, IsInMotion.
    destruct (TalkWithAxis Axis "L" [] [] s) as [[ok r] s1].
    destruct ok; cbn [negb]; [|discriminate].
    intros H. inversion H; subst s'.
    rewrite !get_update_status. split; reflexivity.
Qed.

(** ** Initialisation as a whole *)





(** ** Motion commands *)

Lemma exchange_sends_command Axis Command cmdDataStr responseStr p :
  exists evs,
    trace (snd (exchange Axis Command cmdDataStr responseStr p))
    = trace p ++ EvFlush :: EvWrite (frame_command Axis Command cmdDataStr) :: evs.
Proof.
  unfold exchange.
  set (command := frame_command Axis Command cmdDataStr).
  set (buf := repeat Ascii.zero SKYWATCHER_MAX_CMD).
  destruct (exchange_attempts SKYWATCHER_MAX_RETRTY 0 command buf 0 p)
    as [res p1] eqn:E.
  assert (Ht : exists evs, trace p1 = trace p ++ EvFlush :: EvWrite command :: evs).
  { unfold SKYWATCHER_MAX_RETRTY in E.
    rewrite <- (port_shift_0 p) in E. rewrite exchange_attempts_S in E.
    cbv zeta in E. autorewrite with port in E. cbn [Nat.add app Nat.eqb Nat.sub] in E.
    unfold SKYWATCHER_MAX_RETRTY in E. cbn [Nat.eqb Nat.sub] in E.
    repeat match type of E with
           | (if ?c then _ else _) = _ => destruct c
           end;
      try (apply exchange_attempts_bound in E; destruct E as (evs & Ht & _);
           rewrite Ht; cbn [trace port_shift]; rewrite <- app_assoc;
           cbn [app]; eexists; reflexivity);
      inversion E; subst; cbn [trace port_shift app]; eexists; reflexivity. }
  destruct Ht as (evs & Ht). exists evs.
  destruct res as [[response bytesRead]|]; [destruct (Ascii.eqb _ _)|]; exact Ht.
Qed.

Lemma TalkWithAxis_sends_command Axis Command cmdDataStr responseStr s :
  exists p evs,
    snd (TalkWithAxis Axis Command cmdDataStr responseStr s) = set_MyPortFD p s /\
    trace p = trace (MyPortFD s)
              ++ EvFlush :: EvWrite (frame_command Axis Command cmdDataStr) :: evs.
Proof.
  destruct (exchange_sends_command Axis Command cmdDataStr responseStr (MyPortFD s))
    as (evs & Ht).
  unfold TalkWithAxis.
  destruct (exchange Axis Command cmdDataStr responseStr (MyPortFD s))
    as [[ok r] p1].
  exists p1, evs. split; [reflexivity | exact Ht].
Qed.

Lemma same_calibration_refl s : same_calibration s s.
Proof.
  exists (MyPortFD s), (AxesStatus s), (CurrentEncoders s), (SlewingSpeed s),
    (LastSlewToTarget s).
  open_state s. reflexivity.
Qed.

Lemma same_calibration_trans s1 s2 s3 :
  same_calibration s1 s2 -> same_calibration s2 s3 -> same_calibration s1 s3.
Proof.
  intros (p & st & enc & sp & tg & ->) (p' & st' & enc' & sp' & tg' & ->).
  exists p', st', enc', sp', tg'. reflexivity.
Qed.

Lemma same_calibration_port p s : same_calibration s (set_MyPortFD p s).
Proof.
  exists p, (AxesStatus s), (CurrentEncoders s), (SlewingSpeed s), (LastSlewToTarget s).
  open_state s. reflexivity.
Qed.

Lemma same_calibration_talk Axis Command cmdDataStr responseStr s :
  same_calibration s (snd (TalkWithAxis Axis Command cmdDataStr responseStr s)).
Proof.
  destruct (TalkWithAxis_sends_command Axis Command cmdDataStr responseStr s)
    as (p & evs & -> & _).
  apply same_calibration_port.
Qed.

Lemma same_calibration_status Axis f s : same_calibration s (update_status Axis f s).
Proof.
  exists (MyPortFD s), (axis_set (AxesStatus s) Axis (f (axis_get (AxesStatus s) Axis))),
    (CurrentEncoders s), (SlewingSpeed s), (LastSlewToTarget s).
  open_state s. reflexivity.
Qed.

Lemma same_calibration_GetStatus Axis s : same_calibration s (snd (GetStatus Axis s)).
Proof.
  destruct (GetStatus Axis s) as [ok s'] eqn:E.
  apply GetStatus_shape in E. destruct E as (p & st & enc & -> & _).
  exists p, (axis_set (AxesStatus s) Axis st), (axis_set (CurrentEncoders s) Axis enc),
    (SlewingSpeed s), (LastSlewToTarget s).
  open_state s. reflexivity.
Qed.

Lemma same_calibration_speed Axis v s :
  same_calibration s (set_SlewingSpeed (axis_set (SlewingSpeed s) Axis v) s).
Proof.
  exists (MyPortFD s), (AxesStatus s), (CurrentEncoders s),
    (axis_set (SlewingSpeed s) Axis v), (LastSlewToTarget s).
  open_state s. reflexivity.
Qed.

Lemma same_calibration_Slew_advanced Axis Speed s :
  same_calibration s (Slew_advanced Axis Speed s).
Proof.
  unfold Slew_advanced. cbv zeta.
  match goal with
  | |- context [TalkWithAxis ?a ?c ?d ?r s] =>
      pose proof (same_calibration_talk a c d r s) as Ht;
      destruct (TalkWithAxis a c d r s) as [[ok resp] s1]
  end.
  cbn [snd] in Ht. eapply same_calibration_trans; [exact Ht|].
  unfold Slew_record. cbv zeta.
  eapply same_calibration_trans; [apply same_calibration_status|].
  apply same_calibration_speed.
Qed.

Lemma same_calibration_SlowStop Axis s : same_calibration s (snd (SlowStop Axis s)).
Proof.
  unfold SlowStop. destruct (SupportAdvancedCommandSet s).
  - apply same_calibration_Slew_advanced.
  - pose proof (same_calibration_talk Axis "K" [] [] s) as Ht.
    destruct (TalkWithAxis Axis "K" [] [] s) as [[ok r] s1]. exact Ht.
Qed.

Lemma wait_for_full_stop_spec fuel :
  forall Axis s s',
    wait_for_full_stop fuel Axis s = Some s' ->
    FullStop (axis_get (AxesStatus s') Axis) = true /\
    same_calibration s s' /\
    forall more, wait_for_full_stop (fuel + more) Axis s = Some s'.
Proof.
  induction fuel as [|fuel IH]; intros Axis s s' H; [discriminate|].
  cbn [wait_for_full_stop Nat.add] in *.
  pose proof (same_calibration_GetStatus Axis s) as Hc.
  destruct (FullStop (axis_get (AxesStatus (snd (GetStatus Axis s))) Axis)) eqn:Hstop.
  - inversion H; subst. split; [exact Hstop|]. split; [exact Hc|]. reflexivity.
  - apply IH in H. destruct H as (Hfs & Hc2 & Hmore).
    split; [exact Hfs|]. split; [|exact Hmore].
    eapply same_calibration_trans; [exact Hc|].
    eapply same_calibration_trans; [apply same_calibration_port | exact Hc2].
Qed.

Lemma same_calibration_fields s s' :
  same_calibration s s' -> calibration_of s' = calibration_of s.
Proof. intros (p & st & enc & sp & tg & ->). reflexivity. Qed.

Lemma same_calibration_target tg s :
  same_calibration s (set_LastSlewToTarget tg s).
Proof.
  exists (MyPortFD s), (AxesStatus s), (CurrentEncoders s), (SlewingSpeed s), tg.
  open_state s. reflexivity.
Qed.

(** The command wrappers are one exchange each. *)
Lemma command_wrappers Axis s :
  (forall Func Direction,
      snd (SetMotionMode Axis Func Direction s)
      = snd (TalkWithAxis Axis "G" [Func; Direction] [] s)) /\
  (forall n, snd (SetGotoTargetOffset Axis n s)
             = snd (TalkWithAxis Axis "H" (Long2BCDstr n) [] s)) /\
  (forall n, snd (SetClockTicksPerMicrostep Axis n s)
             = snd (TalkWithAxis Axis "I" (Long2BCDstr n) [] s)) /\
  (forall n, snd (SetSlewToModeDeccelerationRampLength Axis n s)
             = snd (TalkWithAxis Axis "M" (Long2BCDstr n) [] s)) /\
  snd (StartMotion Axis s) = snd (TalkWithAxis Axis "J" [] [] s).
Proof.
  unfold SetMotionMode, SetGotoTargetOffset, SetClockTicksPerMicrostep,
    SetSlewToModeDeccelerationRampLength, StartMotion.
  repeat split; intros;
    match goal with
    | |- context [TalkWithAxis ?a ?c ?d ?r s] =>
        destruct (TalkWithAxis a c d r s) as [[? ?] ?]; reflexivity
    end.
Qed.

Lemma same_calibration_SetMotionMode Axis Func Direction s :
  same_calibration s (snd (SetMotionMode Axis Func Direction s)).
Proof.
  rewrite (proj1 (command_wrappers Axis s)). apply same_calibration_talk.
Qed.

Lemma same_calibration_SetGotoTargetOffset Axis n s :
  same_calibration s (snd (SetGotoTargetOffset Axis n s)).
Proof.
  rewrite (proj1 (proj2 (command_wrappers Axis s))). apply same_calibration_talk.
Qed.

Lemma same_calibration_SetClockTicksPerMicrostep Axis n s :
  same_calibration s (snd (SetClockTicksPerMicrostep Axis n s)).
Proof.
  rewrite (proj1 (proj2 (proj2 (command_wrappers Axis s)))).
  apply same_calibration_talk.
Qed.

Lemma same_calibration_SetRampLength Axis n s :
  same_calibration s (snd (SetSlewToModeDeccelerationRampLength Axis n s)).
Proof.
  rewrite (proj1 (proj2 (proj2 (proj2 (command_wrappers Axis s))))).
  apply same_calibration_talk.
Qed.

Lemma same_calibration_StartMotion Axis s :
  same_calibration s (snd (StartMotion Axis s)).
Proof.
  rewrite (proj2 (proj2 (proj2 (proj2 (command_wrappers Axis s))))).
  apply same_calibration_talk.
Qed.

Lemma same_calibration_PrepareForSlewing fuel Axis Speed s s' :
  PrepareForSlewing fuel Axis Speed s = Some s' -> same_calibration s s'.
Proof.
  unfold PrepareForSlewing.
  pose proof (same_calibration_GetStatus Axis s) as Hpoll.
  destruct (GetStatus Axis s) as [ok s1]. cbn [snd] in Hpoll.
  destruct ok; cbn [negb]; [|intros H; inversion H; subst; exact Hpoll].
  cbv zeta. destruct (slew_motion_mode Speed) as [Func Direction].
  destruct (negb (FullStop (axis_get (AxesStatus s1) Axis))).
  - destruct (_ || _).
    + pose proof (same_calibration_SlowStop Axis s1) as Hstop.
      destruct (wait_for_full_stop fuel Axis (snd (SlowStop Axis s1))) as [s2|] eqn:Hw;
        [|discriminate].
      apply wait_for_full_stop_spec in Hw. destruct Hw as (_ & Hw & _).
      intros H; inversion H; subst.
      eapply same_calibration_trans; [exact Hpoll|].
      eapply same_calibration_trans; [exact Hstop|].
      eapply same_calibration_trans; [exact Hw|].
      apply same_calibration_SetMotionMode.
    + intros H; inversion H; subst. exact Hpoll.
  - intros H; inversion H; subst.
    eapply same_calibration_trans; [exact Hpoll|]. apply same_calibration_SetMotionMode.
Qed.

Lemma same_calibration_Slew_record Axis Forward HighSpeed0 Speed s :
  same_calibration s (Slew_record Axis Forward HighSpeed0 Speed s).
Proof.
  unfold Slew_record. cbv zeta.
  eapply same_calibration_trans;
    [apply (same_calibration_status Axis (SetSlewing Forward HighSpeed0) s)|].
  apply same_calibration_speed.
Qed.

Lemma same_calibration_slew_commands Axis n Forward HighSpeed0 Speed s :
  same_calibration s
    (Slew_record Axis Forward HighSpeed0 Speed
       (snd (StartMotion Axis (snd (SetClockTicksPerMicrostep Axis n s))))).
Proof.
  eapply same_calibration_trans;
    [apply (same_calibration_SetClockTicksPerMicrostep Axis n s)|].
  eapply same_calibration_trans;
    [apply (same_calibration_StartMotion Axis
              (snd (SetClockTicksPerMicrostep Axis n s)))|].
  apply same_calibration_Slew_record.
Qed.

Lemma same_calibration_goto_commands Axis Func Direction n m Forward HighSpeed0 s :
  same_calibration s
    (update_status Axis (SetSlewingTo Forward HighSpeed0)
       (snd (StartMotion Axis
          (snd (SetSlewToModeDeccelerationRampLength Axis m
             (snd (SetGotoTargetOffset Axis n
                (snd (SetMotionMode Axis Func Direction s))))))))).
Proof.
  set (s1 := snd (SetMotionMode Axis Func Direction s)).
  set (s2 := snd (SetGotoTargetOffset Axis n s1)).
  set (s3 := snd (SetSlewToModeDeccelerationRampLength Axis m s2)).
  set (s4 := snd (StartMotion Axis s3)).
  apply (same_calibration_trans s s1);
    [apply same_calibration_SetMotionMode|].
  apply (same_calibration_trans s1 s2);
    [apply same_calibration_SetGotoTargetOffset|].
  apply (same_calibration_trans s2 s3);
    [apply same_calibration_SetRampLength|].
  apply (same_calibration_trans s3 s4);
    [apply same_calibration_StartMotion|].
  apply same_calibration_status.
Qed.

Lemma same_calibration_Slew fuel Axis Speed IgnoreSilentMode s s' :
  Slew fuel Axis Speed IgnoreSilentMode s = Some s' -> same_calibration s s'.
Proof.
  unfold Slew. destruct (SupportAdvancedCommandSet s) eqn:Hadv.
  - intros H; inversion H; subst. apply same_calibration_Slew_advanced.
  - cbv zeta. destruct (dle _ _).
    + intros H; inversion H; subst. apply same_calibration_SlowStop.
    + destruct (PrepareForSlewing fuel Axis (clamp_speed Speed) s) as [s1|] eqn:Hp;
        [|discriminate].
      apply same_calibration_PrepareForSlewing in Hp.
      destruct (dgt (clamp_speed Speed) 0);
        match goal with
        | |- context [if ?c then (_, true) else _] => destruct c
        end;
        intros H; injection H as <-;
        (apply (same_calibration_trans s s1); [exact Hp|]);
        apply same_calibration_slew_commands.
Qed.

Lemma same_calibration_SlewTo fuel Axis OffsetInMicrosteps verbose s s' :
  SlewTo fuel Axis OffsetInMicrosteps verbose s = Some s' -> same_calibration s s'.
Proof.
  unfold SlewTo. destruct (OffsetInMicrosteps =? 0).
  - intros H; inversion H; subst. apply same_calibration_refl.
  - cbv zeta.
    set (s0 := set_LastSlewToTarget _ s).
    assert (Hs0 : same_calibration s s0) by apply same_calibration_target.
    clearbody s0.
    pose proof (same_calibration_GetStatus Axis s0) as Hpoll.
    destruct (GetStatus Axis s0) as [ok s1]. cbn [snd] in Hpoll.
    assert (Hs1 : same_calibration s s1)
      by (apply (same_calibration_trans s s0); assumption).
    clear Hs0 Hpoll.
    destruct (OffsetInMicrosteps <? 0); cbv beta iota zeta;
      (destruct ok; cbn [negb]; [|intros H; injection H as <-; exact Hs1]);
      match goal with
      | |- (if ?c then _ else _) = _ -> _ => destruct c
      end;
      try (pose proof (same_calibration_SlowStop Axis s1) as Hstop;
           destruct (wait_for_full_stop fuel Axis (snd (SlowStop Axis s1)))
             as [s2|] eqn:Hw; [|discriminate];
           apply wait_for_full_stop_spec in Hw; destruct Hw as (_ & Hw & _);
           assert (Hs2 : same_calibration s s2)
             by (apply (same_calibration_trans s s1); [exact Hs1|];
                 apply (same_calibration_trans s1 (snd (SlowStop Axis s1)));
                 assumption);
           clear Hs1 Hw Hstop; revert Hs2; generalize s2; clear s1 s2;
           intros s1 Hs1);
      intros H; injection H as <-;
      (apply (same_calibration_trans s s1); [exact Hs1|]);
      match goal with
      | |- context [if ?c then snd _ else snd _] => destruct c
      end;
      apply same_calibration_goto_commands.
Qed.

(** ** What polling, stopping and the command wrappers leave alone *)

Lemma motion_frame_refl s : motion_frame s s.
Proof.
  exists (MyPortFD s), (AxesStatus s), (CurrentEncoders s), (SlewingSpeed s).
  split; [open_state s; reflexivity | reflexivity].
Qed.

Lemma motion_frame_trans s1 s2 s3 :
  motion_frame s1 s2 -> motion_frame s2 s3 -> motion_frame s1 s3.
Proof.
  intros (p & st & enc & sp & -> & Hsp) (p' & st' & enc' & sp' & -> & Hsp').
  exists p', st', enc', sp'. split; [reflexivity|].
  intros Hadv. rewrite (Hsp' Hadv). exact (Hsp Hadv).
Qed.

Lemma motion_frame_port p s : motion_frame s (set_MyPortFD p s).
Proof.
  exists p, (AxesStatus s), (CurrentEncoders s), (SlewingSpeed s).
  split; [open_state s; reflexivity | reflexivity].
Qed.

Lemma motion_frame_talk Axis Command cmdDataStr responseStr s :
  motion_frame s (snd (TalkWithAxis Axis Command cmdDataStr responseStr s)).
Proof.
  destruct (TalkWithAxis_sends_command Axis Command cmdDataStr responseStr s)
    as (p & evs & -> & _).
  apply motion_frame_port.
Qed.

Lemma motion_frame_status Axis f s : motion_frame s (update_status Axis f s).
Proof.
  exists (MyPortFD s), (axis_set (AxesStatus s) Axis (f (axis_get (AxesStatus s) Axis))),
    (CurrentEncoders s), (SlewingSpeed s).
  split; [open_state s; reflexivity | reflexivity].
Qed.

Lemma motion_frame_GetStatus Axis s : motion_frame s (snd (GetStatus Axis s)).
Proof.
  destruct (GetStatus Axis s) as [ok s'] eqn:E.
  apply GetStatus_shape in E. destruct E as (p & st & enc & -> & _).
  exists p, (axis_set (AxesStatus s) Axis st), (axis_set (CurrentEncoders s) Axis enc),
    (SlewingSpeed s).
  split; [open_state s; reflexivity | reflexivity].
Qed.

Lemma motion_frame_SlowStop Axis s : motion_frame s (snd (SlowStop Axis s)).
Proof.
  unfold SlowStop. destruct (SupportAdvancedCommandSet s) eqn:Hadv.
  - cbn [snd]. destruct (same_calibration_Slew_advanced Axis 0%float s)
      as (p & st & enc & sp & tg & E).
    assert (Htg : tg = LastSlewToTarget s).
    { apply (f_equal LastSlewToTarget) in E.
      unfold Slew_advanced in E. cbv zeta in E.
      match type of E with
      | context [TalkWithAxis ?a ?c ?d ?r s] =>
          destruct (TalkWithAxis a c d r s) as [[ok resp] s1] eqn:Et
      end.
      apply TalkWithAxis_shape in Et. destruct Et as (p1 & ->).
      symmetry. exact E. }
    exists p, st, enc, sp. split; [rewrite <- Htg; exact E | intros Hleg; congruence].
  - pose proof (motion_frame_talk Axis "K" [] [] s) as Ht.
    destruct (TalkWithAxis Axis "K" [] [] s) as [[ok r] s1]. exact Ht.
Qed.

Lemma motion_frame_wait fuel :
  forall Axis s s', wait_for_full_stop fuel Axis s = Some s' -> motion_frame s s'.
Proof.
  induction fuel as [|fuel IH]; intros Axis s s' H; [discriminate|].
  cbn [wait_for_full_stop] in H.
  pose proof (motion_frame_GetStatus Axis s) as Hc.
  destruct (FullStop (axis_get (AxesStatus (snd (GetStatus Axis s))) Axis)).
  - inversion H; subst. exact Hc.
  - apply IH in H.
    apply (motion_frame_trans s (snd (GetStatus Axis s))); [exact Hc|].
    eapply motion_frame_trans; [apply motion_frame_port | exact H].
Qed.

Lemma motion_frame_SetMotionMode Axis Func Direction s :
  motion_frame s (snd (SetMotionMode Axis Func Direction s)).
Proof.
  rewrite (proj1 (command_wrappers Axis s)). apply motion_frame_talk.
Qed.

Lemma motion_frame_SetGotoTargetOffset Axis n s :
  motion_frame s (snd (SetGotoTargetOffset Axis n s)).
Proof.
  rewrite (proj1 (proj2 (command_wrappers Axis s))). apply motion_frame_talk.
Qed.

Lemma motion_frame_SetClockTicksPerMicrostep Axis n s :
  motion_frame s (snd (SetClockTicksPerMicrostep Axis n s)).
Proof.
  rewrite (proj1 (proj2 (proj2 (command_wrappers Axis s)))).
  apply motion_frame_talk.
Qed.

Lemma motion_frame_SetRampLength Axis n s :
  motion_frame s (snd (SetSlewToModeDeccelerationRampLength Axis n s)).
Proof.
  rewrite (proj1 (proj2 (proj2 (proj2 (command_wrappers Axis s))))).
  apply motion_frame_talk.
Qed.

Lemma motion_frame_StartMotion Axis s :
  motion_frame s (snd (StartMotion Axis s)).
Proof.
  rewrite (proj2 (proj2 (proj2 (proj2 (command_wrappers Axis s))))).
  apply motion_frame_talk.
Qed.

Lemma motion_frame_PrepareForSlewing fuel Axis Speed s s' :
  PrepareForSlewing fuel Axis Speed s = Some s' -> motion_frame s s'.
Proof.
  unfold PrepareForSlewing.
  pose proof (motion_frame_GetStatus Axis s) as Hpoll.
  destruct (GetStatus Axis s) as [ok s1]. cbn [snd] in Hpoll.
  destruct ok; cbn [negb]; [|intros H; inversion H; subst; exact Hpoll].
  cbv zeta. destruct (slew_motion_mode Speed) as [Func Direction].
  destruct (negb (FullStop (axis_get (AxesStatus s1) Axis))).
  - destruct (_ || _).
    + pose proof (motion_frame_SlowStop Axis s1) as Hstop.
      destruct (wait_for_full_stop fuel Axis (snd (SlowStop Axis s1))) as [s2|] eqn:Hw;
        [|discriminate].
      apply motion_frame_wait in Hw.
      intros H; injection H as <-.
      apply (motion_frame_trans s s1); [exact Hpoll|].
      apply (motion_frame_trans s1 (snd (SlowStop Axis s1))); [exact Hstop|].
      apply (motion_frame_trans _ s2); [exact Hw|].
      apply motion_frame_SetMotionMode.
    + intros H; injection H as <-. exact Hpoll.
  - intros H; injection H as <-.
    apply (motion_frame_trans s s1); [exact Hpoll|]. apply motion_frame_SetMotionMode.
Qed.

Lemma motion_frame_target s s' :
  motion_frame s s' -> LastSlewToTarget s' = LastSlewToTarget s.
Proof. intros (p & st & enc & sp & -> & _). reflexivity. Qed.

Lemma motion_frame_speed s s' :
  motion_frame s s' -> SupportAdvancedCommandSet s = false ->
  SlewingSpeed s' = SlewingSpeed s.
Proof. intros (p & st & enc & sp & -> & Hsp) Hadv. exact (Hsp Hadv). Qed.

Lemma motion_frame_calibration s s' : motion_frame s s' -> same_calibration s s'.
Proof.
  intros (p & st & enc & sp & -> & _).
  exists p, st, enc, sp, (LastSlewToTarget s). reflexivity.
Qed.

Lemma same_calibration_InstantStop Axis s :
  same_calibration s (snd (InstantStop Axis s)).
Proof.
  unfold InstantStop.
  pose proof (same_calibration_talk Axis "L" [] [] s) as Ht.
  destruct (TalkWithAxis Axis "L" [] [] s) as [[ok r] s1]. cbn [snd] in Ht.
  destruct ok; cbn [negb snd]; [|exact Ht].
  apply (same_calibration_trans s s1); [exact Ht | apply same_calibration_status].
Qed.

(** X13.  No motion command touches what [InitMount] learned about the
    mount: after [Slew], [SlewTo], [PrepareForSlewing], [SlowStop],
    [InstantStop] and a status poll the firmware version, the mount type,
    the motor type, the command-set and silent-mode switches, the
    resolutions, clock frequencies, speed ratios, conversion factors, goto
    margins and reference positions are those of before the call. *)
Theorem motion_commands_keep_calibration fuel Axis s :
  (forall Speed IgnoreSilentMode s',
      Slew fuel Axis Speed IgnoreSilentMode s = Some s' ->
      calibration_of s' = calibration_of s) /\
  (forall OffsetInMicrosteps verbose s',
      SlewTo fuel Axis OffsetInMicrosteps verbose s = Some s' ->
      calibration_of s' = calibration_of s) /\
  (forall Speed s',
      PrepareForSlewing fuel Axis Speed s = Some s' ->
      calibration_of s' = calibration_of s) /\
  calibration_of (snd (SlowStop Axis s)) = calibration_of s /\
  calibration_of (snd (InstantStop Axis s)) = calibration_of s /\
  calibration_of (snd (GetStatus Axis s)) = calibration_of s.
Proof.
  split; [|split; [|split; [|split; [|split]]]].
  - intros Speed IgnoreSilentMode s' H.
    apply same_calibration_fields. eapply same_calibration_Slew. exact H.
  - intros OffsetInMicrosteps verbose s' H.
    apply same_calibration_fields. eapply same_calibration_SlewTo. exact H.
  - intros Speed s' H.
    apply same_calibration_fields. eapply same_calibration_PrepareForSlewing. exact H.
  - apply same_calibration_fields, same_calibration_SlowStop.
  - apply same_calibration_fields, same_calibration_InstantStop.
  - apply same_calibration_fields, same_calibration_GetStatus.
Qed.

(** ** Slewing at a rate *)

Lemma clamp_speed_within (v : float) :
  dgt (clamp_speed v) MAX_SPEED = false /\
  dlt (clamp_speed v) (- MAX_SPEED)%float = false.
Proof.
  unfold clamp_speed.
  destruct (dgt v MAX_SPEED) eqn:Hhi; [split; vm_compute; reflexivity|].
  destruct (dlt v (- MAX_SPEED)%float) eqn:Hlo; [split; vm_compute; reflexivity|].
  split; assumption.
Qed.

Lemma axis_get_set {A} (a : per_axis A) (x : AXISID) (v : A) :
  axis_get (axis_set a x v) x = v.
Proof. destruct x; reflexivity. Qed.

Lemma SlewingSpeed_Slew_record Axis Forward HighSpeed0 v s :
  SlewingSpeed (Slew_record Axis Forward HighSpeed0 v s)
  = axis_set (SlewingSpeed s) Axis v.
Proof. reflexivity. Qed.

(** X14.  Unless it turns into a slow stop, [Slew] records for the axis the
    requested rate clamped to the range -MAX_SPEED .. MAX_SPEED, and leaves
    the recorded rate of the other axis alone; the recorded rate is never
    above MAX_SPEED nor below -MAX_SPEED. *)
Theorem Slew_records_clamped_speed fuel Axis Speed IgnoreSilentMode s s' :
  Slew fuel Axis Speed IgnoreSilentMode s = Some s' ->
  SupportAdvancedCommandSet s = true \/
  dle (PrimFloat.abs (clamp_speed Speed)) (SIDEREALRATE / 1000)%float = false ->
  SlewingSpeed s' = axis_set (SlewingSpeed s) Axis (clamp_speed Speed) /\
  dgt (axis_get (SlewingSpeed s') Axis) MAX_SPEED = false /\
  dlt (axis_get (SlewingSpeed s') Axis) (- MAX_SPEED)%float = false.
Proof.
  intros H Hmode.
  assert (Hs : SlewingSpeed s' = axis_set (SlewingSpeed s) Axis (clamp_speed Speed)).
  { revert H. unfold Slew. destruct (SupportAdvancedCommandSet s) eqn:Hadv.
    - intros H; injection H as <-. unfold Slew_advanced. cbv zeta.
      match goal with
      | |- context [TalkWithAxis ?a ?c ?d ?r s] =>
          destruct (TalkWithAxis a c d r s) as [[ok resp] s1] eqn:Et
      end.
      apply TalkWithAxis_shape in Et. destruct Et as (p1 & ->).
      rewrite SlewingSpeed_Slew_record. reflexivity.
    - cbv zeta. destruct Hmode as [Hmode|Hmode]; [discriminate|]. rewrite Hmode.
      destruct (PrepareForSlewing fuel Axis (clamp_speed Speed) s) as [s1|] eqn:Hp;
        [|discriminate].
      apply motion_frame_PrepareForSlewing in Hp.
      destruct (dgt (clamp_speed Speed) 0);
        match goal with
        | |- context [if ?c then (_, true) else _] => destruct c
        end;
        intros H; injection H as <-;
        rewrite SlewingSpeed_Slew_record;
        match goal with
        | |- axis_set (SlewingSpeed (snd (StartMotion _ (snd (SetClockTicksPerMicrostep _ ?n _))))) _ _ = _ =>
            pose proof (motion_frame_SetClockTicksPerMicrostep Axis n s1) as Hi;
            pose proof (motion_frame_StartMotion Axis
                          (snd (SetClockTicksPerMicrostep Axis n s1))) as Hj
        end;
        rewrite (motion_frame_speed _ _
                   (motion_frame_trans _ _ _ Hp (motion_frame_trans _ _ _ Hi Hj)) Hadv);
        reflexivity. }
  split; [exact Hs|]. rewrite Hs, axis_get_set. apply clamp_speed_within.
Qed.

(** X15.  On the legacy command set a request for a rate of at most a
    thousandth of the sidereal rate is a slow stop and nothing else: [Slew]
    is the one exchange of the command K with the axis, the recorded status
    flags and slewing speed stay what they were (the port is all that
    changes), and K, once per attempt, is all that is written. *)
Theorem Slew_near_zero_is_slow_stop fuel Axis Speed IgnoreSilentMode s :
  SupportAdvancedCommandSet s = false ->
  dle (PrimFloat.abs (clamp_speed Speed)) (SIDEREALRATE / 1000)%float = true ->
  Slew fuel Axis Speed IgnoreSilentMode s
  = Some (snd (TalkWithAxis Axis "K" [] [] s)) /\
  exists p n,
    Slew fuel Axis Speed IgnoreSilentMode s = Some (set_MyPortFD p s) /\
    (1 <= n <= 3)%nat /\
    writes_of (trace p)
    = writes_of (trace (MyPortFD s)) ++ repeat [":"; "K"; axis_char Axis; CR]%char n.
Proof.
  intros Hadv Hslow.
  assert (E : Slew fuel Axis Speed IgnoreSilentMode s
              = Some (snd (TalkWithAxis Axis "K" [] [] s))).
  { unfold Slew. rewrite Hadv. cbv zeta. rewrite Hslow.
    unfold SlowStop. rewrite Hadv.
    destruct (TalkWithAxis Axis "K" [] [] s) as [[ok r] s1]. reflexivity. }
  split; [exact E|].
  destruct (writes_talk Axis "K" [] [] s) as (n & Hn & Hw).
  destruct (TalkWithAxis Axis "K" [] [] s) as [[ok r] s1] eqn:Et.
  apply TalkWithAxis_shape in Et. destruct Et as (p & ->).
  cbn [snd] in *. exists p, n.
  split; [exact E|]. split; [exact Hn|].
  replace [":"; "K"; axis_char Axis; CR]%char with (frame_command Axis "K" [])
    by (destruct Axis; reflexivity).
  exact Hw.
Qed.



(** X17.  The polling loop returns at the first poll that shows FullStop:
    whenever it returns, it does so after some [k] polls that did not show
    FullStop and one that did; and if the [k]-th poll is the first to show
    FullStop, any bound above [k] makes it return there. *)
Theorem wait_for_full_stop_returns_at_first_stop Axis :
  let stopped k s := FullStop (axis_get (AxesStatus (nth_poll k Axis s)) Axis) in
  (forall fuel s s',
      wait_for_full_stop fuel Axis s = Some s' ->
      exists k, (k < fuel)%nat /\ s' = nth_poll k Axis s /\ stopped k s = true /\
                forall j, (j < k)%nat -> stopped j s = false) /\
  (forall k fuel s,
      (k < fuel)%nat -> stopped k s = true ->
      (forall j, (j < k)%nat -> stopped j s = false) ->
      wait_for_full_stop fuel Axis s = Some (nth_poll k Axis s)).
Proof.
  cbv zeta. split.
  - induction fuel as [|fuel IH]; intros s s' H; [discriminate|].
    cbn [wait_for_full_stop] in H.
    destruct (FullStop (axis_get (AxesStatus (snd (GetStatus Axis s))) Axis)) eqn:Hfs.
    + injection H as <-. exists 0%nat.
      split; [lia|]. split; [reflexivity|]. split; [exact Hfs|]. intros j Hj; lia.
    + apply IH in H. destruct H as (k & Hk & -> & Hstop & Hbefore).
      exists (S k). split; [lia|]. split; [reflexivity|]. split; [exact Hstop|].
      intros [|j] Hj; [exact Hfs | apply Hbefore; lia].
  - induction k as [|k IH]; intros fuel s Hk Hstop Hbefore;
      (destruct fuel as [|fuel]; [lia|]); cbn [wait_for_full_stop nth_poll] in *.
    + rewrite Hstop. reflexivity.
    + pose proof (Hbefore 0%nat ltac:(lia)) as H0. cbn [nth_poll] in H0.
      rewrite H0. apply IH; [lia | exact Hstop |].
      intros j Hj. apply (Hbefore (S j)). lia.
Qed.

(** ** Going to a target *)

Lemma motion_frame_goto_commands Axis Func Direction n m s :
  motion_frame s
    (snd (StartMotion Axis
       (snd (SetSlewToModeDeccelerationRampLength Axis m
          (snd (SetGotoTargetOffset Axis n
             (snd (SetMotionMode Axis Func Direction s)))))))).
Proof.
  set (s1 := snd (SetMotionMode Axis Func Direction s)).
  set (s2 := snd (SetGotoTargetOffset Axis n s1)).
  set (s3 := snd (SetSlewToModeDeccelerationRampLength Axis m s2)).
  apply (motion_frame_trans s s1); [apply motion_frame_SetMotionMode|].
  apply (motion_frame_trans s1 s2); [apply motion_frame_SetGotoTargetOffset|].
  apply (motion_frame_trans s2 s3); [apply motion_frame_SetRampLength|].
  apply motion_frame_StartMotion.
Qed.

Lemma SetSlewingTo_flags forward highspeed a :
  SlewingTo (SetSlewingTo forward highspeed a) = true /\
  Slewing (SetSlewingTo forward highspeed a) = false /\
  FullStop (SetSlewingTo forward highspeed a) = false /\
  SlewingForward (SetSlewingTo forward highspeed a) = forward /\
  HighSpeed (SetSlewingTo forward highspeed a) = highspeed.
Proof. repeat split. Qed.

Lemma distance_abs (x : Z) :
  - 2 ^ 63 < x < 2 ^ 63 -> (if x <? 0 then to_long (- x) else x) = Z.abs x.
Proof.
  intros Hx. destruct (Z.ltb_spec x 0); [|lia].
  unfold to_long, to_ulong. rewrite Z.mod_small by lia.
  destruct (Z.ltb_spec (- x) (2 ^ 63)); lia.
Qed.

Lemma SlewTo_records_goto_wrapped fuel Axis OffsetInMicrosteps verbose s s' :
  OffsetInMicrosteps <> 0 ->
  SlewTo fuel Axis OffsetInMicrosteps verbose s = Some s' ->
  let target :=
    axis_set (LastSlewToTarget s) Axis
      (to_long (axis_get (CurrentEncoders s) Axis + OffsetInMicrosteps)) in
  let distance :=
    if OffsetInMicrosteps <? 0 then to_long (- OffsetInMicrosteps)
    else OffsetInMicrosteps in
  let st := axis_get (AxesStatus s') Axis in
  LastSlewToTarget s' = target /\
  (fst (GetStatus Axis (set_LastSlewToTarget target s)) = true ->
   SlewingTo st = true /\ Slewing st = false /\ FullStop st = false /\
   SlewingForward st = negb (OffsetInMicrosteps <? 0) /\
   HighSpeed st = (axis_get (LowSpeedGotoMargin s) Axis <? distance)
                  && negb (SilentSlewMode s)).
Proof.
  intros Hnz H. cbv zeta. revert H. unfold SlewTo.
  apply Z.eqb_neq in Hnz. rewrite Hnz. cbv zeta.
  set (s0 := set_LastSlewToTarget _ s).
  assert (Ht0 : LastSlewToTarget s0 =
                axis_set (LastSlewToTarget s) Axis
                  (to_long (axis_get (CurrentEncoders s) Axis + OffsetInMicrosteps)))
    by reflexivity.
  assert (Hm0 : LowSpeedGotoMargin s0 = LowSpeedGotoMargin s) by reflexivity.
  assert (Hq0 : SilentSlewMode s0 = SilentSlewMode s) by reflexivity.
  rewrite <- Ht0, <- Hm0, <- Hq0. clear Ht0 Hm0 Hq0. clearbody s0.
  pose proof (motion_frame_GetStatus Axis s0) as Hpoll.
  destruct (GetStatus Axis s0) as [ok s1]. cbn [fst snd] in *.
  destruct (OffsetInMicrosteps <? 0); cbv beta iota zeta; cbn [negb];
    (destruct ok; cbn [negb];
     [|intros H; injection H as <-;
       split; [apply motion_frame_target; exact Hpoll | discriminate]]);
    match goal with
    | |- (if ?c then _ else _) = _ -> _ => destruct c
    end;
    try (pose proof (motion_frame_SlowStop Axis s1) as Hstop;
         destruct (wait_for_full_stop fuel Axis (snd (SlowStop Axis s1)))
           as [s2|] eqn:Hw; [|discriminate];
         apply motion_frame_wait in Hw;
         assert (Hs2 : motion_frame s0 s2)
           by (apply (motion_frame_trans s0 s1); [exact Hpoll|];
               apply (motion_frame_trans s1 (snd (SlowStop Axis s1)));
               assumption);
         clear Hpoll Hw Hstop; revert Hs2; generalize s2; clear s1 s2;
         intros s1 Hpoll);
    intros H; injection H as <-;
    (split;
     [ match goal with
       | |- LastSlewToTarget (update_status _ _ ?x) = _ =>
           change (LastSlewToTarget x = LastSlewToTarget s0)
       end;
       match goal with
       | |- context [if ?c then snd _ else snd _] => destruct c
       end;
       (rewrite (motion_frame_target _ _ (motion_frame_goto_commands _ _ _ _ _ _));
        apply motion_frame_target; exact Hpoll)
     | intros _; rewrite get_update_status; apply SetSlewingTo_flags ]).
Qed.

(** X18.  A goto by a nonzero offset records as target the encoder value
    known before the call plus the offset (wrapped to a long), and keeps
    that target through the poll, the stop and the commands that follow.
    If the status poll succeeds, the axis is then marked SlewingTo, forward
    exactly for a positive offset, and high-speed exactly when the distance
    (the absolute value of the offset) exceeds the low-speed goto margin
    and the silent mode is off. *)
Theorem SlewTo_records_goto fuel Axis OffsetInMicrosteps verbose s s' :
  - 2 ^ 63 < OffsetInMicrosteps < 2 ^ 63 ->
  OffsetInMicrosteps <> 0 ->
  SlewTo fuel Axis OffsetInMicrosteps verbose s = Some s' ->
  let target :=
    axis_set (LastSlewToTarget s) Axis
      (to_long (axis_get (CurrentEncoders s) Axis + OffsetInMicrosteps)) in
  let st := axis_get (AxesStatus s') Axis in
  LastSlewToTarget s' = target /\
  (fst (GetStatus Axis (set_LastSlewToTarget target s)) = true ->
   SlewingTo st = true /\ Slewing st = false /\ FullStop st = false /\
   SlewingForward st = (0 <? OffsetInMicrosteps) /\
   HighSpeed st = (axis_get (LowSpeedGotoMargin s) Axis <? Z.abs OffsetInMicrosteps)
                  && negb (SilentSlewMode s)).
Proof.
  intros Hrange Hnz H. cbv zeta.
  pose proof (SlewTo_records_goto_wrapped fuel Axis OffsetInMicrosteps verbose s s'
                Hnz H) as Hw.
  cbv zeta in Hw. rewrite (distance_abs _ Hrange) in Hw.
  replace (0 <? OffsetInMicrosteps) with (negb (OffsetInMicrosteps <? 0));
    [exact Hw|].
  destruct (Z.ltb_spec OffsetInMicrosteps 0), (Z.ltb_spec 0 OffsetInMicrosteps);
    cbn [negb]; try reflexivity; lia.
Qed.

(** ** What goes out on the wire *)

(** X19.  An exchange (with a payload that leaves room for the terminator
    in the command buffer) writes nothing to the port but its own framed
    command, once for each of its one to three attempts; so does each
    command wrapper, with its command letter and payload: G with the two
    mode characters, H, I, M and U with the six digits of [Long2BCDstr], O
    (always to axis 1) with "1" or "0", J and L with no payload. *)
Theorem exchange_writes_only_its_command Axis s :
  let sends (command : cstring) (s' : SkywatcherAPI) :=
    exists n, (1 <= n <= 3)%nat /\
      writes_of (trace (MyPortFD s'))
      = writes_of (trace (MyPortFD s)) ++ repeat command n in
  (forall Command cmdDataStr responseStr,
      (length cmdDataStr <= 11)%nat ->
      sends (frame_command Axis Command cmdDataStr)
            (snd (TalkWithAxis Axis Command cmdDataStr responseStr s))) /\
  (forall Func Direction,
      sends (frame_command Axis "G" [Func; Direction])
            (snd (SetMotionMode Axis Func Direction s))) /\
  (forall n, sends (frame_command Axis "H" (Long2BCDstr n))
                   (snd (SetGotoTargetOffset Axis n s))) /\
  (forall n, sends (frame_command Axis "I" (Long2BCDstr n))
                   (snd (SetClockTicksPerMicrostep Axis n s))) /\
  (forall n, sends (frame_command Axis "M" (Long2BCDstr n))
                   (snd (SetSlewToModeDeccelerationRampLength Axis n s))) /\
  (forall n, sends (frame_command Axis "U" (Long2BCDstr n))
                   (snd (SetSlewModeDeccelerationRampLength Axis n s))) /\
  (forall OnOff : bool,
      sends (frame_command AXIS1 "O" [if OnOff then "1"%char else "0"%char])
            (snd (SetSwitch OnOff s))) /\
  sends (frame_command Axis "J" []) (snd (StartMotion Axis s)) /\
  sends (frame_command Axis "L" []) (snd (InstantStop Axis s)).
Proof.
  cbv zeta.
  destruct (command_wrappers Axis s) as (HG & HH & HI & HM & HJ).
  split; [|split; [|split; [|split; [|split; [|split; [|split; [|split]]]]]]].
  - intros. apply writes_talk.
  - intros. rewrite HG. apply writes_talk.
  - intros. rewrite HH. apply writes_talk.
  - intros. rewrite HI. apply writes_talk.
  - intros. rewrite HM. apply writes_talk.
  - intros n. unfold SetSlewModeDeccelerationRampLength.
    pose proof (writes_talk Axis "U" (Long2BCDstr n) [] s) as Ht.
    destruct (TalkWithAxis Axis "U" (Long2BCDstr n) [] s) as [[ok r] s1]. exact Ht.
  - intros OnOff. unfold SetSwitch.
    destruct OnOff; cbv zeta;
      match goal with
      | |- context [TalkWithAxis ?a ?c ?d ?r s] =>
          pose proof (writes_talk a c d r s) as Ht;
          destruct (TalkWithAxis a c d r s) as [[ok r0] s1]
      end; exact Ht.
  - rewrite HJ. apply writes_talk.
  - unfold InstantStop.
    pose proof (writes_talk Axis "L" [] [] s) as Ht.
    destruct (TalkWithAxis Axis "L" [] [] s) as [[ok r] s1]. cbn [snd] in Ht.
    destruct ok; exact Ht.
Qed.

Lemma MyPortFD_update_status Axis f s :
  MyPortFD (update_status Axis f s) = MyPortFD s.
Proof. reflexivity. Qed.

Lemma MyPortFD_Slew_record Axis Forward HighSpeed0 v s :
  MyPortFD (Slew_record Axis Forward HighSpeed0 v s) = MyPortFD s.
Proof. reflexivity. Qed.

Lemma writes_goto_commands Axis Func Direction n m s :
  exists a b c d,
    ((1 <= a <= 3) /\ (1 <= b <= 3) /\ (1 <= c <= 3) /\ (1 <= d <= 3))%nat /\
    writes_of (trace (MyPortFD
      (snd (StartMotion Axis
         (snd (SetSlewToModeDeccelerationRampLength Axis m
            (snd (SetGotoTargetOffset Axis n
               (snd (SetMotionMode Axis Func Direction s))))))))))
    = writes_of (trace (MyPortFD s))
      ++ repeat (frame_command Axis "G" [Func; Direction]) a
      ++ repeat (frame_command Axis "H" (Long2BCDstr n)) b
      ++ repeat (frame_command Axis "M" (Long2BCDstr m)) c
      ++ repeat (frame_command Axis "J" []) d.
Proof.
  set (s1 := snd (SetMotionMode Axis Func Direction s)).
  set (s2 := snd (SetGotoTargetOffset Axis n s1)).
  set (s3 := snd (SetSlewToModeDeccelerationRampLength Axis m s2)).
  destruct (writes_talk Axis "G" [Func; Direction] [] s) as (a & Ha & Ea).
  rewrite <- (proj1 (command_wrappers Axis s)) in Ea. fold s1 in Ea.
  destruct (writes_talk Axis "H" (Long2BCDstr n) [] s1) as (b & Hb & Eb).
  rewrite <- (proj1 (proj2 (command_wrappers Axis s1))) in Eb. fold s2 in Eb.
  destruct (writes_talk Axis "M" (Long2BCDstr m) [] s2) as (c & Hc & Ec).
  rewrite <- (proj1 (proj2 (proj2 (proj2 (command_wrappers Axis s2))))) in Ec.
  fold s3 in Ec.
  destruct (writes_talk Axis "J" [] [] s3) as (d & Hd & Ed).
  rewrite <- (proj2 (proj2 (proj2 (proj2 (command_wrappers Axis s3))))) in Ed.
  exists a, b, c, d. split; [repeat split; lia|].
  rewrite Ed, Ec, Eb, Ea. rewrite <- !app_assoc. reflexivity.
Qed.

Lemma SlewTo_command_sequence_wrapped fuel Axis OffsetInMicrosteps verbose s s1 :
  OffsetInMicrosteps <> 0 ->
  GetStatus Axis
    (set_LastSlewToTarget
       (axis_set (LastSlewToTarget s) Axis
          (to_long (axis_get (CurrentEncoders s) Axis + OffsetInMicrosteps))) s)
  = (true, s1) ->
  FullStop (axis_get (AxesStatus s1) Axis) = true ->
  let distance :=
    if OffsetInMicrosteps <? 0 then to_long (- OffsetInMicrosteps)
    else OffsetInMicrosteps in
  let fast :=
    (axis_get (LowSpeedGotoMargin s) Axis <? distance) && negb (SilentSlewMode s) in
  exists s' a b c d,
    SlewTo fuel Axis OffsetInMicrosteps verbose s = Some s' /\
    ((1 <= a <= 3) /\ (1 <= b <= 3) /\ (1 <= c <= 3) /\ (1 <= d <= 3))%nat /\
    writes_of (trace (MyPortFD s'))
    = writes_of (trace (MyPortFD s1))
      ++ repeat (frame_command Axis "G"
                   [if fast then "0"%char else "2"%char;
                    if OffsetInMicrosteps <? 0 then "1"%char else "0"%char]) a
      ++ repeat (frame_command Axis "H" (Long2BCDstr distance)) b
      ++ repeat (frame_command Axis "M"
                   (Long2BCDstr (Z.min distance (if fast then 3200 else 200)))) c
      ++ repeat (frame_command Axis "J" []) d.
Proof.
  intros Hnz Hpoll Hfs. cbv zeta. unfold SlewTo.
  apply Z.eqb_neq in Hnz. rewrite Hnz. cbv zeta.
  assert (Hmin : forall cap d, (if cap <? d then cap else d) = Z.min d cap)
    by (intros cap d0; destruct (Z.ltb_spec cap d0); lia).
  destruct (OffsetInMicrosteps <? 0); cbv beta iota zeta;
    rewrite Hpoll; cbn [negb]; rewrite Hfs; cbn [negb andb];
    change (LowSpeedGotoMargin (set_LastSlewToTarget _ s)) with (LowSpeedGotoMargin s);
    change (SilentSlewMode (set_LastSlewToTarget _ s)) with (SilentSlewMode s);
    match goal with
    | |- context [if ?c then snd _ else snd _] => destruct c
    end;
    rewrite Hmin;
    match goal with
    | |- context [StartMotion Axis
                    (snd (SetSlewToModeDeccelerationRampLength Axis ?m
                       (snd (SetGotoTargetOffset Axis ?n
                          (snd (SetMotionMode Axis ?f ?d s1))))))] =>
        destruct (writes_goto_commands Axis f d n m s1) as (a & b & c & e & Hn & Hw)
    end;
    eexists; exists a, b, c, e;
    (split; [reflexivity|]); (split; [exact Hn|]);
    rewrite MyPortFD_update_status; exact Hw.
Qed.

(** X20.  A goto on an axis that the status poll shows stopped needs no
    bound on polling and sends, after the poll, the mode command G (goto
    mode, fast or slow, and the direction), the distance with H, the
    deceleration ramp length with M, which is the distance capped at 3200
    microsteps for a fast goto and at 200 for a slow one, and the start
    command J, in this order and nothing else. *)
Theorem SlewTo_command_sequence fuel Axis OffsetInMicrosteps verbose s s1 :
  - 2 ^ 63 < OffsetInMicrosteps < 2 ^ 63 ->
  OffsetInMicrosteps <> 0 ->
  GetStatus Axis
    (set_LastSlewToTarget
       (axis_set (LastSlewToTarget s) Axis
          (to_long (axis_get (CurrentEncoders s) Axis + OffsetInMicrosteps))) s)
  = (true, s1) ->
  FullStop (axis_get (AxesStatus s1) Axis) = true ->
  let distance := Z.abs OffsetInMicrosteps in
  let fast :=
    (axis_get (LowSpeedGotoMargin s) Axis <? distance) && negb (SilentSlewMode s) in
  exists s' a b c d,
    SlewTo fuel Axis OffsetInMicrosteps verbose s = Some s' /\
    ((1 <= a <= 3) /\ (1 <= b <= 3) /\ (1 <= c <= 3) /\ (1 <= d <= 3))%nat /\
    writes_of (trace (MyPortFD s'))
    = writes_of (trace (MyPortFD s1))
      ++ repeat (frame_command Axis "G"
                   [if fast then "0"%char else "2"%char;
                    if OffsetInMicrosteps <? 0 then "1"%char else "0"%char]) a
      ++ repeat (frame_command Axis "H" (Long2BCDstr distance)) b
      ++ repeat (frame_command Axis "M"
                   (Long2BCDstr (Z.min distance (if fast then 3200 else 200)))) c
      ++ repeat (frame_command Axis "J" []) d.
Proof.
  intros Hrange Hnz Hpoll Hfs. cbv zeta.
  pose proof (SlewTo_command_sequence_wrapped fuel Axis OffsetInMicrosteps verbose
                s s1 Hnz Hpoll Hfs) as Hw.
  cbv zeta in Hw. rewrite (distance_abs _ Hrange) in Hw. exact Hw.
Qed.

Lemma decode_Long2BCDstr (Number : Z) :
  BCDstr2long (Long2BCDstr Number) = Number mod 2 ^ 24.
Proof.
  rewrite Long2BCDstr_bytes. cbv zeta.
  rewrite decode_three_bytes by (apply Z.mod_pos_bound; lia).
  change (2 ^ 24) with 16777216. Z.div_mod_to_equations. lia.
Qed.

(** X21.  On the legacy command set, once [PrepareForSlewing] has returned,
    a slew above a thousandth of the sidereal rate sends the step period
    with I and then the start command J, and nothing else.  The step period
    it computes, [Slew_period], is at least 6 clock ticks, but what goes to
    the mount is its six-digit encoding, which holds its low 24 bits only:
    a period of 2^24 ticks or more is sent as a smaller one. *)
Theorem Slew_sends_low_24_bits_of_period fuel Axis Speed IgnoreSilentMode s s1 :
  SupportAdvancedCommandSet s = false ->
  dle (PrimFloat.abs (clamp_speed Speed)) (SIDEREALRATE / 1000)%float = false ->
  PrepareForSlewing fuel Axis (clamp_speed Speed) s = Some s1 ->
  let ticks := Slew_period Axis (clamp_speed Speed) IgnoreSilentMode s1 in
  6 <= ticks /\
  BCDstr2long (Long2BCDstr ticks) = ticks mod 2 ^ 24 /\
  exists s' a b,
    Slew fuel Axis Speed IgnoreSilentMode s = Some s' /\
    (1 <= a <= 3)%nat /\ (1 <= b <= 3)%nat /\
    writes_of (trace (MyPortFD s'))
    = writes_of (trace (MyPortFD s1))
      ++ repeat (frame_command Axis "I" (Long2BCDstr ticks)) a
      ++ repeat (frame_command Axis "J" []) b.
Proof.
  intros Hadv Hslow Hp. cbv zeta.
  split.
  { unfold Slew_period. cbv zeta.
    match goal with
    | |- 6 <= (if ?x <? 6 then 6 else ?x) => destruct (Z.ltb_spec x 6); lia
    end. }
  split; [apply decode_Long2BCDstr|].
  unfold Slew. rewrite Hadv. cbv zeta. rewrite Hslow, Hp.
  unfold Slew_period. cbv zeta.
  destruct (dgt (clamp_speed Speed) 0);
    match goal with
    | |- context [if ?c then (_, true) else _] => destruct c
    end;
    match goal with
    | |- context [SetClockTicksPerMicrostep Axis ?n s1] =>
        set (ticks := n);
        clearbody ticks;
        destruct (writes_talk Axis "I" (Long2BCDstr ticks) [] s1) as (a & Ha & Ea);
        rewrite <- (proj1 (proj2 (proj2 (command_wrappers Axis s1)))) in Ea;
        destruct (writes_talk Axis "J" [] []
                    (snd (SetClockTicksPerMicrostep Axis ticks s1))) as (b & Hb & Eb);
        rewrite <- (proj2 (proj2 (proj2 (proj2 (command_wrappers Axis
                      (snd (SetClockTicksPerMicrostep Axis ticks s1))))))) in Eb
    end;
    eexists; exists a, b;
    (split; [reflexivity|]);
    (split; [exact Ha|]); (split; [exact Hb|]);
    rewrite MyPortFD_Slew_record, Eb, Ea, <- app_assoc; reflexivity.
Qed.

(** ** The motor-type probe *)

Lemma tty_read_shift p dw dr evs nbytes timeout :
  tty_read (port_shift p dw dr evs) nbytes timeout
  = (nth_read p dr, port_shift p dw (S dr) (evs ++ [EvRead nbytes timeout])).
Proof.
  unfold tty_read, port_read, port_shift, nth_read. cbn.
  f_equal. f_equal; [lia | rewrite <- app_assoc; reflexivity].
Qed.

Lemma tty_write_shift p dw dr evs bytes :
  tty_write (port_shift p dw dr evs) bytes
  = (write_outcome p (nwrites p + dw),
     port_shift p (S dw) dr (evs ++ [EvWrite bytes])).
Proof.
  unfold tty_write, port_shift. cbn.
  f_equal. f_equal; [lia | rewrite <- app_assoc; reflexivity].
Qed.

Lemma drain_input_shift k :
  forall fuel p dr evs,
    (forall i, (i < k)%nat -> fst (nth_read p (dr + i)) = TTY_OK) ->
    fst (nth_read p (dr + k)) = TTY_TIME_OUT ->
    (k < fuel)%nat ->
    drain_input fuel (port_shift p 0 dr evs)
    = Some (true, port_shift p 0 (dr + S k) (evs ++ repeat (EvRead 20 1) (S k))).
Proof.
  induction k as [|k IH]; intros fuel p dr evs Hok Hto Hk;
    (destruct fuel as [|fuel]; [lia|]);
    cbn [drain_input]; rewrite tty_read_shift.
  - rewrite Nat.add_0_r in Hto.
    destruct (nth_read p dr) as [rc bytes]. cbn [fst] in Hto. subst rc.
    cbn [tty_timed_out repeat]. rewrite Nat.add_1_r. reflexivity.
  - pose proof (Hok 0%nat ltac:(lia)) as H0. rewrite Nat.add_0_r in H0.
    destruct (nth_read p dr) as [rc bytes]. cbn [fst] in H0. subst rc.
    cbn [tty_timed_out tty_ok negb].
    rewrite (IH fuel p (S dr) (evs ++ [EvRead 20 1])).
    + replace (S dr + S k)%nat with (dr + S (S k))%nat by lia.
      rewrite <- app_assoc. reflexivity.
    + intros i Hi. replace (S dr + i)%nat with (dr + S i)%nat by lia.
      apply Hok. lia.
    + replace (S dr + k)%nat with (dr + S k)%nat by lia. exact Hto.
    + lia.
Qed.

(** X22.  [CheckIfDCMotor] on a line with [k] chunks of pending input: it
    drains them with [k]+1 reads, the last of which times out, writes a
    single ":" and reads once more.  An echoed ":" means DC motors, a
    timeout means stepper motors; any other outcome makes it return false
    with the motor type left as it was.  A bound above [k] on the draining
    loop is enough. *)
Theorem CheckIfDCMotor_probe (k fuel : nat) s :
  (forall i, (i < k)%nat -> fst (nth_read (MyPortFD s) i) = TTY_OK) ->
  fst (nth_read (MyPortFD s) k) = TTY_TIME_OUT ->
  nth_write_ok (MyPortFD s) 0 = true ->
  (k < fuel)%nat ->
  let answer := nth_read (MyPortFD s) (S k) in
  let s' :=
    set_MyPortFD
      (port_shift (MyPortFD s) 1 (S (S k))
         (repeat (EvRead 20 1) (S k) ++ [EvWrite [":"%char]; EvRead 1 1])) s in
  (answer = (TTY_OK, [":"%char]) ->
   CheckIfDCMotor fuel s = Some (true, set_IsDCMotor true s')) /\
  (fst answer = TTY_TIME_OUT ->
   CheckIfDCMotor fuel s = Some (true, set_IsDCMotor false s')) /\
  (fst answer <> TTY_TIME_OUT -> answer <> (TTY_OK, [":"%char]) ->
   CheckIfDCMotor fuel s = Some (false, s')).
Proof.
  intros Hok Hto Hw Hk. cbv zeta.
  assert (E : forall rc input,
             nth_read (MyPortFD s) (S k) = (rc, input) ->
             CheckIfDCMotor fuel s
             = Some (let s' :=
                       set_MyPortFD
                         (port_shift (MyPortFD s) 1 (S (S k))
                            (repeat (EvRead 20 1) (S k)
                             ++ [EvWrite [":"%char]; EvRead 1 1])) s in
                     if tty_ok rc && (length input =? 1)%nat
                        && Ascii.eqb (nth 0 input Ascii.zero) ":"%char
                     then (true, set_IsDCMotor true s')
                     else if tty_timed_out rc then (true, set_IsDCMotor false s')
                     else (false, s'))).
  { intros rc input Ha. unfold CheckIfDCMotor.
    rewrite <- (port_shift_0 (MyPortFD s)) at 1.
    rewrite (drain_input_shift k fuel (MyPortFD s) 0 []) by assumption.
    rewrite tty_write_shift.
    unfold nth_write_ok in Hw. rewrite Hw. cbn [negb].
    rewrite tty_read_shift. cbn [Nat.add app].
    rewrite Ha. cbv zeta. rewrite <- app_assoc. cbn [app].
    destruct (tty_ok rc && (length input =? 1)%nat
              && Ascii.eqb (nth 0 input Ascii.zero) ":"%char);
      [reflexivity|].
    destruct (tty_timed_out rc); reflexivity. }
  destruct (nth_read (MyPortFD s) (S k)) as [rc input].
  specialize (E rc input eq_refl). cbv zeta in E.
  split; [|split].
  - intros Ha. injection Ha as -> ->. exact E.
  - cbn [fst]. intros ->. exact E.
  - cbn [fst]. intros Hnt Hne. rewrite E.
    destruct rc; cbn [tty_ok tty_timed_out andb];
      try reflexivity; try (exfalso; apply Hnt; reflexivity).
    destruct input as [|c [|c' rest]]; cbn [length Nat.eqb andb nth];
      try reflexivity.
    destruct (Ascii.eqb_spec c ":"%char) as [->|Hc]; [|reflexivity].
    exfalso. apply Hne. reflexivity.
Qed.

(** ** The command frame *)


Lemma c_str_length (l : list ascii) : (length (c_str l) <= length l)%nat.
Proof.
  induction l as [|c l IH]; cbn [c_str length]; [lia|].
  destruct (N_of_ascii c =? 0)%N; cbn [length]; lia.
Qed.






End Driver.

(** * The theorems at concrete inputs

    The runs below are on an x86-64 build ([char] signed) with [stol_zero]
    standing in for [stol]; none of them reaches the advanced command set. *)

(** ** Codec *)

Lemma BCDstr2long_Long2BCDstr_witness :
  BCDstr2long true (Long2BCDstr 0x123456) = 0x123456.
Proof. apply (BCDstr2long_Long2BCDstr true 0x123456). lia. Defined.

(** C1, the claim as stated fails.  At N = 0x123456 the direct composition
    already gives N back, and it is the additional reversal of the byte
    pairs that loses it (0x563412). *)
Lemma round_trip_holds_without_reversal :
  BCDstr2long true (Long2BCDstr 0x123456) = 0x123456 /\
  BCDstr2long true (reverse_byte_pairs (Long2BCDstr 0x123456)) = 0x563412 /\
  0x563412 <> 0x123456.
Proof. split; [|split]; [vm_compute; reflexivity | vm_compute; reflexivity | lia]. Qed.

Lemma decoders_return_plain_numbers_witness :
  BCDstr2long true (str "12") = 0 /\ Highstr2long true (str "A") = 0 /\
  (* ':' is no hexadecimal digit, and HEX(':') = 10 = HEX('A') *)
  BCDstr2long true (str "00000:") = BCDstr2long true (str "00000A") /\
  BCDstr2long true (str "00000:") = 0x0A0000 /\
  Highstr2long true (str "1:") = 0x1A.
Proof.
  destruct (decoders_return_plain_numbers true (str "12")) as (H6 & _).
  destruct (decoders_return_plain_numbers true (str "A")) as (_ & H2 & _).
  destruct (decoders_return_plain_numbers true (str "00000A"))
    as (_ & _ & _ & _ & Hsame & _).
  destruct (decoders_return_plain_numbers true (str "00000:"))
    as (_ & _ & _ & _ & _ & Hsix & _).
  destruct (decoders_return_plain_numbers true (str "1:"))
    as (_ & _ & _ & _ & _ & _ & Htwo).
  split; [|split; [|split; [|split]]].
  - apply H6. cbn. lia.
  - apply H2. cbn. lia.
  - apply (Hsame (str "00000:")). reflexivity.
  - rewrite (proj2 (Hsix "0" "0" "0" "0" "0" ":" eq_refl)%char)
      by (vm_compute; split; [discriminate | reflexivity]).
    vm_compute. reflexivity.
  - rewrite (proj2 (Htwo "1" ":" [] eq_refl)%char)
      by (vm_compute; split; [discriminate | reflexivity]).
    vm_compute. reflexivity.
Defined.

(** C5, the claim as stated fails.  A string of the wrong length decodes to
    the same number as a well-formed string, and so does a string with a
    character that is not a hexadecimal digit: the caller cannot tell the
    two apart. *)
Lemma malformed_input_decodes_like_wellformed :
  (length (str "12") <> 6%nat /\
   BCDstr2long true (str "12") = BCDstr2long true (str "000000")) /\
  BCDstr2long true (str "00000G") = BCDstr2long true (str "000010") /\
  ((length (str "A") < 2)%nat /\
   Highstr2long true (str "A") = Highstr2long true (str "00")) /\
  Highstr2long true (str "1G") = Highstr2long true (str "10").
Proof.
  split; [split; [cbn; lia | vm_compute; reflexivity]|].
  split; [vm_compute; reflexivity|].
  split; [split; [cbn; lia | vm_compute; reflexivity]|].
  vm_compute; reflexivity.
Qed.

(** ** Status *)

Lemma phase_flags_mutually_exclusive_witness :
  one_phase
    (axis_get
       (AxesStatus (snd (GetStatus true stol_zero AXIS1 (driver_awaiting (reply "=101")))))
       AXIS1) = true.
Proof.
  apply (proj1 (phase_flags_mutually_exclusive true stol_zero) AXIS1
               (driver_awaiting (reply "=101"))).
  vm_compute. reflexivity.
Defined.

Lemma GetEncoder_legacy_keeps_nonpositive_witness :
  (* "000000" decodes to 0 *)
  (fst (GetEncoder true stol_zero AXIS1 (driver_awaiting (reply "=000000"))) = true /\
   CurrentEncoders (snd (GetEncoder true stol_zero AXIS1 (driver_awaiting (reply "=000000"))))
   = Axes 5 7) /\
  (* " 00000" decodes to -256 *)
  (fst (GetEncoder true stol_zero AXIS1 (driver_awaiting (reply "= 00000"))) = true /\
   CurrentEncoders (snd (GetEncoder true stol_zero AXIS1 (driver_awaiting (reply "= 00000"))))
   = Axes 5 7) /\
  (* "563412" decodes to 0x123456 *)
  axis_get
    (CurrentEncoders (snd (GetEncoder true stol_zero AXIS1 (driver_awaiting (reply "=563412")))))
    AXIS1 = 0x123456.
Proof.
  split; [|split].
  - destruct (GetEncoder_legacy_keeps_nonpositive true stol_zero AXIS1
                (driver_awaiting (reply "=000000")) (str "000000")
                (snd (TalkWithAxis AXIS1 "j" [] [] (driver_awaiting (reply "=000000")))))
      as (Hok & Hkeep & _).
    + reflexivity.
    + vm_compute. reflexivity.
    + split; [exact Hok|]. apply Hkeep. vm_compute. discriminate.
  - destruct (GetEncoder_legacy_keeps_nonpositive true stol_zero AXIS1
                (driver_awaiting (reply "= 00000")) (str " 00000")
                (snd (TalkWithAxis AXIS1 "j" [] [] (driver_awaiting (reply "= 00000")))))
      as (Hok & Hkeep & _).
    + reflexivity.
    + vm_compute. reflexivity.
    + split; [exact Hok|]. apply Hkeep. vm_compute. discriminate.
  - destruct (GetEncoder_legacy_keeps_nonpositive true stol_zero AXIS1
                (driver_awaiting (reply "=563412")) (str "563412")
                (snd (TalkWithAxis AXIS1 "j" [] [] (driver_awaiting (reply "=563412")))))
      as (_ & _ & Hset).
    + reflexivity.
    + vm_compute. reflexivity.
    + apply Hset. vm_compute. reflexivity.
Defined.

(** ** Exchange *)

Lemma TalkWithAxis_retry_policy_witness :
  fst (fst (TalkWithAxis AXIS1 "j" [] []
              (SkywatcherAPI_new port_two_write_errors))) = true /\
  fst (fst (TalkWithAxis AXIS1 "j" [] []
              (SkywatcherAPI_new port_one_byte_reads))) = false.
Proof.
  split.
  - apply (proj1 (proj2 (TalkWithAxis_retry_policy AXIS1 "j" [] []
                           (SkywatcherAPI_new port_two_write_errors)))
             [ "="%char; CR ]);
      solve [reflexivity | cbn; lia | discriminate].
  - apply (proj2 (proj2 (TalkWithAxis_retry_policy AXIS1 "j" [] []
                           (SkywatcherAPI_new port_one_byte_reads)))).
    intros i. cbn. lia.
Defined.

(** ** Motion-mode selection *)

Lemma slew_motion_mode_threshold_witness :
  (* at the margin: ":G110" *)
  PrepareForSlewing true stol_zero 8 AXIS1 LOW_SPEED_MARGIN (eq6_initialised true stol_zero)
  = Some (snd (SetMotionMode AXIS1 "1" "0"
                 (snd (GetStatus true stol_zero AXIS1 (eq6_initialised true stol_zero))))) /\
  (* above it: ":G130" *)
  PrepareForSlewing true stol_zero 8 AXIS1 1%float (eq6_initialised true stol_zero)
  = Some (snd (SetMotionMode AXIS1 "3" "0"
                 (snd (GetStatus true stol_zero AXIS1 (eq6_initialised true stol_zero))))) /\
  (* at the margin, backwards: ":G111" *)
  PrepareForSlewing true stol_zero 8 AXIS1 (- LOW_SPEED_MARGIN)%float
    (eq6_initialised true stol_zero)
  = Some (snd (SetMotionMode AXIS1 "1" "1"
                 (snd (GetStatus true stol_zero AXIS1 (eq6_initialised true stol_zero))))) /\
  (* above the margin, on a running axis: ":G130" once it has stopped *)
  PrepareForSlewing true stol_zero 8 AXIS1 1%float driver_running
  = Some (snd (SetMotionMode AXIS1 "3" "0" (driver_stopped true stol_zero))).
Proof.
  split; [|split; [|split]].
  - apply (proj1 (slew_motion_mode_threshold true stol_zero 8 AXIS1 LOW_SPEED_MARGIN
                    (eq6_initialised true stol_zero)
                    (snd (GetStatus true stol_zero AXIS1 (eq6_initialised true stol_zero)))
                    (snd (GetStatus true stol_zero AXIS1 (eq6_initialised true stol_zero)))
                    ltac:(vm_compute; reflexivity) ltac:(vm_compute; reflexivity))).
    vm_compute. reflexivity.
  - apply (proj2 (slew_motion_mode_threshold true stol_zero 8 AXIS1 1%float
                    (eq6_initialised true stol_zero)
                    (snd (GetStatus true stol_zero AXIS1 (eq6_initialised true stol_zero)))
                    (snd (GetStatus true stol_zero AXIS1 (eq6_initialised true stol_zero)))
                    ltac:(vm_compute; reflexivity) ltac:(vm_compute; reflexivity))).
    vm_compute. reflexivity.
  - apply (proj1 (slew_motion_mode_threshold true stol_zero 8 AXIS1
                    (- LOW_SPEED_MARGIN)%float
                    (eq6_initialised true stol_zero)
                    (snd (GetStatus true stol_zero AXIS1 (eq6_initialised true stol_zero)))
                    (snd (GetStatus true stol_zero AXIS1 (eq6_initialised true stol_zero)))
                    ltac:(vm_compute; reflexivity) ltac:(vm_compute; reflexivity))).
    vm_compute. reflexivity.
  - apply (proj2 (slew_motion_mode_threshold true stol_zero 8 AXIS1 1%float
                    driver_running
                    (snd (GetStatus true stol_zero AXIS1 driver_running))
                    (driver_stopped true stol_zero)
                    ltac:(vm_compute; reflexivity) ltac:(vm_compute; reflexivity))).
    vm_compute. reflexivity.
Defined.

(** ** Calibration *)

Lemma GetMicrostepsPerRevolution_114GT_witness :
  axis_get
    (MicrostepsPerRevolution
       (snd (GetMicrostepsPerRevolution true stol_zero AXIS1 gt114_before_query)))
    AXIS1 = 1387567.
Proof.
  apply (GetMicrostepsPerRevolution_114GT true stol_zero AXIS1 gt114_before_query).
  - reflexivity.
  - vm_compute. reflexivity.
Defined.

(** C3, the claim as stated fails.  [InitMount] on a 114GT (mount type
    0x82) succeeds and stores 1387567 microsteps per revolution, not
    0x205318 = 2118424. *)
Lemma resolution_of_114GT_is_scaled :
  match InitMount true stol_zero 8 gt114_fresh with
  | Some (ok, s) =>
      ok = true /\ MountCode s = 0x82 /\
      axis_get (MicrostepsPerRevolution s) AXIS1 = 1387567 /\
      axis_get (MicrostepsPerRevolution s) AXIS2 = 1387567 /\
      1387567 <> 0x205318
  | None => False
  end.
Proof. vm_compute. split; [|split; [|split; [|split]]]; try reflexivity. discriminate. Qed.

Lemma InitMount_LowSpeedGotoMargin_witness :
  axis_get (LowSpeedGotoMargin (eq6_initialised true stol_zero)) AXIS1
  = double_to_long
      (640 * SIDEREALRATE
       * axis_get (MicrostepsPerRadian (eq6_initialised true stol_zero)) AXIS1)%float.
Proof.
  apply (InitMount_LowSpeedGotoMargin true stol_zero 8 eq6_fresh).
  vm_compute. reflexivity.
Defined.

(** C4, the claim as stated fails.  After [InitMount] on the EQ6 the margin
    of axis 1 is 67027 microsteps, while 5 * 640 * SIDEREALRATE *
    MicrostepsPerRadian truncates to 335137. *)
Lemma margin_has_no_extra_factor_five :
  InitMount true stol_zero 8 eq6_fresh = Some (true, eq6_initialised true stol_zero) /\
  axis_get (LowSpeedGotoMargin (eq6_initialised true stol_zero)) AXIS1 = 67027 /\
  double_to_long
    (5 * 640 * SIDEREALRATE
     * axis_get (MicrostepsPerRadian (eq6_initialised true stol_zero)) AXIS1)%float
  = 335137.
Proof. split; [|split]; vm_compute; reflexivity. Qed.

(** ** Slewing *)

(** C2, the code at the failing input.  On the initialised legacy EQ6,
    [Slew(AXIS1, 1.0, true)] asks the mount for a forward high-speed slew
    (":G130") and returns with the axis marked Slewing at rate 1.0, but with
    SlewingForward and HighSpeed both false. *)
Lemma Slew_legacy_loses_direction_and_speed_mode :
  match Slew true stol_zero 8 AXIS1 1%float true (eq6_initialised true stol_zero) with
  | Some s =>
      trace (MyPortFD s)
      = trace (MyPortFD (eq6_initialised true stol_zero))
        ++ [EvFlush; EvWrite (str ":f1" ++ [CR]); EvReadSection CR 5;
            EvFlush; EvWrite (str ":G130" ++ [CR]); EvReadSection CR 5;
            EvFlush; EvWrite (str ":I10B0000" ++ [CR]); EvReadSection CR 5;
            EvFlush; EvWrite (str ":J1" ++ [CR]); EvReadSection CR 5] /\
      Slewing (axis_get (AxesStatus s) AXIS1) = true /\
      SlewingForward (axis_get (AxesStatus s) AXIS1) = false /\
      HighSpeed (axis_get (AxesStatus s) AXIS1) = false /\
      axis_get (SlewingSpeed s) AXIS1 = 1%float
  | None => False
  end.
Proof.
  vm_compute. split; [|split; [|split; [|split]]]; reflexivity.
Qed.

(** * The further properties at concrete inputs *)

(** ** Codec *)

Lemma Long2BCDstr_BCDstr2long_witness :
  Long2BCDstr (BCDstr2long true (str "563412")) = str "563412".
Proof.
  apply (Long2BCDstr_BCDstr2long true stol_zero (str "563412")); reflexivity.
Defined.

Lemma Highstr2long_first_two_digits_witness :
  Highstr2long true (str "10") = hex_value true (str "10") /\
  hex_value true (str "10") = 16.
Proof.
  split; [|reflexivity].
  apply (Highstr2long_first_two_digits true "1" "0" []); reflexivity.
Defined.

Lemma GetMotorBoardVersion_natural_order_witness :
  fst (GetMotorBoardVersion true AXIS1 (driver_awaiting (reply "=020700")))
  = true /\
  MCVersion (snd (GetMotorBoardVersion true AXIS1
                    (driver_awaiting (reply "=020700")))) = 0x020700.
Proof.
  rewrite (GetMotorBoardVersion_natural_order true stol_zero AXIS1
             (driver_awaiting (reply "=020700")) (str "020700")
             (snd (TalkWithAxis AXIS1 "e" [] [] (driver_awaiting (reply "=020700"))))).
  - split; vm_compute; reflexivity.
  - vm_compute. reflexivity.
  - reflexivity.
  - reflexivity.
Defined.

(** ** Exchange *)

Lemma TalkWithAxis_response_is_one_read_witness :
  let result := TalkWithAxis AXIS1 "f" [] (str "old") (driver_awaiting (reply "=101")) in
  (fst (fst result) = false /\ snd (fst result) = str "old") \/
  (exists k bytes,
      nth_read (MyPortFD (driver_awaiting (reply "=101"))) k = (TTY_OK, bytes) /\
      (2 <= length bytes)%nat /\
      snd (fst result) = c_str (skipn 1 (removelast bytes)) /\
      fst (fst result) = negb (Ascii.eqb (nth 0 bytes Ascii.zero) "!"%char)).
Proof.
  apply (TalkWithAxis_response_is_one_read AXIS1 "f" [] (str "old")
           (driver_awaiting (reply "=101"))).
  intros [|[|i]]; vm_compute; lia.
Defined.

Lemma TalkWithAxis_single_attempt_witness :
  TalkWithAxis AXIS1 "f" [] [] (driver_awaiting (reply "=101"))
  = (true, str "101",
     set_MyPortFD
       (port_shift (MyPortFD (driver_awaiting (reply "=101"))) 1 1
          [EvFlush; EvWrite (str ":f1" ++ [CR]); EvReadSection CR 5])
       (driver_awaiting (reply "=101"))).
Proof.
  apply (TalkWithAxis_single_attempt AXIS1 "f" [] []
           (driver_awaiting (reply "=101")) (str "=101" ++ [CR]));
    [reflexivity | reflexivity | vm_compute; lia].
Defined.

(** ** Readers *)

Lemma failed_query_changes_only_the_port_witness :
  fst (GetEncoder true stol_zero AXIS1 driver_unanswered) = false /\
  CurrentEncoders (snd (GetEncoder true stol_zero AXIS1 driver_unanswered)) = Axes 5 7.
Proof.
  assert (Hf : fst (GetEncoder true stol_zero AXIS1 driver_unanswered) = false)
    by (vm_compute; reflexivity).
  split; [exact Hf|].
  rewrite (proj1 (failed_query_changes_only_the_port true stol_zero AXIS1
                    driver_unanswered) Hf).
  reflexivity.
Defined.

Lemma successful_query_stores_valid_value_witness :
  0 < axis_get
        (StepperClockFrequency
           (snd (GetStepperClockFrequency true AXIS1 (driver_awaiting (reply "=40420F")))))
        AXIS1 < 2 ^ 32.
Proof.
  apply (proj1 (successful_query_stores_valid_value true stol_zero AXIS1
                  (driver_awaiting (reply "=40420F"))
                  (snd (GetStepperClockFrequency true AXIS1
                          (driver_awaiting (reply "=40420F")))))).
  vm_compute. reflexivity.
Defined.

Lemma conversion_factors_follow_resolution_witness :
  axis_get
    (MicrostepsPerRadian
       (snd (GetMicrostepsPerRevolution true stol_zero AXIS1 gt114_before_query))) AXIS1
  = (double_of_long 1387567 / (2 * M_PI))%float.
Proof.
  destruct (conversion_factors_follow_resolution true stol_zero AXIS1 gt114_before_query
              (snd (GetMicrostepsPerRevolution true stol_zero AXIS1 gt114_before_query)))
    as ((H & _) & _).
  - vm_compute. reflexivity.
  - rewrite H. vm_compute. reflexivity.
Defined.

(** ** Status *)

Lemma GetStatus_touches_one_axis_witness :
  axis_get
    (AxesStatus (snd (GetStatus true stol_zero AXIS1 (driver_awaiting (reply "=111")))))
    AXIS2
  = AXISSTATUS_init /\
  axis_get
    (CurrentEncoders (snd (GetStatus true stol_zero AXIS1 (driver_awaiting (reply "=111")))))
    AXIS2
  = 7.
Proof.
  destruct (GetStatus_touches_one_axis true stol_zero AXIS1
              (driver_awaiting (reply "=111")) true
              (snd (GetStatus true stol_zero AXIS1 (driver_awaiting (reply "=111")))))
    as (_ & Hother & _).
  - vm_compute. reflexivity.
  - destruct (Hother AXIS2) as [Hst Henc]; [discriminate|].
    rewrite Hst, Henc. split; reflexivity.
Defined.

Lemma IsInMotion_after_poll_and_stop_witness :
  IsInMotion AXIS1 (snd (GetStatus true stol_zero AXIS1 (driver_awaiting (reply "=111"))))
  = true /\
  IsInMotion AXIS1 (snd (InstantStop AXIS1 (driver_awaiting (reply "="))))
  = false.
Proof.
  split.
  - rewrite (proj1 (IsInMotion_after_poll_and_stop true stol_zero AXIS1
                      (driver_awaiting (reply "=111"))
                      (snd (GetStatus true stol_zero AXIS1
                              (driver_awaiting (reply "=111"))))));
      vm_compute; reflexivity.
  - apply (proj2 (IsInMotion_after_poll_and_stop true stol_zero AXIS1
                    (driver_awaiting (reply "="))
                    (snd (InstantStop AXIS1 (driver_awaiting (reply "=")))))).
    vm_compute. reflexivity.
Defined.

(** ** Initialisation *)


Lemma CheckIfDCMotor_probe_witness :
  option_map (fun r => (fst r, IsDCMotor (snd r))) (CheckIfDCMotor 8 gt114_fresh)
  = Some (true, true) /\
  option_map (fun r => (fst r, IsDCMotor (snd r))) (CheckIfDCMotor 8 eq6_fresh)
  = Some (true, false).
Proof.
  split.
  - rewrite (proj1 (CheckIfDCMotor_probe 0 8 gt114_fresh
                      ltac:(intros i Hi; lia) eq_refl eq_refl ltac:(lia)) eq_refl).
    reflexivity.
  - rewrite (proj1 (proj2 (CheckIfDCMotor_probe 0 8 eq6_fresh
                             ltac:(intros i Hi; lia) eq_refl eq_refl ltac:(lia)))
               eq_refl).
    reflexivity.
Defined.

(** ** Motion *)

Lemma motion_commands_keep_calibration_witness :
  calibration_of (eq6_slewing true stol_zero)
  = calibration_of (eq6_initialised true stol_zero) /\
  calibration_of (eq6_goto true stol_zero)
  = calibration_of (eq6_initialised true stol_zero).
Proof.
  destruct (motion_commands_keep_calibration true stol_zero 8 AXIS1
              (eq6_initialised true stol_zero)) as (Hslew & Hgoto & _).
  split.
  - apply (Hslew 1000%float true). vm_compute. reflexivity.
  - apply (Hgoto 1000 false). vm_compute. reflexivity.
Defined.

Lemma Slew_records_clamped_speed_witness :
  SlewingSpeed (eq6_slewing true stol_zero) = Axes 500%float 0%float.
Proof.
  destruct (Slew_records_clamped_speed true stol_zero 8 AXIS1 1000%float true
              (eq6_initialised true stol_zero) (eq6_slewing true stol_zero))
    as (H & _).
  - vm_compute. reflexivity.
  - right. vm_compute. reflexivity.
  - rewrite H. vm_compute. reflexivity.
Defined.

Lemma Slew_near_zero_is_slow_stop_witness :
  Slew true stol_zero 8 AXIS1 0%float true (eq6_initialised true stol_zero)
  = Some (snd (TalkWithAxis AXIS1 "K" [] [] (eq6_initialised true stol_zero))) /\
  exists p n,
    Slew true stol_zero 8 AXIS1 0%float true (eq6_initialised true stol_zero)
    = Some (set_MyPortFD p (eq6_initialised true stol_zero)) /\
    (1 <= n <= 3)%nat /\
    writes_of (trace p)
    = writes_of (trace (MyPortFD (eq6_initialised true stol_zero)))
      ++ repeat (str ":K1" ++ [CR]) n.
Proof.
  apply (Slew_near_zero_is_slow_stop true stol_zero 8 AXIS1 0%float true
           (eq6_initialised true stol_zero));
    vm_compute; reflexivity.
Defined.


Lemma wait_for_full_stop_returns_at_first_stop_witness :
  wait_for_full_stop true stol_zero 5 AXIS1 driver_stopping
  = Some (nth_poll true stol_zero 1 AXIS1 driver_stopping).
Proof.
  apply (proj2 (wait_for_full_stop_returns_at_first_stop true stol_zero AXIS1)
           1%nat 5%nat driver_stopping).
  - lia.
  - vm_compute. reflexivity.
  - intros [|j] Hj; [vm_compute; reflexivity | lia].
Defined.

Lemma SlewTo_records_goto_witness :
  LastSlewToTarget (eq6_goto true stol_zero) = Axes 1000 0 /\
  SlewingTo (axis_get (AxesStatus (eq6_goto true stol_zero)) AXIS1) = true /\
  SlewingForward (axis_get (AxesStatus (eq6_goto true stol_zero)) AXIS1) = true /\
  HighSpeed (axis_get (AxesStatus (eq6_goto true stol_zero)) AXIS1) = false.
Proof.
  destruct (SlewTo_records_goto true stol_zero 8 AXIS1 1000 false
              (eq6_initialised true stol_zero) (eq6_goto true stol_zero))
    as (Htarget & Hstatus).
  - lia.
  - lia.
  - vm_compute. reflexivity.
  - destruct Hstatus as (Hto & _ & _ & Hfwd & Hhigh); [vm_compute; reflexivity|].
    rewrite Htarget, Hto, Hfwd, Hhigh. vm_compute. repeat split; reflexivity.
Defined.

Lemma SlewTo_command_sequence_witness :
  exists a b c d,
    ((1 <= a <= 3) /\ (1 <= b <= 3) /\ (1 <= c <= 3) /\ (1 <= d <= 3))%nat /\
    writes_of (trace (MyPortFD (eq6_goto true stol_zero)))
    = writes_of (trace (MyPortFD (snd (GetStatus true stol_zero AXIS1
                                         (eq6_initialised true stol_zero)))))
      ++ repeat (str ":G120" ++ [CR]) a
      ++ repeat (str ":H1E80300" ++ [CR]) b
      ++ repeat (str ":M1C80000" ++ [CR]) c
      ++ repeat (str ":J1" ++ [CR]) d.
Proof.
  destruct (SlewTo_command_sequence true stol_zero 8 AXIS1 1000 false
              (eq6_initialised true stol_zero)
              (snd (GetStatus true stol_zero AXIS1
                      (set_LastSlewToTarget (Axes 1000 0)
                         (eq6_initialised true stol_zero)))))
    as (s' & a & b & c & d & Hs & Hn & Hw).
  - lia.
  - lia.
  - vm_compute. reflexivity.
  - vm_compute. reflexivity.
  - exists a, b, c, d. split; [exact Hn|].
    assert (E : eq6_goto true stol_zero = s').
    { unfold eq6_goto. rewrite Hs. reflexivity. }
    rewrite E, Hw. vm_compute. reflexivity.
Defined.

Lemma Slew_sends_low_24_bits_of_period_witness :
  Slew_period AXIS1 (clamp_speed crawl_rate) true (gt114_prepared true stol_zero)
  = 33554434 /\
  BCDstr2long true
    (Long2BCDstr
       (Slew_period AXIS1 (clamp_speed crawl_rate) true (gt114_prepared true stol_zero)))
  = 2 /\
  exists a b,
    (1 <= a <= 3)%nat /\ (1 <= b <= 3)%nat /\
    writes_of (trace (MyPortFD (gt114_crawling true stol_zero)))
    = writes_of (trace (MyPortFD (gt114_prepared true stol_zero)))
      ++ repeat (str ":I1020000" ++ [CR]) a
      ++ repeat (str ":J1" ++ [CR]) b.
Proof.
  destruct (Slew_sends_low_24_bits_of_period true stol_zero 8 AXIS1 crawl_rate
              true (gt114_initialised true stol_zero) (gt114_prepared true stol_zero))
    as (_ & Hwire & s' & a & b & Hs & Ha & Hb & Hw).
  - vm_compute. reflexivity.
  - vm_compute. reflexivity.
  - vm_compute. reflexivity.
  - split; [vm_compute; reflexivity|].
    split; [rewrite Hwire; vm_compute; reflexivity|].
    exists a, b. split; [exact Ha|]. split; [exact Hb|].
    assert (E : gt114_crawling true stol_zero = s').
    { unfold gt114_crawling. rewrite Hs. reflexivity. }
    rewrite E, Hw.
    assert (Ei : frame_command AXIS1 "I"
                   (Long2BCDstr
                      (Slew_period AXIS1 (clamp_speed crawl_rate) true
                         (gt114_prepared true stol_zero)))
                 = str ":I1020000" ++ [CR]) by (vm_compute; reflexivity).
    rewrite Ei. reflexivity.
Defined.

(** ** Frames *)

Lemma exchange_writes_only_its_command_witness :
  exists n, (1 <= n <= 3)%nat /\
    writes_of (trace (MyPortFD (snd (SetGotoTargetOffset AXIS1 1000
                                       (driver_awaiting (reply "="))))))
    = repeat (str ":H1E80300" ++ [CR]) n.
Proof.
  exact (proj1 (proj2 (proj2 (exchange_writes_only_its_command AXIS1
                                (driver_awaiting (reply "="))))) 1000).
Defined.

